(** * kasaApi: the device connection manager of homebridge-kasa-python

    A shallow embedding of [src/python/kasaApi.py].  The three module-level
    dictionaries ([device_cache], [device_lock_cache], [device_config_cache])
    are fields of an explicit [World]; the device library (python-kasa) is an
    external collaborator whose answers are supplied by a [Library] record, so
    every theorem holds for every behaviour of the devices.  Coroutines are
    run to completion in program order: the embedding fixes the schedule in
    which [asyncio.gather] runs its tasks one after the other. *)

From Stdlib Require Import String Ascii List ZArith Bool Lia.
Import ListNotations.
Local Open Scope string_scope.
Local Open Scope list_scope.
Set Warnings "-register-all".

(** ** Python values and exceptions *)

(** The JSON-like values that travel through the service: request values on
    the way in, status snapshots on the way out.  Floats are not modelled. *)
Inductive PyVal : Type :=
| VNone
| VBool (b : bool)
| VInt (z : Z)
| VStr (s : string)
| VList (l : list PyVal)
| VTuple (l : list PyVal)
| VDict (d : list (string * PyVal)).

Inductive exn : Type :=
| ValueError (msg : string)
| AttributeError (msg : string)
| TypeError (msg : string)
| KeyError (key : string)
| IndexError (msg : string)
| UnboundLocalError (var : string)
| AuthenticationError (msg : string)
| UnsupportedDeviceError (msg : string)
| KasaException (msg : string).

(** [str(e)] as used in the [{"error": str(e)}] payloads. *)
Definition str_exn (e : exn) : string :=
  match e with
  | ValueError m | AttributeError m | TypeError m | IndexError m
  | AuthenticationError m | UnsupportedDeviceError m | KasaException m => m
  | KeyError k => String.append "'" (String.append k "'")
  | UnboundLocalError v =>
      String.append "cannot access local variable '"
        (String.append v "' where it is not associated with a value")
  end.

Inductive result (A : Type) : Type :=
| Ok (a : A)
| Raise (e : exn).
Arguments Ok {A} a.
Arguments Raise {A} e.

Definition rbind {A B} (r : result A) (k : A -> result B) : result B :=
  match r with
  | Ok a => k a
  | Raise e => Raise e
  end.

(** ** Insertion-ordered dictionaries with string keys

    Python dictionaries iterate in insertion order and assigning to an
    existing key keeps its position; the order decides the order of the
    device calls, so the dictionaries are association lists. *)

Definition dict (V : Type) : Type := list (string * V).

Section DictOps.
Context {V : Type}.

Fixpoint dict_get (d : dict V) (k : string) : option V :=
  match d with
  | [] => None
  | (k', v) :: r => if String.eqb k k' then Some v else dict_get r k
  end.

Definition dict_contains (d : dict V) (k : string) : bool :=
  match dict_get d k with
  | Some _ => true
  | None => false
  end.

(** [d[k] = v] *)
Fixpoint dict_put (d : dict V) (k : string) (v : V) : dict V :=
  match d with
  | [] => [(k, v)]
  | (k', v') :: r =>
      if String.eqb k k' then (k', v) :: r else (k', v') :: dict_put r k v
  end.

(** [d.pop(k, None)], the popped value being read beforehand by [dict_get] *)
Fixpoint dict_pop (d : dict V) (k : string) : dict V :=
  match d with
  | [] => []
  | (k', v') :: r =>
      if String.eqb k k' then dict_pop r k else (k', v') :: dict_pop r k
  end.

Definition dict_keys (d : dict V) : list string := map fst d.
Definition dict_values (d : dict V) : list V := map snd d.

(** [d.update(other)] *)
Definition dict_update (d other : dict V) : dict V :=
  fold_left (fun acc kv => dict_put acc (fst kv) (snd kv)) other d.
End DictOps.

(** ** The device library's objects *)

(** [kasa.DeviceType]; [DeviceType_value] is the enum member's [.value] and
    [DeviceType_str] its [str()], as the library declares them. *)
Inductive DeviceType : Type :=
| Plug | Bulb | Strip | Camera | WallSwitch | StripSocket | Dimmer
| LightStrip | Sensor | Hub | Fan | Thermostat | Vacuum | Chime | Doorbell
| Unknown.

Definition DeviceType_value (t : DeviceType) : string :=
  match t with
  | Plug => "plug" | Bulb => "bulb" | Strip => "strip" | Camera => "camera"
  | WallSwitch => "wallswitch" | StripSocket => "stripsocket"
  | Dimmer => "dimmer" | LightStrip => "lightstrip" | Sensor => "sensor"
  | Hub => "hub" | Fan => "fan" | Thermostat => "thermostat"
  | Vacuum => "vacuum" | Chime => "chime" | Doorbell => "doorbell"
  | Unknown => "unknown"
  end.

Definition DeviceType_str (t : DeviceType) : string :=
  String.append "DeviceType."
    match t with
    | Plug => "Plug" | Bulb => "Bulb" | Strip => "Strip" | Camera => "Camera"
    | WallSwitch => "WallSwitch" | StripSocket => "StripSocket"
    | Dimmer => "Dimmer" | LightStrip => "LightStrip" | Sensor => "Sensor"
    | Hub => "Hub" | Fan => "Fan" | Thermostat => "Thermostat"
    | Vacuum => "Vacuum" | Chime => "Chime" | Doorbell => "Doorbell"
    | Unknown => "Unknown"
    end.

Definition UNSUPPORTED_TYPES : list string :=
  [ DeviceType_value Camera; DeviceType_value Sensor; DeviceType_value Hub;
    DeviceType_value Fan; DeviceType_value Thermostat;
    DeviceType_value Vacuum; DeviceType_value Unknown ].

(** The reconnection parameters of a host ([DeviceConfig], and the
    dictionary [to_dict] makes of it, which carries the same data). *)
Record DeviceConfig : Type := {
  config_host : string;
  config_port : option Z;
  config_credentials : option (string * string)
}.

(** [Module.Light] of a device: which sub-features it supports and what it
    currently reports. *)
Record LightModule : Type := {
  has_brightness : bool;
  has_color_temp : bool;
  has_hsv : bool;
  brightness : Z;
  color_temp : Z;
  hsv : Z * Z * Z;
  valid_temperature_range : Z * Z
}.

Record FanModule : Type := {
  fan_speed_level : Z
}.

(** The attributes of a [kasa.Device] that the service reads.
    [state] is [features["state"].value], absent when the device has no such
    feature; [light] and [fan] are [modules.get(Module.Light)] and
    [modules.get(Module.Fan)]. *)
Inductive Device : Type := mkDevice {
  alias : option string;
  host : string;
  device_id : string;
  mac : string;
  sys_info_deviceId : option string;
  device_type : DeviceType;
  model : string;
  hardware_version : string;
  firmware_version : string;
  state : option bool;
  light : option LightModule;
  fan : option FanModule;
  homekit : bool;
  matter : bool;
  config : DeviceConfig;
  children : list Device
}.

(** A device object is identified by its position in the object store. *)
Definition ref : Type := nat.
Definition lock : Type := nat.

(** Where a call lands: on the device object itself or on one of its
    capability modules. *)
Inductive Part : Type := OnDevice | OnLight | OnFan.

Inductive Event : Type :=
| EConnect (cfg : DeviceConfig)
| EDiscover (target : string)
| EDiscoverSingle (h : string)
| EUpdate (r : ref)
| EDisconnect (r : ref)
| ECall (r : ref) (child : option nat) (p : Part) (name : string)
        (args : list PyVal)
| EAcquire (l : lock)
| ERelease (l : lock).

(** What the device library and the devices behind it answer.  The first
    argument of every field is the number of library calls made so far, so an
    answer may change from one call to the next. *)
Record Library : Type := {
  lib_connect : nat -> DeviceConfig -> exn + Device;
  lib_update : nat -> ref -> Device -> exn + Device;
  lib_disconnect : nat -> ref -> option exn;
  lib_call : nat -> ref -> option nat -> Part -> string -> list PyVal ->
             option exn;
  lib_discover : nat -> string -> option (string * string) ->
                 exn + list Device;
  lib_discover_single : nat -> string -> option (string * string) ->
                        exn + Device
}.

(** ** The state of the service *)

(** The locals [device] and [device_config] of the running function, which
    its [except] blocks read: [None] is an unbound name, [Some None] a name
    bound to Python's [None]. *)
Record Frame : Type := {
  loc_device : option (option ref);
  loc_device_config : option DeviceConfig
}.

Definition empty_frame : Frame :=
  {| loc_device := None; loc_device_config := None |}.

Record World : Type := {
  device_cache : dict ref;
  device_lock_cache : dict lock;
  device_config_cache : dict DeviceConfig;
  heap : list Device;
  next_lock : nat;
  clock : nat;
  trace : list Event;
  frame : Frame
}.

Definition set_device_cache (c : dict ref) (w : World) : World :=
  {| device_cache := c; device_lock_cache := device_lock_cache w;
     device_config_cache := device_config_cache w; heap := heap w;
     next_lock := next_lock w; clock := clock w; trace := trace w;
     frame := frame w |}.

Definition set_device_lock_cache (c : dict lock) (w : World) : World :=
  {| device_cache := device_cache w; device_lock_cache := c;
     device_config_cache := device_config_cache w; heap := heap w;
     next_lock := next_lock w; clock := clock w; trace := trace w;
     frame := frame w |}.

Definition set_device_config_cache (c : dict DeviceConfig) (w : World)
  : World :=
  {| device_cache := device_cache w;
     device_lock_cache := device_lock_cache w;
     device_config_cache := c; heap := heap w;
     next_lock := next_lock w; clock := clock w; trace := trace w;
     frame := frame w |}.

Definition set_heap (h : list Device) (w : World) : World :=
  {| device_cache := device_cache w;
     device_lock_cache := device_lock_cache w;
     device_config_cache := device_config_cache w; heap := h;
     next_lock := next_lock w; clock := clock w; trace := trace w;
     frame := frame w |}.

Definition set_next_lock (n : nat) (w : World) : World :=
  {| device_cache := device_cache w;
     device_lock_cache := device_lock_cache w;
     device_config_cache := device_config_cache w; heap := heap w;
     next_lock := n; clock := clock w; trace := trace w;
     frame := frame w |}.

(** One library call: the clock advances and the call is logged. *)
Definition log (e : Event) (w : World) : World :=
  {| device_cache := device_cache w;
     device_lock_cache := device_lock_cache w;
     device_config_cache := device_config_cache w; heap := heap w;
     next_lock := next_lock w; clock := S (clock w);
     trace := trace w ++ [e]; frame := frame w |}.

(** Lock operations are logged but are no library calls. *)
Definition note (e : Event) (w : World) : World :=
  {| device_cache := device_cache w;
     device_lock_cache := device_lock_cache w;
     device_config_cache := device_config_cache w; heap := heap w;
     next_lock := next_lock w; clock := clock w;
     trace := trace w ++ [e]; frame := frame w |}.

Definition set_frame (f : Frame) (w : World) : World :=
  {| device_cache := device_cache w;
     device_lock_cache := device_lock_cache w;
     device_config_cache := device_config_cache w; heap := heap w;
     next_lock := next_lock w; clock := clock w; trace := trace w;
     frame := f |}.

Definition empty_world : World :=
  {| device_cache := []; device_lock_cache := []; device_config_cache := [];
     heap := []; next_lock := 0; clock := 0; trace := [];
     frame := empty_frame |}.

(** ** The monad of the service: state and exceptions *)

Definition M (A : Type) : Type := World -> result A * World.

Definition ret {A} (a : A) : M A := fun w => (Ok a, w).

Definition raise {A} (e : exn) : M A := fun w => (Raise e, w).

Definition bind {A B} (m : M A) (k : A -> M B) : M B :=
  fun w =>
    match m w with
    | (Ok a, w') => k a w'
    | (Raise e, w') => (Raise e, w')
    end.

(** [try: m except Exception as e: h e]; what [m] did to the state before
    it raised stays done. *)
Definition try_except {A} (m : M A) (h : exn -> M A) : M A :=
  fun w =>
    match m w with
    | (Ok a, w') => (Ok a, w')
    | (Raise e, w') => h e w'
    end.

Definition lift {A} (r : result A) : M A := fun w => (r, w).

Definition gets {A} (f : World -> A) : M A := fun w => (Ok (f w), w).

Definition modify (f : World -> World) : M unit := fun w => (Ok tt, f w).

Declare Scope py_scope.
Delimit Scope py_scope with py.
Notation "x <- m ;; k" := (bind m (fun x => k))
  (at level 61, m at next level, right associativity) : py_scope.
Notation "m ;; k" := (bind m (fun _ => k))
  (at level 61, right associativity) : py_scope.
Notation "'try' m 'except' e => h" := (try_except m (fun e => h))
  (at level 61, m at level 200, e name, h at level 200) : py_scope.
Local Open Scope py_scope.

(** A function call: the callee runs in a frame of its own and the caller's
    frame is back when it returns or raises. *)
Definition call {A} (body : M A) : M A :=
  fun w =>
    let saved := frame w in
    let rw := body (set_frame empty_frame w) in
    (fst rw, set_frame saved (snd rw)).

Fixpoint for_each {A} (l : list A) (body : A -> M unit) : M unit :=
  match l with
  | [] => ret tt
  | x :: r => body x ;; for_each r body
  end.

(** A loop that carries an accumulator through its iterations. *)
Fixpoint fold_each {A S} (l : list A) (s : S) (body : S -> A -> M S)
  : M S :=
  match l with
  | [] => ret s
  | x :: r => s' <- body s x ;; fold_each r s' body
  end.

(** ** Python's comparisons on request values *)

(** The number a value counts as in a comparison ([bool] is a subclass of
    [int]); [None] for the values that do not compare with an [int]. *)
Definition py_num (v : PyVal) : option Z :=
  match v with
  | VInt z => Some z
  | VBool b => Some (if b then 1 else 0)%Z
  | _ => None
  end.

Definition not_comparable {A} : result A :=
  Raise (TypeError "'<' not supported between these instances").

(** [value == 0] *)
Definition py_eq_zero (v : PyVal) : bool :=
  match py_num v with
  | Some z => (z =? 0)%Z
  | None => false
  end.

(** [0 < value <= 100] *)
Definition py_in_0_100 (v : PyVal) : result bool :=
  match py_num v with
  | Some z => Ok ((0 <? z)%Z && (z <=? 100)%Z)
  | None => not_comparable
  end.

(** [min(a, b)] yields [a] unless [b < a]; [max(a, b)] yields [a] unless
    [b > a]. *)
Definition py_min (a b : PyVal) : result PyVal :=
  match py_num a, py_num b with
  | Some x, Some y => Ok (if (y <? x)%Z then b else a)
  | _, _ => not_comparable
  end.

Definition py_max (a b : PyVal) : result PyVal :=
  match py_num a, py_num b with
  | Some x, Some y => Ok (if (x <? y)%Z then b else a)
  | _, _ => not_comparable
  end.

(** [value[key]] *)
Definition py_getitem (v : PyVal) (key : string) : result PyVal :=
  match v with
  | VDict d =>
      match dict_get d key with
      | Some x => Ok x
      | None => Raise (KeyError key)
      end
  | _ => Raise (TypeError "object is not subscriptable by a string")
  end.

(** [l[i]] with Python's negative indices; the position found is returned
    with the element. *)
Definition py_index {A} (l : list A) (i : Z) : result (nat * A) :=
  let n := Z.of_nat (length l) in
  let j := if (i <? 0)%Z then (n + i)%Z else i in
  if (j <? 0)%Z then Raise (IndexError "list index out of range")
  else
    match nth_error l (Z.to_nat j) with
    | Some a => Ok (Z.to_nat j, a)
    | None => Raise (IndexError "list index out of range")
    end.

Fixpoint list_set {A} (l : list A) (i : nat) (a : A) : list A :=
  match l, i with
  | [], _ => []
  | _ :: r, O => a :: r
  | x :: r, S i' => x :: list_set r i' a
  end.

(** ** Serialization of a device's status *)

Definition opt_str (o : option string) : PyVal :=
  match o with
  | Some s => VStr s
  | None => VNone
  end.

Definition no_attribute {A} (name : string) : result A :=
  Raise (AttributeError
           (String.append "'NoneType' object has no attribute '"
              (String.append name "'"))).

(** [module.has_feature(name)] for the three names the service asks for;
    on a missing module the attribute lookup on [None] fails. *)
Definition has_feature (m : option LightModule) (name : string)
  : result bool :=
  match m with
  | None => no_attribute "has_feature"
  | Some lm =>
      Ok (if name =? "brightness" then has_brightness lm
          else if name =? "color_temp" then has_color_temp lm
          else if name =? "hsv" then has_hsv lm
          else false)
  end.

(** [s.split("_", 1)[1]] when ["_" in s]: what follows the first underscore *)
Fixpoint after_underscore (s : string) : option string :=
  match s with
  | EmptyString => None
  | String c r => if Ascii.eqb c "_"%char then Some r else after_underscore r
  end.

Definition get_light_info (device : Device) : result (dict PyVal) :=
  let light_module := light device in
  let light_info : dict PyVal := [] in
  rbind (has_feature light_module "brightness") (fun b =>
  rbind (if b
         then match light_module with
              | Some lm => Ok (dict_put light_info "brightness"
                                 (VInt (brightness lm)))
              | None => no_attribute "brightness"
              end
         else Ok light_info) (fun light_info =>
  rbind (has_feature light_module "color_temp") (fun c =>
  rbind (if c
         then match light_module with
              | Some lm => Ok (dict_put light_info "color_temp"
                                 (VInt (color_temp lm)))
              | None => no_attribute "color_temp"
              end
         else Ok light_info) (fun light_info =>
  rbind (has_feature light_module "hsv") (fun h =>
  if h
  then match light_module with
       | Some lm =>
           let '(hue, saturation, _) := hsv lm in
           Ok (dict_put light_info "hsv"
                 (VDict [("hue", VInt hue); ("saturation", VInt saturation)]))
       | None => no_attribute "hsv"
       end
  else Ok light_info))))).

(** [device.features["state"].value] *)
Definition state_value (device : Device) : result PyVal :=
  match state device with
  | Some b => Ok (VBool b)
  | None => Raise (KeyError "state")
  end.

Definition is_some {A} (o : option A) : bool :=
  match o with
  | Some _ => true
  | None => false
  end.

Definition serialize_child (child : Device) : result PyVal :=
  rbind (state_value child) (fun st =>
  let child_info : dict PyVal :=
    [ ("alias", opt_str (alias child));
      ("id", match after_underscore (device_id child) with
             | Some rest => VStr rest
             | None => VStr (device_id child)
             end);
      ("state", st) ] in
  let light_module := light child in
  rbind (if is_some light_module
         then rbind (get_light_info child) (fun li =>
              Ok (dict_update child_info li))
         else Ok child_info) (fun child_info =>
  let fan_module := fan child in
  Ok (VDict
        match fan_module with
        | Some fm =>
            dict_update child_info
              [("fan_speed_level", VInt (fan_speed_level fm))]
        | None => child_info
        end))).

(** [[f(x) for x in l]], stopping at the first exception *)
Fixpoint map_result {A B} (f : A -> result B) (l : list A)
  : result (list B) :=
  match l with
  | [] => Ok []
  | x :: r =>
      rbind (f x) (fun y => rbind (map_result f r) (fun ys => Ok (y :: ys)))
  end.

(** [x or y] on an optional string: [None] and the empty string are falsy *)
Definition str_or (o : option string) (dflt : string) : string :=
  match o with
  | Some EmptyString | None => dflt
  | Some s => s
  end.

Definition custom_serializer (device : Device) : result PyVal :=
  let child_num := length (children device) in
  let sys_info : dict PyVal :=
    [ ("alias",
       VStr (str_or (alias device)
               (String.append (DeviceType_str (device_type device))
                  (String.append "_" (host device)))));
      ("child_num", VInt (Z.of_nat child_num));
      ("device_id",
       if negb (mac device =? device_id device)
       then VStr (device_id device)
       else opt_str (sys_info_deviceId device));
      ("device_type", VStr (DeviceType_value (device_type device)));
      ("host", VStr (host device));
      ("hw_ver", VStr (hardware_version device));
      ("mac", VStr (mac device));
      ("model", VStr (model device));
      ("sw_ver", VStr (firmware_version device)) ] in
  let light_module := light device in
  let fan_module := fan device in
  rbind
    (if (0 <? child_num)%nat
     then rbind (map_result serialize_child (children device)) (fun cs =>
          Ok (dict_put sys_info "children" (VList cs)))
     else
       rbind (state_value device) (fun st =>
       let sys_info := dict_update sys_info [("state", st)] in
       rbind (if is_some light_module
              then rbind (get_light_info device) (fun li =>
                   Ok (dict_update sys_info li))
              else Ok sys_info) (fun sys_info =>
       Ok match fan_module with
          | Some fm =>
              dict_update sys_info
                [("fan_speed_level", VInt (fan_speed_level fm))]
          | None => sys_info
          end)))
    (fun sys_info =>
  let feature_info : dict PyVal :=
    [ ("brightness", VBool false); ("color_temp", VBool false);
      ("hsv", VBool false); ("fan", VBool false) ] in
  rbind (match light_module with
         | Some lm =>
             Ok (dict_update feature_info
                   [ ("brightness", VBool (has_brightness lm));
                     ("color_temp", VBool (has_color_temp lm));
                     ("hsv", VBool (has_hsv lm)) ])
         | None => Ok feature_info
         end) (fun feature_info =>
  let feature_info :=
    if is_some fan_module
    then dict_update feature_info [("fan", VBool true)]
    else feature_info in
  Ok (VDict [ ("sys_info", VDict sys_info);
              ("feature_info", VDict feature_info) ]))).

(** ** The service *)

(** The target of a dispatch: the device object, the child addressed in it
    (if any) and the attributes of the device or child. *)
Record Target : Type := {
  t_ref : ref;
  t_child : option nat;
  t_dev : Device
}.

(** The attributes read through a reference nobody allocated. *)
Definition no_device : Device :=
  {| alias := None; host := ""; device_id := ""; mac := "";
     sys_info_deviceId := None; device_type := Unknown; model := "";
     hardware_version := ""; firmware_version := ""; state := None;
     light := None; fan := None; homekit := false; matter := false;
     config := {| config_host := ""; config_port := None;
                  config_credentials := None |};
     children := [] |}.

(** [DeviceConfig.from_dict]: the library rejects what is no dictionary, in
    particular the [None] that [device_config_cache.get] yields for an
    unknown host. *)
Definition DeviceConfig_from_dict (d : option DeviceConfig)
  : result DeviceConfig :=
  match d with
  | Some c => Ok c
  | None => Raise (KasaException "Invalid device config data")
  end.

Section Service.
Variable L : Library.
Variable hide_homekit_matter : bool.

(** *** The object store *)

Definition deref (r : ref) : M Device :=
  gets (fun w => nth r (heap w) no_device).

Definition alloc (d : Device) : M ref :=
  fun w => (Ok (length (heap w)), set_heap (heap w ++ [d]) w).

(** *** Calls into the device library *)

(** [await Device.connect(config=cfg)] *)
Definition Device_connect (cfg : DeviceConfig) : M ref :=
  fun w =>
    match lib_connect L (clock w) cfg with
    | inl e => (Raise e, log (EConnect cfg) w)
    | inr d => alloc d (log (EConnect cfg) w)
    end.

(** [await device.update()]: the object's attributes are refreshed in
    place, for every holder of the reference. *)
Definition update (r : ref) : M unit :=
  fun w =>
    match lib_update L (clock w) r (nth r (heap w) no_device) with
    | inl e => (Raise e, log (EUpdate r) w)
    | inr d => (Ok tt, set_heap (list_set (heap w) r d) (log (EUpdate r) w))
    end.

(** [await device.disconnect()] *)
Definition disconnect (r : ref) : M unit :=
  fun w =>
    match lib_disconnect L (clock w) r with
    | Some e => (Raise e, log (EDisconnect r) w)
    | None => (Ok tt, log (EDisconnect r) w)
    end.

(** [await getattr(obj, name)] applied to the arguments, [obj] being the
    target or one of its modules; the library answers for a missing
    attribute too. *)
Definition invoke (t : Target) (p : Part) (name : string)
    (args : list PyVal) : M unit :=
  fun w =>
    match lib_call L (clock w) (t_ref t) (t_child t) p name args with
    | Some e => (Raise e, log (ECall (t_ref t) (t_child t) p name args) w)
    | None => (Ok tt, log (ECall (t_ref t) (t_child t) p name args) w)
    end.

(** [await getattr(module, name)] applied to the arguments, on a module
    that may be [None] *)
Definition invoke_module {X} (m : option X) (t : Target) (p : Part)
    (name : string) (args : list PyVal) : M unit :=
  match m with
  | Some _ => invoke t p name args
  | None => lift (no_attribute name)
  end.

(** *** Locks *)

(** [asyncio.Lock()] *)
Definition asyncio_Lock : M lock :=
  fun w => (Ok (next_lock w), set_next_lock (S (next_lock w)) w).

(** [device_lock_cache.get(host, asyncio.Lock())]: the default is built
    before the lookup and is not stored. *)
Definition device_lock_cache_get (h : string) : M lock :=
  dflt <- asyncio_Lock ;;
  locks <- gets device_lock_cache ;;
  ret match dict_get locks h with
      | Some l => l
      | None => dflt
      end.

(** [async with l: body] *)
Definition async_with {A} (l : lock) (body : M A) : M A :=
  fun w =>
    let rw := body (note (EAcquire l) w) in
    (fst rw, note (ERelease l) (snd rw)).

(** *** Local variables *)

Definition assign_device (v : option ref) : M unit :=
  modify (fun w =>
    set_frame {| loc_device := Some v;
                 loc_device_config := loc_device_config (frame w) |} w).

Definition assign_device_config (c : DeviceConfig) : M unit :=
  modify (fun w =>
    set_frame {| loc_device := loc_device (frame w);
                 loc_device_config := Some c |} w).

Definition read_device : M (option ref) :=
  fun w =>
    match loc_device (frame w) with
    | Some v => (Ok v, w)
    | None => (Raise (UnboundLocalError "device"), w)
    end.

Definition read_device_config : M DeviceConfig :=
  fun w =>
    match loc_device_config (frame w) with
    | Some c => (Ok c, w)
    | None => (Raise (UnboundLocalError "device_config"), w)
    end.

(** [if device: await device.disconnect()]; a device object is truthy *)
Definition disconnect_if_device : M unit :=
  device <- read_device ;;
  match device with
  | Some r => disconnect r
  | None => ret tt
  end.

(** [device_cache.pop(host, None)] *)
Definition device_cache_pop (h : string) : M unit :=
  modify (fun w => set_device_cache (dict_pop (device_cache w) h) w).

(** *** Resolving a handle *)

Definition get_or_connect_device (h : string)
    (device_config : DeviceConfig) : M ref :=
  call (
    try (
      cached <- gets (fun w => dict_get (device_cache w) h) ;;
      assign_device cached ;;
      match cached with
      | Some device => ret device
      | None =>
          device <- Device_connect device_config ;;
          assign_device (Some device) ;;
          modify (fun w =>
            set_device_cache (dict_put (device_cache w) h device) w) ;;
          ret device
      end)
    except e =>
      (disconnect_if_device ;;
       device_cache_pop h ;;
       raise e)).

(** *** Dispatching an action *)

Definition turn_off (t : Target) : M unit := invoke t OnDevice "turn_off" [].
Definition turn_on (t : Target) : M unit := invoke t OnDevice "turn_on" [].

Definition handle_brightness (target : Target) (action : string)
    (value : PyVal) : M unit :=
  let light := light (t_dev target) in
  if py_eq_zero value then turn_off target
  else
    in_range <- lift (py_in_0_100 value) ;;
    if in_range then invoke_module light target OnLight action [value]
    else turn_on target.

Definition handle_color_temp (target : Target) (action : string)
    (value : PyVal) : M unit :=
  let light := light (t_dev target) in
  range <- lift match light with
                | Some lm => Ok (valid_temperature_range lm)
                | None => no_attribute "valid_temperature_range"
                end ;;
  let '(min_temp, max_temp) := range in
  low <- lift (py_min value (VInt max_temp)) ;;
  value <- lift (py_max low (VInt min_temp)) ;;
  invoke_module light target OnLight action [value].

Definition handle_fan_speed_level (target : Target) (action : string)
    (value : PyVal) : M unit :=
  let fan := fan (t_dev target) in
  if py_eq_zero value then turn_off target
  else
    in_range <- lift (py_in_0_100 value) ;;
    if in_range then invoke_module fan target OnFan action [value]
    else turn_on target.

Definition handle_hsv (target : Target) (action : string)
    (feature : string) (value : PyVal) : M unit :=
  let light := light (t_dev target) in
  hsv <- lift match light with
              | Some lm =>
                  let '(h, s, v) := hsv lm in Ok [VInt h; VInt s; VInt v]
              | None => no_attribute "hsv"
              end ;;
  hsv <- (if feature =? "hue"
          then x <- lift (py_getitem value "hue") ;;
               ret (list_set hsv 0 x)
          else if feature =? "saturation"
          then x <- lift (py_getitem value "saturation") ;;
               ret (list_set hsv 1 x)
          else ret hsv) ;;
  invoke_module light target OnLight action [VTuple hsv].

(** [device.children[child_num] if child_num is not None else device] *)
Definition select_target (device : ref) (d : Device)
    (child_num : option Z) : result Target :=
  match child_num with
  | Some i =>
      rbind (py_index (children d) i) (fun ic =>
      Ok {| t_ref := device; t_child := Some (fst ic); t_dev := snd ic |})
  | None => Ok {| t_ref := device; t_child := None; t_dev := d |}
  end.

(** [a and b], [b] being evaluated only when [a] holds *)
Definition py_and (a : bool) (b : result bool) : result bool :=
  if a then b else Ok false.

Definition perform_device_action (device : ref) (feature action : string)
    (value : PyVal) (child_num : option Z) : M PyVal :=
  d <- deref device ;;
  target <- lift (select_target device d child_num) ;;
  let light := light (t_dev target) in
  let fan := fan (t_dev target) in
  (if feature =? "state" then invoke target OnDevice action []
   else
     c1 <- lift (py_and (feature =? "brightness")
                   (has_feature light "brightness")) ;;
     if c1 then handle_brightness target action value
     else
       c2 <- lift (py_and (feature =? "color_temp")
                     (has_feature light "color_temp")) ;;
       if c2 then handle_color_temp target action value
       else if (feature =? "fan_speed_level") && is_some fan
       then handle_fan_speed_level target action value
       else
         c4 <- lift (py_and ((feature =? "hue") || (feature =? "saturation"))
                       (has_feature light "hsv")) ;;
         if c4 then handle_hsv target action feature value
         else raise (ValueError "Invalid feature or action")) ;;
  ret (VDict [("status", VStr "success")]).

(** *** Control and status requests *)

Definition error_payload (e : exn) : PyVal :=
  VDict [("error", VStr (str_exn e))].

(** The last [except] block of a request: invalidate what is left and hand
    the failure back as a value. *)
Definition report_failure (h : string) (e : exn) : M PyVal :=
  disconnect_if_device ;;
  device_cache_pop h ;;
  ret (error_payload e).

(** The [try] block of [control_device]: the first attempt. *)
Definition control_first_attempt (h : string) (feature action : string)
    (value : PyVal) (child_num : option Z) : M PyVal :=
  device_config_dict <- gets (fun w => dict_get (device_config_cache w) h) ;;
  device_config <- lift (DeviceConfig_from_dict device_config_dict) ;;
  assign_device_config device_config ;;
  device_lock <- device_lock_cache_get h ;;
  async_with device_lock (
    device <- get_or_connect_device h device_config ;;
    assign_device (Some device) ;;
    perform_device_action device feature action value child_num).

(** The [try] block of its [except] block: invalidate, then the retry. *)
Definition control_retry (h : string) (feature action : string)
    (value : PyVal) (child_num : option Z) : M PyVal :=
  disconnect_if_device ;;
  device_cache_pop h ;;
  device_lock <- device_lock_cache_get h ;;
  async_with device_lock (
    device_config <- read_device_config ;;
    device <- get_or_connect_device h device_config ;;
    assign_device (Some device) ;;
    perform_device_action device feature action value child_num).

Definition control_device (h : string) (feature action : string)
    (value : PyVal) (child_num : option Z) : M PyVal :=
  call (
    try control_first_attempt h feature action value child_num
    except e =>
      try control_retry h feature action value child_num
      except e => report_failure h e).

(** [{"sys_info": device_info["sys_info"]}] *)
Definition sys_info_of (device_info : PyVal) : result PyVal :=
  rbind (py_getitem device_info "sys_info") (fun si =>
  Ok (VDict [("sys_info", si)])).

(** The [try] block of [get_sys_info]: the first attempt. *)
Definition status_first_attempt (h : string) : M PyVal :=
  device_config_dict <- gets (fun w => dict_get (device_config_cache w) h) ;;
  device_config <- lift (DeviceConfig_from_dict device_config_dict) ;;
  assign_device_config device_config ;;
  device_lock <- device_lock_cache_get h ;;
  async_with device_lock (
    device <- get_or_connect_device h device_config ;;
    assign_device (Some device) ;;
    update device ;;
    d <- deref device ;;
    device_info <- lift (custom_serializer d) ;;
    lift (sys_info_of device_info)).

(** The [try] block of its [except] block: invalidate, then the retry. *)
Definition status_retry (h : string) : M PyVal :=
  disconnect_if_device ;;
  device_cache_pop h ;;
  device_lock <- device_lock_cache_get h ;;
  async_with device_lock (
    device_config <- read_device_config ;;
    device <- get_or_connect_device h device_config ;;
    assign_device (Some device) ;;
    d <- deref device ;;
    device_info <- lift (custom_serializer d) ;;
    lift (sys_info_of device_info)).

Definition get_sys_info (h : string) : M PyVal :=
  call (
    try status_first_attempt h
    except e =>
      try status_retry h
      except e => report_failure h e).

(** *** Discovery *)

Definition close_all_connections : M unit :=
  cache <- gets device_cache ;;
  match cache with
  | [] => ret tt
  | _ :: _ =>
      (* gathered with [return_exceptions=True]: failures are dropped *)
      for_each (dict_values cache) (fun device =>
        try disconnect device except e => ret tt) ;;
      modify (set_device_cache [])
  end.

(** [on_discovered]: probe the new device; its host joins
    [devices_to_remove] when the probe fails, whatever the error. *)
Definition on_discovered (device : ref) (devices_to_remove : list string)
  : M (list string) :=
  try (update device ;; ret devices_to_remove)
  except e =>
    (d <- deref device ;;
     ret (devices_to_remove ++ [host d])).

(** [await Discover.discover(target, credentials, on_discovered)]: the
    library makes a device object for every answer, runs the callback on
    it, and returns the objects keyed by host. *)
Definition Discover_discover (target : string)
    (credentials : option (string * string))
    (devices_to_remove : list string)
  : M (dict ref * list string) :=
  fun w =>
    match lib_discover L (clock w) target credentials with
    | inl e => (Raise e, log (EDiscover target) w)
    | inr found =>
        fold_each found ([], devices_to_remove)
          (fun acc d =>
             device <- alloc d ;;
             to_remove <- on_discovered device (snd acc) ;;
             ret (dict_put (fst acc) (host d) device, to_remove))
          (log (EDiscover target) w)
    end.

(** [await Discover.discover_single(host, credentials)] *)
Definition Discover_discover_single (h : string)
    (credentials : option (string * string)) : M ref :=
  fun w =>
    match lib_discover_single L (clock w) h credentials with
    | inl e => (Raise e, log (EDiscoverSingle h) w)
    | inr d => alloc d (log (EDiscoverSingle h) w)
    end.

(** The locals [devices] and [devices_to_remove] of a sweep. *)
Definition Found : Type := (dict ref * list string)%type.

Definition discover_on_broadcast
    (credentials : option (string * string)) (found : Found)
    (broadcast : string) : M Found :=
  try (
    res <- Discover_discover broadcast credentials (snd found) ;;
    configs <- gets device_config_cache ;;
    let discovered :=
      fold_left (fun acc h =>
                   if dict_contains configs h then dict_pop acc h else acc)
        (dict_keys (fst res)) (fst res) in
    ret (dict_update (fst found) discovered, snd res))
  except e => ret found.

Definition discover_manual_device
    (credentials : option (string * string)) (found : Found)
    (h : string) : M Found :=
  configs <- gets device_config_cache ;;
  if dict_contains (fst found) h || dict_contains configs h then ret found
  else
    try (
      device <- Discover_discover_single h credentials ;;
      to_remove <- on_discovered device (snd found) ;;
      ret (dict_put (fst found) h device, to_remove))
    except e => ret found.

(** One surviving device's snapshot, or the exception its serialization
    raised. *)
Definition create_device_info (h : string) (device : ref)
  : M (string * (exn + PyVal)) :=
  try (
    d <- deref device ;;
    device_info <- lift (custom_serializer d) ;;
    modify (fun w =>
      set_device_config_cache
        (dict_put (device_config_cache w) h (config d)) w) ;;
    si <- lift (py_getitem device_info "sys_info") ;;
    fi <- lift (py_getitem device_info "feature_info") ;;
    ret (h, inr (VDict [("sys_info", si); ("feature_info", fi)])))
  except e => ret (h, inl e).

(** The loop over [devices.items()] that probes, filters and registers
    the devices of the sweep; it returns the [update_tasks]. *)
Definition classify_device (update_tasks : list (string * ref))
    (item : string * ref) : M (list (string * ref)) :=
  let '(h, device) := item in
  probed <- (try (update device ;; ret true)
             except e => (disconnect device ;; ret false)) ;;
  if negb probed then ret update_tasks
  else
    skipped <- (try (
                  if hide_homekit_matter
                  then d <- deref device ;;
                       if homekit d || matter d
                       then disconnect device ;; ret true
                       else ret false
                  else ret false)
                except e => (disconnect device ;; ret true)) ;;
    if skipped then ret update_tasks
    else
      d <- deref device ;;
      let device_type := DeviceType_value (device_type d) in
      if negb (device_type =? "")
         && negb (existsb (String.eqb device_type) UNSUPPORTED_TYPES)
      then
        modify (fun w =>
          if dict_contains (device_cache w) h then w
          else set_device_cache (dict_put (device_cache w) h device) w) ;;
        locks <- gets device_lock_cache ;;
        (if dict_contains locks h then ret tt
         else l <- asyncio_Lock ;;
              modify (fun w =>
                set_device_lock_cache
                  (dict_put (device_lock_cache w) h l) w)) ;;
        ret (update_tasks ++ [(h, device)])
      else
        disconnect device ;; ret update_tasks.

(** The loop over the gathered results. *)
Definition collect_result (all_device_info : dict PyVal)
    (res : string * (exn + PyVal)) : M (dict PyVal) :=
  let '(h, info) := res in
  match info with
  | inl _ =>
      (try (
         device_config_dict <- gets (fun w =>
                                 dict_get (device_config_cache w) h) ;;
         match device_config_dict with
         | Some c =>
             device_config <- lift (DeviceConfig_from_dict (Some c)) ;;
             device <- get_or_connect_device h device_config ;;
             disconnect device
         | None => ret tt
         end ;;
         device_cache_pop h)
       except e => ret tt) ;;
      ret all_device_info
  | inr info => ret (dict_put all_device_info h info)
  end.

(** [discover_devices] up to and including the collection of the results:
    it returns the sweep's [devices] with [all_device_info]. *)
Definition discover_sweep (username password : option string)
    (additional_broadcasts manual_devices : list string)
  : M (dict ref * dict PyVal) :=
  let broadcasts := "255.255.255.255" :: additional_broadcasts in
  let credentials :=
    match username, password with
    | Some u, Some p =>
        if negb (u =? "") && negb (p =? "") then Some (u, p) else None
    | _, _ => None
    end in
  cache <- gets device_cache ;;
  match cache with
  | [] => ret tt
  | _ :: _ => call close_all_connections
  end ;;
  found <- fold_each broadcasts ([], []) (discover_on_broadcast credentials) ;;
  found <- fold_each manual_devices found
             (discover_manual_device credentials) ;;
  let '(devices, devices_to_remove) := found in
  devices <- fold_each devices_to_remove devices (fun devices h =>
               match dict_get devices h with
               | Some device =>
                   disconnect device ;; ret (dict_pop devices h)
               | None => ret devices
               end) ;;
  configs <- gets device_config_cache ;;
  devices <- fold_each configs devices (fun devices item =>
               let '(h, device_config_dict) := item in
               if dict_contains devices h then ret devices
               else
                 device_config <- lift (DeviceConfig_from_dict
                                          (Some device_config_dict)) ;;
                 device <- Device_connect device_config ;;
                 ret (dict_put devices h device)) ;;
  update_tasks <- fold_each devices [] classify_device ;;
  results <- fold_each update_tasks [] (fun results task =>
               res <- call (create_device_info (fst task) (snd task)) ;;
               ret (results ++ [res])) ;;
  all_device_info <- fold_each results [] collect_result ;;
  ret (devices, all_device_info).

(** The last loop of [discover_devices]: disconnect what the sweep holds,
    a failure to disconnect being logged and passed over. *)
Definition disconnect_sweep (devices : dict ref) : M unit :=
  for_each devices (fun item =>
    try disconnect (snd item) except e => ret tt).

Definition discover_devices (username password : option string)
    (additional_broadcasts manual_devices : list string)
  : M (dict PyVal) :=
  call (
    swept <- discover_sweep username password additional_broadcasts
               manual_devices ;;
    disconnect_sweep (fst swept) ;;
    ret (snd swept)).

(** The shutdown hook. *)
Definition cleanup : M unit :=
  call close_all_connections ;;
  modify (set_device_lock_cache []) ;;
  modify (set_device_config_cache []).

End Service.

(** ** Shapes of a status snapshot *)



Definition mem (k : string) (l : list string) : bool :=
  existsb (String.eqb k) l.

Definition keys_eqb (a b : list string) : bool :=
  if list_eq_dec string_dec a b then true else false.



(** ** Events of a trace *)

Definition is_call (e : Event) : bool :=
  match e with
  | ECall _ _ _ _ _ => true
  | _ => false
  end.

Definition is_update (e : Event) : bool :=
  match e with
  | EUpdate _ => true
  | _ => false
  end.

Definition is_acquire (e : Event) : bool :=
  match e with
  | EAcquire _ => true
  | _ => false
  end.

Definition is_connect (e : Event) : bool :=
  match e with
  | EConnect _ => true
  | _ => false
  end.

Definition is_disconnect_of (r : ref) (e : Event) : bool :=
  match e with
  | EDisconnect r' => Nat.eqb r r'
  | _ => false
  end.

(** How many events of a kind a trace holds. *)
Definition count (p : Event -> bool) (tr : list Event) : nat :=
  length (filter p tr).

(** The events a computation adds to the trace of the world it starts in. *)
Definition emitted {A} (m : M A) (w : World) : list Event :=
  skipn (length (trace w)) (trace (snd (m w))).

(** ** Statements about runs *)

(** [m], started in [w], ends with a result and a world that satisfy [Q]. *)
Definition post {A} (m : M A) (w : World) (Q : result A -> World -> Prop)
  : Prop :=
  Q (fst (m w)) (snd (m w)).

(** [m] takes every world to one related to it by [R]. *)
Definition respects (R : World -> World -> Prop) {A} (m : M A) : Prop :=
  forall w, R w (snd (m w)).

(** A relation between worlds that library calls, lock operations and
    changes to the object store cannot break, as long as the events they
    log pass [ok]. *)
Class Stable (R : World -> World -> Prop) (ok : Event -> bool) : Prop := {
  stable_refl : forall w, R w w;
  stable_trans : forall a b c, R a b -> R b c -> R a c;
  stable_log : forall w e, ok e = true -> R w (log e w);
  stable_note : forall w e, ok e = true -> R w (note e w);
  stable_heap : forall w h, R w (set_heap h w);
  stable_next_lock : forall w n, R w (set_next_lock n w)
}.

(** A relation that does not look at the locals. *)
Class FrameBlind (R : World -> World -> Prop) : Prop :=
  frame_blind : forall w f, R w (set_frame f w).

(** A relation that does not look at the connection cache. *)
Class CacheBlind (R : World -> World -> Prop) : Prop :=
  cache_blind : forall w c, R w (set_device_cache c w).

(** A relation that does not see the cache entry of one host change. *)
Class CacheBlindAt (R : World -> World -> Prop) (h : string) : Prop := {
  put_blind_at : forall w r,
    R w (set_device_cache (dict_put (device_cache w) h r) w);
  pop_blind_at : forall w,
    R w (set_device_cache (dict_pop (device_cache w) h) w)
}.

(** The connection cache holds a handle for the host [k]. *)
Definition cached (w : World) (k : string) : Prop :=
  dict_get (device_cache w) k <> None.

(** No host loses its handle. *)
Definition cache_grows (w w1 : World) : Prop :=
  forall k, cached w k -> cached w1 k.

(** The cache changes at the host [h] only. *)
Definition cache_same_except (h : string) (w w1 : World) : Prop :=
  forall k, k <> h ->
            dict_get (device_cache w1) k = dict_get (device_cache w) k.

(** Whatever [m] returns satisfies [P]. *)
Definition returns {A} (P : A -> Prop) (m : M A) : Prop :=
  forall w, match fst (m w) with
            | Ok a => P a
            | Raise _ => True
            end.


(** The number of [p]-events in the trace does not change. *)
Definition same_count (p : Event -> bool) (w w1 : World) : Prop :=
  count p (trace w1) = count p (trace w).

(** [m] adds at most [n] events of kind [p] to the trace. *)
Definition adds (p : Event -> bool) (n : nat) {A} (m : M A) : Prop :=
  forall w, count p (trace (snd (m w))) <= count p (trace w) + n.

(** The acquisitions of a lock other than [l]. *)
Definition acquires_other (l : lock) (e : Event) : bool :=
  match e with
  | EAcquire l' => negb (Nat.eqb l l')
  | _ => false
  end.

(** While [l] is the lock registered for [h]: it stays registered, and no
    other lock is acquired. *)
Definition under_lock (h : string) (l : lock) (w w1 : World) : Prop :=
  dict_get (device_lock_cache w) h = Some l ->
  dict_get (device_lock_cache w1) h = Some l
  /\ count (acquires_other l) (trace w1) = count (acquires_other l) (trace w).

(** The local [device] is bound to a handle. *)
Definition device_bound (w : World) : Prop :=
  exists r, loc_device (frame w) = Some (Some r).

(** Once a handle was obtained, [device] and [device_config] stay bound. *)
Definition stays_bound (w w1 : World) : Prop :=
  (device_bound w -> device_bound w1)
  /\ (loc_device_config (frame w) <> None ->
      loc_device_config (frame w1) <> None).

(** ** Supported dispatches *)

(** Whether the light module of a device is there and supports a
    sub-feature. *)
Definition capable (d : Device) (name : string) : bool :=
  match has_feature (light d) name with
  | Ok b => b
  | Raise _ => false
  end.

(** The (feature, capability) combinations a dispatch acts on. *)
Definition supported (feature : string) (d : Device) : bool :=
  (feature =? "state")
  || ((feature =? "brightness") && capable d "brightness")
  || ((feature =? "color_temp") && capable d "color_temp")
  || ((feature =? "fan_speed_level") && is_some (fan d))
  || (((feature =? "hue") || (feature =? "saturation")) && capable d "hsv").

(** The features whose capability is asked of the light module. *)
Definition light_feature (feature : string) : bool :=
  mem feature ["brightness"; "color_temp"; "hue"; "saturation"].

(** ** Scenarios

    Concrete devices, libraries and worlds on which the operations are
    run. *)

Module Scenario.

Definition the_host : string := "10.0.0.2".

Definition config_of (h : string) : DeviceConfig :=
  {| config_host := h; config_port := None; config_credentials := None |}.

(** A smart plug: a state, no light, no fan, no children. *)
Definition plug (h : string) : Device :=
  {| alias := Some "Lamp"; host := h; device_id := "8006E1"; mac := "AA:01";
     sys_info_deviceId := None; device_type := Plug; model := "HS100";
     hardware_version := "1.0"; firmware_version := "1.2.6";
     state := Some true; light := None; fan := None;
     homekit := false; matter := false; config := config_of h;
     children := [] |}.

Definition color_light : LightModule :=
  {| has_brightness := true; has_color_temp := true; has_hsv := true;
     brightness := 80; color_temp := 3000; hsv := (120, 50, 80)%Z;
     valid_temperature_range := (2500, 6500)%Z |}.

(** A colour bulb. *)
Definition bulb (h : string) : Device :=
  {| alias := Some "Desk"; host := h; device_id := "8012F3"; mac := "AA:02";
     sys_info_deviceId := None; device_type := Bulb; model := "KL130";
     hardware_version := "1.0"; firmware_version := "1.8.11";
     state := Some true; light := Some color_light; fan := None;
     homekit := false; matter := false; config := config_of h;
     children := [] |}.

(** A power strip with two sockets. *)
Definition strip (h : string) : Device :=
  {| alias := Some "Strip"; host := h; device_id := "8006AB"; mac := "AA:03";
     sys_info_deviceId := None; device_type := Strip; model := "HS300";
     hardware_version := "2.0"; firmware_version := "1.0.12";
     state := Some true; light := None; fan := None;
     homekit := false; matter := false; config := config_of h;
     children :=
       [ {| alias := Some "Socket 1"; host := h; device_id := "8006AB_00";
            mac := "AA:03"; sys_info_deviceId := None;
            device_type := StripSocket; model := "HS300";
            hardware_version := "2.0"; firmware_version := "1.0.12";
            state := Some true; light := None; fan := None;
            homekit := false; matter := false; config := config_of h;
            children := [] |};
         {| alias := Some "Socket 2"; host := h; device_id := "8006AB_01";
            mac := "AA:03"; sys_info_deviceId := None;
            device_type := StripSocket; model := "HS300";
            hardware_version := "2.0"; firmware_version := "1.0.12";
            state := Some false; light := None; fan := None;
            homekit := false; matter := false; config := config_of h;
            children := [] |} ] |}.

(** A network with one plug on it, where every library call succeeds. *)
Definition healthy : Library :=
  {| lib_connect := fun _ c => inr (plug (config_host c));
     lib_update := fun _ _ d => inr d;
     lib_disconnect := fun _ _ => None;
     lib_call := fun _ _ _ _ _ _ => None;
     lib_discover := fun _ _ _ => inr [plug the_host];
     lib_discover_single := fun _ h _ => inr (plug h) |}.

(** The same network once the plug's session has gone bad: actions raise,
    and so does disconnecting. *)
Definition broken_session : Library :=
  {| lib_connect := fun _ c => inr (plug (config_host c));
     lib_update := fun _ _ d => inr d;
     lib_disconnect := fun _ _ => Some (KasaException "connection lost");
     lib_call := fun _ _ _ _ _ _ => Some (KasaException "connection lost");
     lib_discover := fun _ _ _ => inr [plug the_host];
     lib_discover_single := fun _ h _ => inr (plug h) |}.

(** The same network where probing a device stops working after the
    discovery sweep (which makes four library calls), while connecting
    still works. *)
Definition stale_after_sweep : Library :=
  {| lib_connect := fun _ c => inr (plug (config_host c));
     lib_update := fun n _ d =>
       if Nat.ltb n 4 then inr d else inl (KasaException "timed out");
     lib_disconnect := fun _ _ => None;
     lib_call := fun _ _ _ _ _ _ => None;
     lib_discover := fun _ _ _ => inr [plug the_host];
     lib_discover_single := fun _ h _ => inr (plug h) |}.

(** A network on which nothing answers a connect attempt. *)
Definition unreachable : Library :=
  {| lib_connect := fun _ _ => inl (KasaException "unable to connect");
     lib_update := fun _ _ d => inr d;
     lib_disconnect := fun _ _ => None;
     lib_call := fun _ _ _ _ _ _ => None;
     lib_discover := fun _ _ _ => inr [];
     lib_discover_single := fun _ _ _ =>
       inl (KasaException "unable to connect") |}.

(** The world a discovery sweep leaves behind. *)
Definition after_sweep (L : Library) : World :=
  snd (discover_devices L false None None [] [] empty_world).

(** A world that holds one bulb, known and cached under [the_host]. *)
Definition bulb_world : World :=
  {| device_cache := [(the_host, 0)];
     device_lock_cache := [(the_host, 0)];
     device_config_cache := [(the_host, config_of the_host)];
     heap := [bulb the_host]; next_lock := 1; clock := 0; trace := [];
     frame := empty_frame |}.

(** A world in which [the_host] is known but holds no cached handle, as
    after a failed request evicted it. *)
Definition evicted_world : World :=
  {| device_cache := [];
     device_lock_cache := [(the_host, 0)];
     device_config_cache := [(the_host, config_of the_host)];
     heap := [plug the_host]; next_lock := 1; clock := 0; trace := [];
     frame := empty_frame |}.

Definition bulb_target : Target :=
  {| t_ref := 0; t_child := None; t_dev := bulb the_host |}.

End Scenario.

(** ** Further statements about runs *)

(** What a dispatch returns when it returns. *)
Definition success : PyVal := VDict [("status", VStr "success")].

(** [w1] is [w] after exactly one call on a device or one of its modules. *)
Definition one_call (w w1 : World) : Prop :=
  exists e, is_call e = true /\ w1 = log e w.

(** A step of a dispatch: no library call and no change, or one call. *)
Definition quiet_or_one_call {A} (m : M A) : Prop :=
  forall w, match fst (m w) with
            | Ok _ => one_call w (snd (m w))
            | Raise _ => snd (m w) = w \/ one_call w (snd (m w))
            end.

(** The position [l[i]] reads, for an index in range. *)
Definition py_position (n : nat) (i : Z) : nat :=
  Z.to_nat (if (i <? 0)%Z then (Z.of_nat n + i)%Z else i).

(** The lock a lookup for [h] returns in [w]. *)
Definition lock_for (w : World) (h : string) : lock :=
  match dict_get (device_lock_cache w) h with
  | Some l => l
  | None => next_lock w
  end.

(** Neither the lock table nor the reconnect configurations change. *)
Definition tables_kept (w w1 : World) : Prop :=
  device_lock_cache w1 = device_lock_cache w
  /\ device_config_cache w1 = device_config_cache w.

(** Every registered lock stays registered, as the same lock, and every
    known host stays known. *)
Definition registrations_kept (w w1 : World) : Prop :=
  (forall h l, dict_get (device_lock_cache w) h = Some l ->
               dict_get (device_lock_cache w1) h = Some l)
  /\ (forall h, dict_get (device_config_cache w) h <> None ->
                dict_get (device_config_cache w1) h <> None).

(** The connection cache does not change. *)
Definition cache_kept (w w1 : World) : Prop :=
  device_cache w1 = device_cache w.

(** The host [h] has a lock registered. *)
Definition locked (w : World) (h : string) : Prop :=
  dict_get (device_lock_cache w) h <> None.

(** The host [h] has reconnect parameters stored. *)
Definition known (w : World) (h : string) : Prop :=
  dict_get (device_config_cache w) h <> None.

(** A string without an underscore. *)
Fixpoint no_underscore (s : string) : bool :=
  match s with
  | EmptyString => true
  | String c r => negb (Ascii.eqb c "_"%char) && no_underscore r
  end.

(** The capability flags of a device. *)
Definition feature_flags (d : Device) : dict PyVal :=
  [ ("brightness", VBool (capable d "brightness"));
    ("color_temp", VBool (capable d "color_temp"));
    ("hsv", VBool (capable d "hsv"));
    ("fan", VBool (is_some (fan d))) ].

(** A device, or one of its children, reports no state. *)
Definition state_missing (d : Device) : Prop :=
  match children d with
  | [] => state d = None
  | cs => Exists (fun c => state c = None) cs
  end.

(** What a sweep reports for a host: the two parts of a snapshot. *)
Definition device_report (v : PyVal) : Prop :=
  exists sys_info feature_info,
    v = VDict [("sys_info", sys_info); ("feature_info", feature_info)].

(** The status part of a snapshot, as a status request returns it. *)
Definition status_report (v : PyVal) : Prop :=
  exists sys_info, v = VDict [("sys_info", sys_info)].

(** The value a request returns for an exception it gave up on. *)
Definition failure_report (v : PyVal) : Prop :=
  exists e, v = error_payload e.

(** The exceptions a request lets through: the unbound local of its
    [except] blocks, and what a [disconnect] raised. *)
Definition escapes (L : Library) (e : exn) : Prop :=
  e = UnboundLocalError "device"
  \/ exists n r, lib_disconnect L n r = Some e.

(** ** Further scenarios *)

Module Appliances.
Import Scenario.

(** A light that can be dimmed and nothing more. *)
Definition dimmer_light : LightModule :=
  {| has_brightness := true; has_color_temp := false; has_hsv := false;
     brightness := 60; color_temp := 0; hsv := (0, 0, 0)%Z;
     valid_temperature_range := (0, 0)%Z |}.

Definition three_speeds : FanModule := {| fan_speed_level := 2 |}.

(** A fan controller with a dimmable light. *)
Definition ceiling_fan (h : string) : Device :=
  {| alias := Some "Ceiling"; host := h; device_id := "80FA17"; mac := "AA:04";
     sys_info_deviceId := None; device_type := WallSwitch; model := "KS240";
     hardware_version := "1.0"; firmware_version := "1.0.5";
     state := Some true; light := Some dimmer_light;
     fan := Some three_speeds;
     homekit := false; matter := false; config := config_of h;
     children := [] |}.

(** A light module that reports its temperature range upside down. *)
Definition inverted_light : LightModule :=
  {| has_brightness := true; has_color_temp := true; has_hsv := false;
     brightness := 80; color_temp := 3000; hsv := (0, 0, 0)%Z;
     valid_temperature_range := (6500, 2500)%Z |}.

Definition odd_bulb (h : string) : Device :=
  {| alias := Some "Odd"; host := h; device_id := "8012F4"; mac := "AA:05";
     sys_info_deviceId := None; device_type := Bulb; model := "KL125";
     hardware_version := "1.0"; firmware_version := "1.0.7";
     state := Some true; light := Some inverted_light; fan := None;
     homekit := false; matter := false; config := config_of h;
     children := [] |}.

(** A world that holds one device, known and cached under [the_host]. *)
Definition world_of (d : Device) : World :=
  {| device_cache := [(the_host, 0)];
     device_lock_cache := [(the_host, 0)];
     device_config_cache := [(the_host, config_of the_host)];
     heap := [d]; next_lock := 1; clock := 0; trace := [];
     frame := empty_frame |}.

Definition target_of (d : Device) : Target :=
  {| t_ref := 0; t_child := None; t_dev := d |}.

(** The first socket of the power strip. *)
Definition socket : Device := nth 0 (children (strip the_host)) no_device.

(** What the serializer makes of a device that serializes. *)
Definition snapshot (d : Device) : PyVal :=
  match custom_serializer d with
  | Ok out => out
  | Raise _ => VNone
  end.

End Appliances.

(** ** The snapshot as the specification words it

    A second description of a status snapshot, field by field, against
    which the serializer is compared. *)





(** ** The worlds of a retry *)

(** The locals are what they were. *)
Definition frame_kept (w w1 : World) : Prop := frame w1 = frame w.

(** The world in which a retry resolves the handle anew: the failed handle
    [r] has been disconnected and evicted, and the lock looked up again is
    held. *)
Definition invalidated (h : string) (r : ref) (w : World) : World :=
  note (EAcquire (lock_for w h))
    (set_next_lock (S (next_lock w))
       (set_device_cache (dict_pop (device_cache w) h)
          (log (EDisconnect r) w))).

(** The world in which a retry runs its operation: the connect attempt has
    answered with [d], and the new handle is cached under [h] and bound to
    the local [device]. *)
Definition reconnected (h : string) (c : DeviceConfig) (d : Device)
    (w : World) : World :=
  set_frame {| loc_device := Some (Some (length (heap w)));
               loc_device_config := loc_device_config (frame w) |}
    (set_device_cache (dict_put (device_cache w) h (length (heap w)))
       (set_heap (heap w ++ [d]) (log (EConnect c) w))).

(** The world a request leaves when it gives up: the handle [r] bound to
    the local [device] has been disconnected and the host evicted. *)
Definition given_up (h : string) (r : ref) (w : World) : World :=
  set_device_cache (dict_pop (device_cache w) h) (log (EDisconnect r) w).

(** The [try] block of a request, for an operation [k] on the handle. *)
Definition first_attempt_of (L : Library) (h : string) (k : ref -> M PyVal)
  : M PyVal :=
  device_config_dict <- gets (fun w => dict_get (device_config_cache w) h) ;;
  device_config <- lift (DeviceConfig_from_dict device_config_dict) ;;
  assign_device_config device_config ;;
  device_lock <- device_lock_cache_get h ;;
  async_with device_lock (
    device <- get_or_connect_device L h device_config ;;
    assign_device (Some device) ;;
    k device).

(** The [try] block of its [except] block. *)
Definition retry_of (L : Library) (h : string) (k : ref -> M PyVal)
  : M PyVal :=
  disconnect_if_device L ;;
  device_cache_pop h ;;
  device_lock <- device_lock_cache_get h ;;
  async_with device_lock (
    device_config <- read_device_config ;;
    device <- get_or_connect_device L h device_config ;;
    assign_device (Some device) ;;
    k device).

(** What a status request does with a handle, first with the probe and
    then, in the retry, without. *)
Definition read_status (L : Library) (probe : bool) (device : ref)
  : M PyVal :=
  (if probe then update L device else ret tt) ;;
  d <- deref device ;;
  device_info <- lift (custom_serializer d) ;;
  lift (sys_info_of device_info).

(** The world in which a first attempt runs its operation on the cached
    handle [r]: the configuration [c] has been read, the host's lock is
    held and the handle is bound to the local [device]. *)
Definition resolved (h : string) (c : DeviceConfig) (r : ref) (w : World)
  : World :=
  set_frame {| loc_device := Some (Some r); loc_device_config := Some c |}
    (note (EAcquire (lock_for w h))
       (set_next_lock (S (next_lock w)) w)).

(** ** The lock discipline of a request *)

(** The calls that resolve a handle or operate on the device. *)
Definition is_device_op (e : Event) : bool :=
  match e with
  | EConnect _ | EUpdate _ | ECall _ _ _ _ _ => true
  | _ => false
  end.

Definition is_disconnect (e : Event) : bool :=
  match e with
  | EDisconnect _ => true
  | _ => false
  end.

(** Where a request is: before its first attempt, in it, between the
    attempts, in the second, or after it. *)
Inductive Phase : Type := Idle | First | Between | Second | Done.

(** How the events of a request on a host whose lock is [l] follow each
    other: an attempt takes [l], resolves and operates on the device, and
    releases [l]; handles are disconnected after an attempt, outside the
    lock; there are at most two attempts. *)
Definition step_phase (l : lock) (p : Phase) (e : Event) : option Phase :=
  match p, e with
  | Idle, EAcquire l' => if Nat.eqb l l' then Some First else None
  | First, ERelease l' => if Nat.eqb l l' then Some Between else None
  | Between, EAcquire l' => if Nat.eqb l l' then Some Second else None
  | Second, ERelease l' => if Nat.eqb l l' then Some Done else None
  | First, (EConnect _ | EUpdate _ | ECall _ _ _ _ _) => Some First
  | Second, (EConnect _ | EUpdate _ | ECall _ _ _ _ _) => Some Second
  | Between, EDisconnect _ => Some Between
  | Done, EDisconnect _ => Some Done
  | _, _ => None
  end.

Fixpoint run_phase (l : lock) (p : Phase) (tr : list Event)
  : option Phase :=
  match tr with
  | [] => Some p
  | e :: r =>
      match step_phase l p e with
      | Some q => run_phase l q r
      | None => None
      end
  end.

(** The events of a whole request keep to the lock [l]. *)
Definition keeps_to_lock (l : lock) (tr : list Event) : bool :=
  match run_phase l Idle tr with
  | Some (Idle | Between | Done) => true
  | _ => false
  end.

(** The events allowed without leaving a phase. *)
Definition allowed_in (p : Phase) (e : Event) : bool :=
  match p with
  | Idle => false
  | First | Second => is_device_op e
  | Between | Done => is_disconnect e
  end.

(** From [w] to [w1] the lock table is kept and the events added take a
    request from phase [p] to phase [q]. *)
Definition moves (l : lock) (p q : Phase) (w w1 : World) : Prop :=
  device_lock_cache w1 = device_lock_cache w
  /\ device_config_cache w1 = device_config_cache w
  /\ exists tr, trace w1 = trace w ++ tr /\ run_phase l p tr = Some q.

(** The calls made while no lock is held. *)
Fixpoint outside_lock (held : bool) (tr : list Event) : list Event :=
  match tr with
  | [] => []
  | EAcquire _ :: r => outside_lock true r
  | ERelease _ :: r => outside_lock false r
  | e :: r => (if held then [] else [e]) ++ outside_lock held r
  end.

(** Every host with a stored configuration has a registered lock. *)
Definition consistent (w : World) : Prop :=
  forall h, known w h -> locked w h.

(** No lock is lost, and a host that gains a stored configuration has a
    lock. *)
Definition covered (w w1 : World) : Prop :=
  (forall k, locked w k -> locked w1 k)
  /\ (forall k, known w1 k -> known w k \/ locked w1 k).

(** The states the service goes through, from start-up on, under the
    sequential schedule: sweeps, requests and shutdowns in any order. *)
Inductive reachable (L : Library) : World -> Prop :=
| reach_start : reachable L empty_world
| reach_discover (hide : bool) (u p : option string) (bc md : list string)
    (w : World) :
    reachable L w ->
    reachable L (snd (discover_devices L hide u p bc md w))
| reach_status (h : string) (w : World) :
    reachable L w -> reachable L (snd (get_sys_info L h w))
| reach_control (h feature action : string) (value : PyVal)
    (child_num : option Z) (w : World) :
    reachable L w ->
    reachable L (snd (control_device L h feature action value child_num w))
| reach_cleanup (w : World) :
    reachable L w -> reachable L (snd (cleanup L w)).

(** ** Sessions of a sweep *)

(** The trace of [w1] continues that of [w]. *)
Definition extends (w w1 : World) : Prop :=
  exists tr, trace w1 = trace w ++ tr.

(** The handle [r] was opened between [w0] and [w]. *)
Definition opened_since (w0 w : World) (r : ref) : Prop :=
  length (heap w0) <= r < length (heap w).


(** Every handle the cache holds in [w1] was cached in [w] already, is one
    of [vals], or was disconnected on the way. *)
Definition cache_from (vals : list ref) (w w1 : World) : Prop :=
  exists tr,
    trace w1 = trace w ++ tr
    /\ forall k r,
         dict_get (device_cache w1) k = Some r ->
         dict_get (device_cache w) k = Some r
         \/ In r vals \/ In (EDisconnect r) tr.

(** The cache is kept and the trace continued. *)
Definition quiet_cache (w w1 : World) : Prop :=
  device_cache w1 = device_cache w /\ extends w w1.

(** Between [w] and [w1] no handle is left open that was opened on the way:
    [disconnect] was called on each. *)
Definition sealed (w w1 : World) : Prop :=
  exists tr,
    trace w1 = trace w ++ tr
    /\ length (heap w) <= length (heap w1)
    /\ forall r, opened_since w w1 r -> In (EDisconnect r) tr.


(** * Properties *)

(** ** Dictionaries *)

Section DictFacts.
Context {V : Type}.
Implicit Types (d : dict V) (k : string) (v : V).

Lemma dict_get_put_same d k v : dict_get (dict_put d k v) k = Some v.
Proof.
  induction d as [|[k' v'] r IH]; simpl.
  - now rewrite String.eqb_refl.
  - destruct (String.eqb k k') eqn:E; simpl; rewrite E; auto.
Qed.

Lemma dict_get_put_other d k k' v :
  k <> k' -> dict_get (dict_put d k v) k' = dict_get d k'.
Proof.
  intros Hne. induction d as [|[k0 v0] r IH]; simpl.
  - destruct (String.eqb_spec k' k); congruence.
  - destruct (String.eqb_spec k k0) as [->|]; simpl.
    + destruct (String.eqb_spec k' k0); congruence.
    + now rewrite IH.
Qed.

Lemma dict_get_pop_same d k : dict_get (dict_pop d k) k = None.
Proof.
  induction d as [|[k' v'] r IH]; simpl; auto.
  destruct (String.eqb k k') eqn:E; simpl; rewrite ?E; auto.
Qed.

Lemma dict_get_pop_other d k k' :
  k <> k' -> dict_get (dict_pop d k) k' = dict_get d k'.
Proof.
  intros Hne. induction d as [|[k0 v0] r IH]; simpl; auto.
  destruct (String.eqb_spec k k0) as [->|]; simpl.
  - rewrite IH. destruct (String.eqb_spec k' k0); congruence.
  - now rewrite IH.
Qed.

Lemma dict_contains_get d k :
  dict_contains d k = true <-> dict_get d k <> None.
Proof.
  unfold dict_contains. destruct (dict_get d k); split; congruence.
Qed.


End DictFacts.

(** ** Running the monad *)

Lemma bind_lift_ok {A B} (a : A) (k : A -> M B) : bind (lift (Ok a)) k = k a.
Proof. reflexivity. Qed.

Lemma bind_lift_raise {A B} (e : exn) (k : A -> M B) :
  bind (lift (Raise e)) k = raise e.
Proof. reflexivity. Qed.

Lemma bind_ret {A B} (a : A) (k : A -> M B) : bind (ret a) k = k a.
Proof. reflexivity. Qed.

Lemma bind_gets {A B} (f : World -> A) (k : A -> M B) (w : World) :
  bind (gets f) k w = k (f w) w.
Proof. reflexivity. Qed.

Lemma snd_then_ret {A B} (m : M A) (b : B) (w : World) :
  snd ((m ;; ret b) w) = snd (m w).
Proof. unfold bind, ret. now destruct (m w) as [[]]. Qed.

(** ** Dispatch policies *)

Section DispatchFacts.
Variable L : Library.

Lemma py_min_max_clamp (v mn mx : Z) :
  rbind (py_min (VInt v) (VInt mx)) (fun low => py_max low (VInt mn))
  = Ok (VInt (Z.max (Z.min v mx) mn)).
Proof.
  unfold py_min, py_max; simpl.
  destruct (Z.ltb_spec mx v); simpl.
  - destruct (Z.ltb_spec mx mn); do 2 f_equal; lia.
  - destruct (Z.ltb_spec v mn); do 2 f_equal; lia.
Qed.

Lemma handle_brightness_int (t : Target) (action : string) (lm : LightModule)
    (v : Z) :
  light (t_dev t) = Some lm ->
  handle_brightness L t action (VInt v) =
  if (v =? 0)%Z then invoke L t OnDevice "turn_off" []
  else if ((0 <? v) && (v <=? 100))%Z
       then invoke L t OnLight action [VInt v]
       else invoke L t OnDevice "turn_on" [].
Proof.
  intros Hl. unfold handle_brightness, py_eq_zero, py_in_0_100; simpl.
  rewrite Hl. now destruct (v =? 0)%Z.
Qed.

Lemma handle_color_temp_int (t : Target) (action : string)
    (lm : LightModule) (mn mx v : Z) :
  light (t_dev t) = Some lm ->
  valid_temperature_range lm = (mn, mx) ->
  handle_color_temp L t action (VInt v) =
  invoke L t OnLight action [VInt (Z.max (Z.min v mx) mn)].
Proof.
  intros Hl Hr. unfold handle_color_temp. rewrite Hl, Hr, bind_lift_ok.
  pose proof (py_min_max_clamp v mn mx) as Hc.
  destruct (py_min (VInt v) (VInt mx)) as [low|] eqn:Hlow;
    [|discriminate].
  simpl in Hc. now rewrite bind_lift_ok, Hc, bind_lift_ok.
Qed.

Lemma handle_hsv_item (t : Target) (action feature : string)
    (lm : LightModule) (h s v : Z) (d : dict PyVal) (x : PyVal) :
  light (t_dev t) = Some lm ->
  hsv lm = (h, s, v) ->
  dict_get d feature = Some x ->
  handle_hsv L t action feature (VDict d) =
  invoke L t OnLight action
    [VTuple (if feature =? "hue" then [x; VInt s; VInt v]
             else if feature =? "saturation" then [VInt h; x; VInt v]
             else [VInt h; VInt s; VInt v])].
Proof.
  intros Hl Hh Hx. unfold handle_hsv. rewrite Hl, Hh, bind_lift_ok.
  destruct (String.eqb_spec feature "hue") as [->|].
  - unfold py_getitem. now rewrite Hx.
  - destruct (String.eqb_spec feature "saturation") as [->|]; auto.
    unfold py_getitem. now rewrite Hx.
Qed.

Lemma trace_invoke (t : Target) (p : Part) (name : string)
    (args : list PyVal) (w : World) :
  trace (snd (invoke L t p name args w)) =
  trace w ++ [ECall (t_ref t) (t_child t) p name args].
Proof.
  unfold invoke. now destruct (lib_call _ _ _ _ _ _ _).
Qed.

(** A dispatch after target selection and with the state feature ruled
    out. *)
Lemma perform_selected (device : ref) (feature action : string)
    (value : PyVal) (child_num : option Z) (t : Target) (w : World) :
  select_target device (nth device (heap w) no_device) child_num = Ok t ->
  (feature =? "state") = false ->
  forall (rest : M unit),
    rest =
      (c1 <- lift (py_and (feature =? "brightness")
                     (has_feature (light (t_dev t)) "brightness")) ;;
       if c1 then handle_brightness L t action value
       else
         c2 <- lift (py_and (feature =? "color_temp")
                       (has_feature (light (t_dev t)) "color_temp")) ;;
         if c2 then handle_color_temp L t action value
         else if (feature =? "fan_speed_level") && is_some (fan (t_dev t))
         then handle_fan_speed_level L t action value
         else
           c4 <- lift (py_and ((feature =? "hue")
                               || (feature =? "saturation"))
                         (has_feature (light (t_dev t)) "hsv")) ;;
           if c4 then handle_hsv L t action feature value
           else raise (ValueError "Invalid feature or action")) ->
    perform_device_action L device feature action value child_num w =
    (rest ;; ret (VDict [("status", VStr "success")])) w.
Proof.
  intros Hsel Hst rest ->.
  unfold perform_device_action.
  unfold bind at 1. unfold deref, gets.
  unfold bind at 1. unfold lift at 1. rewrite Hsel.
  now rewrite Hst.
Qed.
End DispatchFacts.

Section DispatchPolicies.
Variable L : Library.
Variables (device : ref) (action : string) (child_num : option Z).
Variables (w : World) (t : Target).
Hypothesis selected :
  select_target device (nth device (heap w) no_device) child_num = Ok t.

Local Ltac enter_dispatch :=
  erewrite perform_selected by (try exact selected; reflexivity);
  rewrite snd_then_ret; unfold py_and; simpl String.eqb; cbv iota.

(** C5. A brightness dispatch on a target whose light module supports
    brightness makes exactly one call: [turn_off] for the value 0, the
    named action with the value [v] on the light module when
    [0 < v <= 100], and [turn_on] for every other integer. *)
Theorem brightness_dispatch_policy (v : Z) :
  has_feature (light (t_dev t)) "brightness" = Ok true ->
  let w' := snd (perform_device_action L device "brightness" action
                   (VInt v) child_num w) in
  (v = 0%Z ->
   trace w' = trace w ++ [ECall (t_ref t) (t_child t) OnDevice "turn_off" []])
  /\ ((0 < v <= 100)%Z ->
      trace w' =
      trace w ++ [ECall (t_ref t) (t_child t) OnLight action [VInt v]])
  /\ ((v < 0 \/ 100 < v)%Z ->
      trace w' =
      trace w ++ [ECall (t_ref t) (t_child t) OnDevice "turn_on" []]).
Proof.
  intros Hcap w'. subst w'.
  enter_dispatch. rewrite Hcap, bind_lift_ok.
  destruct (light (t_dev t)) as [lm|] eqn:Hl; [|discriminate].
  rewrite (handle_brightness_int L t action lm v Hl).
  repeat split; intros Hv.
  - subst v. apply trace_invoke.
  - replace (v =? 0)%Z with false by lia.
    replace ((0 <? v) && (v <=? 100))%Z with true by lia.
    apply trace_invoke.
  - replace (v =? 0)%Z with false by lia.
    replace ((0 <? v) && (v <=? 100))%Z with false by lia.
    apply trace_invoke.
Qed.
(** C6. A color-temperature dispatch on a capable target whose light
    module reports the valid range [(mn, mx)] with [mn <= mx] makes exactly
    one call, the named action on the light module with
    [max(min(value, mx), mn)]; that value lies in the range, and it is the
    minimum whenever the requested value is below the minimum. *)
Theorem color_temp_dispatch_clamps (lm : LightModule) (mn mx v : Z) :
  light (t_dev t) = Some lm ->
  has_color_temp lm = true ->
  valid_temperature_range lm = (mn, mx) ->
  (mn <= mx)%Z ->
  let sent := Z.max (Z.min v mx) mn in
  trace (snd (perform_device_action L device "color_temp" action
                (VInt v) child_num w)) =
  trace w ++ [ECall (t_ref t) (t_child t) OnLight action [VInt sent]]
  /\ (mn <= sent <= mx)%Z
  /\ ((v < mn)%Z -> sent = mn).
Proof.
  intros Hl Hcap Hr Hle sent. split; [|subst sent; lia].
  enter_dispatch. rewrite bind_lift_ok, Hl. simpl has_feature.
  rewrite Hcap, bind_lift_ok.
  rewrite (handle_color_temp_int L t action lm mn mx v Hl Hr).
  apply trace_invoke.
Qed.

(** C7. A hue or saturation dispatch on a target whose light module
    supports hsv reads the current [(hue, saturation, value)] triple and
    makes exactly one call, the named action with the triple in which the
    addressed component alone is replaced by the supplied one. *)
Theorem hsv_dispatch_partial_update (lm : LightModule) (h s v : Z)
    (d : dict PyVal) (x : PyVal) :
  light (t_dev t) = Some lm ->
  has_hsv lm = true ->
  hsv lm = (h, s, v) ->
  (dict_get d "hue" = Some x ->
   trace (snd (perform_device_action L device "hue" action (VDict d)
                 child_num w)) =
   trace w ++ [ECall (t_ref t) (t_child t) OnLight action
                 [VTuple [x; VInt s; VInt v]]])
  /\ (dict_get d "saturation" = Some x ->
      trace (snd (perform_device_action L device "saturation" action
                    (VDict d) child_num w)) =
      trace w ++ [ECall (t_ref t) (t_child t) OnLight action
                    [VTuple [VInt h; x; VInt v]]]).
Proof.
  intros Hl Hcap Hh. split; intros Hx.
  - enter_dispatch. rewrite !bind_lift_ok, Hl. simpl.
    rewrite Hcap, bind_lift_ok.
    rewrite (handle_hsv_item L t action "hue" lm h s v d x Hl Hh Hx).
    apply trace_invoke.
  - enter_dispatch. rewrite !bind_lift_ok, Hl. simpl.
    rewrite Hcap, bind_lift_ok.
    rewrite (handle_hsv_item L t action "saturation" lm h s v d x Hl Hh Hx).
    apply trace_invoke.
Qed.
End DispatchPolicies.

(** ** The serializer *)

Lemma keys_eqb_refl (a : list string) : keys_eqb a a = true.
Proof. unfold keys_eqb. now destruct (list_eq_dec string_dec a a). Qed.

Lemma get_light_info_total (d : Device) (lm : LightModule) :
  light d = Some lm -> exists li, get_light_info d = Ok li.
Proof.
  intros Hl. unfold get_light_info. rewrite Hl. cbn [has_feature String.eqb].
  destruct (hsv lm) as [[hh ss] vv].
  destruct (has_brightness lm), (has_color_temp lm), (has_hsv lm);
    cbn; eexists; reflexivity.
Qed.

Lemma serialize_child_total (c : Device) :
  state c <> None -> exists out, serialize_child c = Ok out.
Proof.
  intros Hst. unfold serialize_child, state_value.
  destruct (state c) as [st|]; [|contradiction]. cbn [rbind].
  destruct (light c) as [lm|] eqn:Hl; cbn [is_some].
  - destruct (get_light_info_total c lm Hl) as [li ->]. cbn [rbind].
    eexists. reflexivity.
  - cbn [rbind]. eexists. reflexivity.
Qed.

Lemma serialize_children_total (cs : list Device) :
  Forall (fun c => state c <> None) cs ->
  exists out, map_result serialize_child cs = Ok out.
Proof.
  induction 1 as [|c cs Hc _ [out IH]]; cbn [map_result].
  - eexists. reflexivity.
  - destruct (serialize_child_total c Hc) as [o ->]. cbn [rbind].
    rewrite IH. cbn [rbind]. eexists. reflexivity.
Qed.

(** The serializer produces a snapshot for every device that reports a
    state, or whose children all do. *)
Lemma custom_serializer_total (d : Device) :
  (children d = [] -> state d <> None) ->
  Forall (fun c => state c <> None) (children d) ->
  exists out, custom_serializer d = Ok out.
Proof.
  intros Hown Hch. unfold custom_serializer.
  destruct (children d) as [|c cs] eqn:Hcs.
  - cbn [length Nat.ltb Nat.leb]. unfold state_value.
    destruct (state d) as [st|]; [|now contradiction Hown]. cbn [rbind].
    destruct (light d) as [lm|] eqn:Hl; cbn [is_some].
    + destruct (get_light_info_total d lm Hl) as [li ->]. cbn [rbind].
      eexists. reflexivity.
    + cbn [rbind]. eexists. reflexivity.
  - cbn [length Nat.ltb Nat.leb].
    destruct (serialize_children_total (c :: cs) Hch) as [out ->].
    cbn [rbind]. destruct (light d); eexists; reflexivity.
Qed.

(** ** Resolving a handle *)

Section ResolverFacts.
Variable L : Library.

(** C10. When the cache holds no handle for the host and the connect
    attempt raises, [get_or_connect_device] raises that same exception,
    and the cache holds no entry for the host afterwards; the connect
    attempt is the only library call it made. *)
Theorem get_or_connect_device_failure (h : string) (cfg : DeviceConfig)
    (w : World) (e : exn) :
  dict_get (device_cache w) h = None ->
  lib_connect L (clock w) cfg = inl e ->
  fst (get_or_connect_device L h cfg w) = Raise e
  /\ dict_get (device_cache (snd (get_or_connect_device L h cfg w))) h = None
  /\ trace (snd (get_or_connect_device L h cfg w)) =
     trace w ++ [EConnect cfg].
Proof.
  intros Hmiss Hconn.
  unfold get_or_connect_device, call, try_except, bind, gets.
  cbn [device_cache set_frame fst snd]. rewrite Hmiss.
  unfold assign_device, modify, Device_connect.
  cbn [clock set_frame]. rewrite Hconn.
  cbn. repeat split; auto. apply dict_get_pop_same.
Qed.

(** X9. The connect attempt is the only way for the resolver to fail: when
    it raises, the cache held no handle for the host and the exception is
    the one the connect attempt raised. *)
Lemma get_or_connect_device_raises (h : string) (cfg : DeviceConfig)
    (w : World) (e : exn) :
  fst (get_or_connect_device L h cfg w) = Raise e ->
  dict_get (device_cache w) h = None /\ lib_connect L (clock w) cfg = inl e.
Proof.
  unfold get_or_connect_device, call, try_except, bind, gets.
  cbn [device_cache set_frame fst snd].
  destruct (dict_get (device_cache w) h) as [r|] eqn:Hc.
  - cbn. discriminate.
  - unfold assign_device, modify, Device_connect. cbn [clock set_frame].
    destruct (lib_connect L (clock w) cfg) as [e'|d] eqn:Hconn; cbn.
    + intros [= ->]. auto.
    + discriminate.
Qed.
End ResolverFacts.

(** ** The lock table *)

(** For a host registered in the lock table, every lookup returns the
    registered lock, and a lookup leaves the table as it is: the lock a
    lookup builds for its default is never stored. *)
Lemma registered_lock_lookup_stable (h : string) (l : lock) (w : World) :
  dict_get (device_lock_cache w) h = Some l ->
  let first := device_lock_cache_get h w in
  let second := device_lock_cache_get h (snd first) in
  fst first = Ok l /\ fst second = Ok l
  /\ device_lock_cache (snd first) = device_lock_cache w
  /\ device_lock_cache (snd second) = device_lock_cache w.
Proof.
  intros Hreg. unfold device_lock_cache_get, bind, asyncio_Lock, gets, ret.
  cbn. rewrite Hreg. auto.
Qed.

(** A lookup never registers anything, for any host. *)
Lemma lock_lookup_keeps_table (h : string) (w : World) :
  device_lock_cache (snd (device_lock_cache_get h w)) = device_lock_cache w.
Proof. reflexivity. Qed.

(** For a host the table does not hold, a lookup returns a lock that
    did not exist before. *)
Lemma unregistered_lock_lookup_fresh (h : string) (w : World) :
  dict_get (device_lock_cache w) h = None ->
  fst (device_lock_cache_get h w) = Ok (next_lock w)
  /\ next_lock (snd (device_lock_cache_get h w)) = S (next_lock w).
Proof.
  intros Hreg. unfold device_lock_cache_get, bind, asyncio_Lock, gets, ret.
  cbn. rewrite Hreg. auto.
Qed.

(** ** Unsupported dispatches *)

Section UnsupportedDispatch.
Variable L : Library.

(** A dispatch whose (feature, capability) combination is not supported, on
    a target that has a light module whenever the feature is one of the
    light features, raises [ValueError("Invalid feature or action")] and
    leaves the world as it was: no library call is made. *)
Lemma unsupported_dispatch_raises (device : ref)
    (feature action : string) (value : PyVal) (child_num : option Z)
    (t : Target) (w : World) :
  select_target device (nth device (heap w) no_device) child_num = Ok t ->
  supported feature (t_dev t) = false ->
  (light_feature feature = true -> light (t_dev t) <> None) ->
  perform_device_action L device feature action value child_num w =
  (Raise (ValueError "Invalid feature or action"), w).
Proof.
  intros Hsel Hsup Hlight.
  unfold supported, capable in Hsup.
  apply orb_false_elim in Hsup as [Hsup H5].
  apply orb_false_elim in Hsup as [Hsup H4].
  apply orb_false_elim in Hsup as [Hsup H3].
  apply orb_false_elim in Hsup as [H1 H2].
  erewrite perform_selected by (try exact Hsel; auto).
  unfold light_feature, mem in Hlight. cbn [existsb] in Hlight.
  destruct (light (t_dev t)) as [lm|] eqn:Hl.
  - cbn [has_feature] in *. unfold py_and.
    destruct (feature =? "brightness") eqn:Eb.
    + cbn [andb] in H2. cbn [String.eqb] in H2. rewrite bind_lift_ok.
      cbn [String.eqb]. rewrite H2.
      apply String.eqb_eq in Eb. subst feature. reflexivity.
    + rewrite bind_lift_ok.
      destruct (feature =? "color_temp") eqn:Ec.
      * cbn [andb] in H3. rewrite bind_lift_ok.
        apply String.eqb_eq in Ec. subst feature.
        cbn in H3 |- *. rewrite H3. reflexivity.
      * rewrite bind_lift_ok, H4.
        destruct ((feature =? "hue") || (feature =? "saturation")) eqn:Eh.
        -- cbn [andb] in H5. rewrite bind_lift_ok.
           cbn in H5 |- *. rewrite H5. reflexivity.
        -- reflexivity.
  - destruct (feature =? "brightness") eqn:Eb;
      [exfalso; apply Hlight; auto|].
    destruct (feature =? "color_temp") eqn:Ec;
      [exfalso; apply Hlight; auto|].
    destruct (feature =? "hue") eqn:Eh;
      [exfalso; apply Hlight; auto|].
    destruct (feature =? "saturation") eqn:Es;
      [exfalso; apply Hlight; auto|].
    unfold py_and. rewrite !bind_lift_ok, H4. reflexivity.
Qed.

(** X29. On a target without a light module, a brightness, color
    temperature, hue or saturation dispatch does not reach the "invalid
    feature" branch: the capability query itself fails with an
    [AttributeError], and nothing is called. *)
Lemma light_feature_without_light_module (device : ref)
    (feature action : string) (value : PyVal) (child_num : option Z)
    (t : Target) (w : World) :
  select_target device (nth device (heap w) no_device) child_num = Ok t ->
  light_feature feature = true ->
  light (t_dev t) = None ->
  perform_device_action L device feature action value child_num w =
  (Raise (AttributeError
            "'NoneType' object has no attribute 'has_feature'"), w).
Proof.
  intros Hsel Hf Hl.
  assert (Hst : (feature =? "state") = false).
  { unfold light_feature, mem in Hf. cbn [existsb] in Hf.
    destruct (String.eqb_spec feature "state") as [->|]; auto. }
  erewrite perform_selected by (try exact Hsel; auto).
  rewrite Hl. unfold light_feature, mem in Hf. cbn [existsb] in Hf.
  unfold py_and.
  destruct (feature =? "brightness"); [reflexivity|].
  rewrite bind_lift_ok.
  destruct (feature =? "color_temp"); [reflexivity|].
  rewrite bind_lift_ok.
  destruct (String.eqb_spec feature "fan_speed_level") as [->|];
    [discriminate|].
  cbn [andb]. cbn [orb] in Hf. rewrite orb_false_r in Hf. rewrite Hf.
  reflexivity.
Qed.
End UnsupportedDispatch.

(** ** The end of a discovery sweep *)

Section SweepFacts.
Variable L : Library.

(** Disconnecting changes nothing but the trace and the clock, whether it
    succeeds or raises. *)
Lemma disconnect_effect (r : ref) (w : World) :
  snd (disconnect L r w) = log (EDisconnect r) w.
Proof. unfold disconnect. now destruct (lib_disconnect L (clock w) r). Qed.

Lemma disconnect_sweep_run (devices : dict ref) (w : World) :
  disconnect_sweep L devices w =
  (Ok tt, fold_left (fun w r => log (EDisconnect r) w)
            (dict_values devices) w).
Proof.
  unfold disconnect_sweep. revert w.
  induction devices as [|[h r] rest IH]; intros w; [reflexivity|].
  cbn [for_each dict_values map snd fold_left].
  unfold bind, try_except.
  pose proof (disconnect_effect r w) as He.
  destruct (disconnect L r w) as [[[]|e] w1]; cbn [snd] in He; subst w1;
    cbn [ret]; apply IH.
Qed.

Lemma logged_disconnects (rs : list ref) (w : World) :
  let w' := fold_left (fun w r => log (EDisconnect r) w) rs w in
  device_cache w' = device_cache w
  /\ device_lock_cache w' = device_lock_cache w
  /\ device_config_cache w' = device_config_cache w
  /\ heap w' = heap w
  /\ frame w' = frame w
  /\ trace w' = trace w ++ map EDisconnect rs.
Proof.
  revert w. induction rs as [|r rs IH]; intros w; cbn.
  - rewrite app_nil_r. repeat split.
  - destruct (IH (log (EDisconnect r) w)) as (I1 & I2 & I3 & I4 & I5 & I6).
    cbn in I1, I2, I3, I4, I5, I6. rewrite I1, I2, I3, I4, I5, I6.
    cbn. rewrite <- app_assoc. repeat split.
Qed.

(** The closing loop cannot fail, touches none of the three tables nor the
    object store, and calls [disconnect] once on every device of the
    sweep, in order. *)
Lemma disconnect_sweep_effect (devices : dict ref) (w : World) :
  fst (disconnect_sweep L devices w) = Ok tt
  /\ device_cache (snd (disconnect_sweep L devices w)) = device_cache w
  /\ device_lock_cache (snd (disconnect_sweep L devices w)) =
     device_lock_cache w
  /\ device_config_cache (snd (disconnect_sweep L devices w)) =
     device_config_cache w
  /\ heap (snd (disconnect_sweep L devices w)) = heap w
  /\ frame (snd (disconnect_sweep L devices w)) = frame w
  /\ trace (snd (disconnect_sweep L devices w)) =
     trace w ++ map EDisconnect (dict_values devices).
Proof.
  rewrite disconnect_sweep_run. cbn [fst snd].
  split; [reflexivity|]. apply logged_disconnects.
Qed.

(** [discover_devices] is the sweep followed by the closing loop. *)
Lemma discover_devices_returns (hide : bool) (u p : option string)
    (bc md : list string) (w w' : World) (info : dict PyVal) :
  discover_devices L hide u p bc md w = (Ok info, w') ->
  exists devices w1,
    discover_sweep L hide u p bc md (set_frame empty_frame w) =
    (Ok (devices, info), w1)
    /\ w' = set_frame (frame w) (snd (disconnect_sweep L devices w1)).
Proof.
  unfold discover_devices, call, bind.
  destruct (discover_sweep L hide u p bc md (set_frame empty_frame w))
    as [[[devices info']|e] w1]; cbn [fst snd]; [|discriminate].
  rewrite disconnect_sweep_run. cbn [fst snd ret].
  intros [= <- <-]. exists devices, w1. split; [reflexivity|].
  now rewrite disconnect_sweep_run.
Qed.
End SweepFacts.

#[export] Instance cache_blind_at (R : World -> World -> Prop)
    (HC : CacheBlind R) (h : string) : CacheBlindAt R h.
Proof. split; intros; apply cache_blind. Qed.

(** ** Relations that runs respect *)

Section Respects.
Context {R : World -> World -> Prop} {ok : Event -> bool} {HR : Stable R ok}.

Lemma respects_ret {A} (a : A) : respects R (ret a).
Proof. intros w. apply stable_refl. Qed.

Lemma respects_raise {A} (e : exn) : respects R (@raise A e).
Proof. intros w. apply stable_refl. Qed.

Lemma respects_lift {A} (r : result A) : respects R (lift r).
Proof. intros w. apply stable_refl. Qed.

Lemma respects_gets {A} (f : World -> A) : respects R (gets f).
Proof. intros w. apply stable_refl. Qed.

Lemma respects_bind {A B} (m : M A) (k : A -> M B) :
  respects R m -> (forall a, respects R (k a)) -> respects R (bind m k).
Proof.
  intros Hm Hk w. unfold bind. specialize (Hm w).
  destruct (m w) as [[a|e] w1]; cbn [snd] in *; auto.
  eapply stable_trans; [exact Hm | apply Hk].
Qed.

Lemma respects_try {A} (m : M A) (h : exn -> M A) :
  respects R m -> (forall e, respects R (h e)) -> respects R (try_except m h).
Proof.
  intros Hm Hh w. unfold try_except. specialize (Hm w).
  destruct (m w) as [[a|e] w1]; cbn [snd] in *; auto.
  eapply stable_trans; [exact Hm | apply Hh].
Qed.

Lemma respects_async_with {A} (l : lock) (body : M A) :
  ok (EAcquire l) = true -> ok (ERelease l) = true ->
  respects R body -> respects R (async_with l body).
Proof.
  intros Ha Hr Hb w. unfold async_with. cbn [snd].
  eapply stable_trans; [apply stable_note, Ha|].
  eapply stable_trans; [apply Hb | apply stable_note, Hr].
Qed.

Lemma respects_for_each {A} (l : list A) (body : A -> M unit) :
  (forall x, respects R (body x)) -> respects R (for_each l body).
Proof.
  intros Hb. induction l as [|x l IH]; cbn [for_each].
  - apply respects_ret.
  - apply respects_bind; auto.
Qed.

Lemma respects_fold_each {A S} (l : list A) (s : S) (body : S -> A -> M S) :
  (forall s x, respects R (body s x)) -> respects R (fold_each l s body).
Proof.
  intros Hb. revert s. induction l as [|x l IH]; intros s; cbn [fold_each].
  - apply respects_ret.
  - apply respects_bind; auto.
Qed.

Lemma respects_alloc (d : Device) : respects R (alloc d).
Proof. intros w. apply stable_heap. Qed.

Lemma respects_asyncio_Lock : respects R asyncio_Lock.
Proof. intros w. apply stable_next_lock. Qed.

Lemma respects_device_lock_cache_get (h : string) :
  respects R (device_lock_cache_get h).
Proof. intros w. apply stable_next_lock. Qed.

Lemma respects_read_device : respects R read_device.
Proof.
  intros w. unfold read_device.
  destruct (loc_device (frame w)); apply stable_refl.
Qed.

Lemma respects_read_device_config : respects R read_device_config.
Proof.
  intros w. unfold read_device_config.
  destruct (loc_device_config (frame w)); apply stable_refl.
Qed.

Variable L : Library.

Lemma respects_Device_connect (cfg : DeviceConfig) :
  ok (EConnect cfg) = true -> respects R (Device_connect L cfg).
Proof.
  intros Hok w. unfold Device_connect.
  destruct (lib_connect L (clock w) cfg); cbn [snd alloc].
  - now apply stable_log.
  - eapply stable_trans; [apply stable_log, Hok | apply stable_heap].
Qed.

Lemma respects_update (r : ref) :
  ok (EUpdate r) = true -> respects R (update L r).
Proof.
  intros Hok w. unfold update.
  destruct (lib_update L (clock w) r _); cbn [snd].
  - now apply stable_log.
  - eapply stable_trans; [apply stable_log, Hok | apply stable_heap].
Qed.

Lemma respects_disconnect (r : ref) :
  ok (EDisconnect r) = true -> respects R (disconnect L r).
Proof.
  intros Hok w. unfold disconnect.
  destruct (lib_disconnect L (clock w) r); now apply stable_log.
Qed.

Lemma respects_invoke (t : Target) (p : Part) (name : string)
    (args : list PyVal) :
  ok (ECall (t_ref t) (t_child t) p name args) = true ->
  respects R (invoke L t p name args).
Proof.
  intros Hok w. unfold invoke.
  destruct (lib_call L _ _ _ _ _ _); now apply stable_log.
Qed.

Lemma respects_disconnect_if_device :
  (forall r, ok (EDisconnect r) = true) ->
  respects R (disconnect_if_device L).
Proof.
  intros Hok. unfold disconnect_if_device.
  apply respects_bind; [apply respects_read_device|].
  intros [r|]; [now apply respects_disconnect | apply respects_ret].
Qed.

Context {HF : FrameBlind R}.

Lemma respects_call {A} (body : M A) :
  respects R body -> respects R (call body).
Proof.
  intros Hb w. unfold call. cbn [snd].
  eapply stable_trans; [apply frame_blind|].
  eapply stable_trans; [apply Hb | apply frame_blind].
Qed.

Lemma respects_assign_device (v : option ref) : respects R (assign_device v).
Proof. intros w. apply frame_blind. Qed.

Lemma respects_assign_device_config (c : DeviceConfig) :
  respects R (assign_device_config c).
Proof. intros w. apply frame_blind. Qed.

Variable h : string.
Context {HC : CacheBlindAt R h}.

Lemma respects_device_cache_pop : respects R (device_cache_pop h).
Proof. intros w. apply pop_blind_at. Qed.

Lemma respects_get_or_connect_device (cfg : DeviceConfig) :
  ok (EConnect cfg) = true ->
  (forall r, ok (EDisconnect r) = true) ->
  respects R (get_or_connect_device L h cfg).
Proof.
  intros Hc Hd. unfold get_or_connect_device.
  apply respects_call, respects_try.
  - apply respects_bind; [apply respects_gets|]. intros cached.
    apply respects_bind; [apply respects_assign_device|]. intros _.
    destruct cached as [r|]; [apply respects_ret|].
    apply respects_bind; [now apply respects_Device_connect|]. intros r.
    apply respects_bind; [apply respects_assign_device|]. intros _.
    apply respects_bind; [|intros _; apply respects_ret].
    intros w. apply put_blind_at.
  - intros e.
    apply respects_bind; [now apply respects_disconnect_if_device|].
    intros _.
    apply respects_bind; [apply respects_device_cache_pop|]. intros _.
    apply respects_raise.
Qed.

End Respects.

Lemma respects_modify (R : World -> World -> Prop) (f : World -> World) :
  (forall w, R w (f w)) -> respects R (modify f).
Proof. intros H w. apply H. Qed.

(** One step of a syntax-directed proof that a run respects a relation;
    the conditions on the events logged are left over. *)
Ltac respects_step :=
  lazymatch goal with
  | |- respects _ (bind _ _) => apply respects_bind
  | |- respects _ (try_except _ _) => apply respects_try
  | |- respects _ (call _) => apply respects_call
  | |- respects _ (async_with _ _) => apply respects_async_with
  | |- respects _ (ret _) => apply respects_ret
  | |- respects _ (raise _) => apply respects_raise
  | |- respects _ (lift _) => apply respects_lift
  | |- respects _ (gets _) => apply respects_gets
  | |- respects _ (modify _) => apply respects_modify
  | |- respects _ (deref _) => apply respects_gets
  | |- respects _ (alloc _) => apply respects_alloc
  | |- respects _ asyncio_Lock => apply respects_asyncio_Lock
  | |- respects _ (device_lock_cache_get _) =>
      apply respects_device_lock_cache_get
  | |- respects _ (assign_device _) => apply respects_assign_device
  | |- respects _ (assign_device_config _) =>
      apply respects_assign_device_config
  | |- respects _ read_device => apply respects_read_device
  | |- respects _ read_device_config => apply respects_read_device_config
  | |- respects _ (device_cache_pop _) => apply respects_device_cache_pop
  | |- respects _ (disconnect_if_device _) =>
      apply respects_disconnect_if_device
  | |- respects _ (get_or_connect_device _ _ _) =>
      apply respects_get_or_connect_device
  | |- respects _ (Device_connect _ _) => apply respects_Device_connect
  | |- respects _ (update _ _) => apply respects_update
  | |- respects _ (disconnect _ _) => apply respects_disconnect
  | |- respects _ (invoke _ _ _ _ _) => apply respects_invoke
  | |- respects _ (for_each _ _) => apply respects_for_each
  | |- respects _ (fold_each _ _ _) => apply respects_fold_each
  | |- respects _ (match ?x with _ => _ end) => destruct x
  | |- FrameBlind _ => exact _
  | |- CacheBlind _ => exact _
  | |- CacheBlindAt _ _ => exact _
  | |- forall _, _ => intros ?
  end.

Section RespectsDispatch.
Context {R : World -> World -> Prop} {ok : Event -> bool} {HR : Stable R ok}.
Variable L : Library.
Hypothesis ok_call : forall r c p name args, ok (ECall r c p name args) = true.

Lemma respects_invoke_module {X} (m : option X) (t : Target) (p : Part)
    (name : string) (args : list PyVal) :
  respects R (invoke_module L m t p name args).
Proof. unfold invoke_module. repeat respects_step. apply ok_call. Qed.

Lemma respects_perform_device_action (device : ref) (feature action : string)
    (value : PyVal) (child_num : option Z) :
  respects R (perform_device_action L device feature action value child_num).
Proof.
  unfold perform_device_action, handle_brightness, handle_color_temp,
    handle_fan_speed_level, handle_hsv, turn_on, turn_off.
  repeat first [ apply respects_invoke_module | respects_step ];
    apply ok_call.
Qed.
End RespectsDispatch.

(** ** Counting events *)

Lemma count_app (p : Event -> bool) (a b : list Event) :
  count p (a ++ b) = count p a + count p b.
Proof. unfold count. now rewrite filter_app, length_app. Qed.

Lemma count_log (p : Event -> bool) (e : Event) (w : World) :
  count p (trace (log e w)) = count p (trace w) + (if p e then 1 else 0).
Proof.
  cbn [log trace]. rewrite count_app. unfold count. cbn.
  now destruct (p e).
Qed.

Lemma count_note (p : Event -> bool) (e : Event) (w : World) :
  count p (trace (note e w)) = count p (trace w) + (if p e then 1 else 0).
Proof.
  cbn [note trace]. rewrite count_app. unfold count. cbn.
  now destruct (p e).
Qed.

#[export] Instance same_count_stable (p : Event -> bool) :
  Stable (same_count p) (fun e => negb (p e)).
Proof.
  unfold same_count. split; intros.
  - reflexivity.
  - congruence.
  - rewrite count_log. destruct (p e); [discriminate|lia].
  - rewrite count_note. destruct (p e); [discriminate|lia].
  - reflexivity.
  - reflexivity.
Qed.

#[export] Instance same_count_frame_blind (p : Event -> bool) :
  FrameBlind (same_count p).
Proof. intros w f. reflexivity. Qed.

#[export] Instance same_count_cache_blind (p : Event -> bool) :
  CacheBlind (same_count p).
Proof. intros w c. reflexivity. Qed.

Section Adds.
Variable p : Event -> bool.

Lemma adds_quiet {A} (m : M A) : respects (same_count p) m -> adds p 0 m.
Proof. intros H w. rewrite (H w). lia. Qed.

Lemma adds_weaken {A} (m : M A) (n n' : nat) :
  n <= n' -> adds p n m -> adds p n' m.
Proof. intros Hle H w. specialize (H w). lia. Qed.

Lemma adds_bind {A B} (n k : nat) (m : M A) (f : A -> M B) :
  adds p n m -> (forall a, adds p k (f a)) -> adds p (n + k) (bind m f).
Proof.
  intros Hm Hf w. unfold bind. specialize (Hm w).
  destruct (m w) as [[a|e] w1]; cbn [snd] in *; [|lia].
  specialize (Hf a w1). lia.
Qed.

Lemma adds_try {A} (n k : nat) (m : M A) (h : exn -> M A) :
  adds p n m -> (forall e, adds p k (h e)) -> adds p (n + k) (try_except m h).
Proof.
  intros Hm Hh w. unfold try_except. specialize (Hm w).
  destruct (m w) as [[a|e] w1]; cbn [snd] in *; [lia|].
  specialize (Hh e w1). lia.
Qed.

Lemma adds_call {A} (n : nat) (body : M A) :
  adds p n body -> adds p n (call body).
Proof. intros Hb w. apply (Hb (set_frame empty_frame w)). Qed.

Lemma adds_async_with {A} (n : nat) (l : lock) (body : M A) :
  p (ERelease l) = false ->
  adds p n body ->
  adds p ((if p (EAcquire l) then 1 else 0) + n) (async_with l body).
Proof.
  intros Hr Hb w. unfold async_with. cbn [snd].
  rewrite count_note, Hr. specialize (Hb (note (EAcquire l) w)).
  rewrite count_note in Hb. lia.
Qed.
End Adds.

(** ** No third attempt, no second probe *)

Section Attempts.
Variable L : Library.

Local Ltac quiet :=
  repeat first [ apply respects_perform_device_action; intros
               | respects_step ];
  reflexivity.

Lemma report_failure_quiet (p : Event -> bool) (h : string) (e : exn) :
  (forall r, p (EDisconnect r) = false) ->
  adds p 0 (report_failure L h e).
Proof.
  intros Hp. apply adds_quiet. unfold report_failure.
  repeat respects_step. cbn. now rewrite Hp.
Qed.

(** X25. Every attempt of a control request takes the host's lock once, and
    a request makes at most two attempts, whatever the library answers. *)
Theorem control_device_at_most_two_attempts (h feature action : string)
    (value : PyVal) (child_num : option Z) (w : World) :
  count is_acquire
    (trace (snd (control_device L h feature action value child_num w)))
  <= count is_acquire (trace w) + 2.
Proof.
  revert w.
  change (adds is_acquire 2
            (control_device L h feature action value child_num)).
  unfold control_device. apply adds_call.
  apply (adds_try is_acquire 1 1); [|intros e; apply (adds_try is_acquire 1 0)].
  - unfold control_first_attempt.
    repeat (apply (adds_bind is_acquire 0 1);
            [apply adds_quiet; quiet | intros ?]).
    apply (adds_async_with is_acquire 0 _ _ eq_refl).
    apply adds_quiet. quiet.
  - unfold control_retry.
    repeat (apply (adds_bind is_acquire 0 1);
            [apply adds_quiet; quiet | intros ?]).
    apply (adds_async_with is_acquire 0 _ _ eq_refl).
    apply adds_quiet. quiet.
  - intros e'. now apply report_failure_quiet.
Qed.

(** X26. A status request takes the host's lock at most twice: once for
    its first attempt and once for its retry. *)
Theorem get_sys_info_at_most_two_attempts (h : string) (w : World) :
  count is_acquire (trace (snd (get_sys_info L h w)))
  <= count is_acquire (trace w) + 2.
Proof.
  revert w. change (adds is_acquire 2 (get_sys_info L h)).
  unfold get_sys_info. apply adds_call.
  apply (adds_try is_acquire 1 1); [|intros e; apply (adds_try is_acquire 1 0)].
  - unfold status_first_attempt.
    repeat (apply (adds_bind is_acquire 0 1);
            [apply adds_quiet; quiet | intros ?]).
    apply (adds_async_with is_acquire 0 _ _ eq_refl).
    apply adds_quiet. quiet.
  - unfold status_retry.
    repeat (apply (adds_bind is_acquire 0 1);
            [apply adds_quiet; quiet | intros ?]).
    apply (adds_async_with is_acquire 0 _ _ eq_refl).
    apply adds_quiet. quiet.
  - intros e'. now apply report_failure_quiet.
Qed.

(** X27. A status request probes the device at most once: only its first
    attempt calls [update], the retry never does. *)
Theorem get_sys_info_at_most_one_update (h : string) (w : World) :
  count is_update (trace (snd (get_sys_info L h w)))
  <= count is_update (trace w) + 1.
Proof.
  revert w. change (adds is_update 1 (get_sys_info L h)).
  unfold get_sys_info. apply adds_call.
  apply (adds_try is_update 1 0); [|intros e; apply (adds_try is_update 0 0)].
  - unfold status_first_attempt.
    repeat (apply (adds_bind is_update 0 1);
            [apply adds_quiet; quiet | intros ?]).
    apply (adds_async_with is_update 1 _ _ eq_refl).
    repeat (apply (adds_bind is_update 0 1);
            [apply adds_quiet; quiet | intros ?]).
    apply (adds_bind is_update 1 0); [|intros ?; apply adds_quiet; quiet].
    intros w. unfold update.
    destruct (lib_update L _ _ _); cbn [snd set_heap trace];
      rewrite count_log; cbn; lia.
  - apply adds_quiet. unfold status_retry. quiet.
  - intros e'. now apply report_failure_quiet.
Qed.
End Attempts.

(** ** Dictionaries keep their keys apart *)

Section DictKeys.
Context {V : Type}.
Implicit Types (d : dict V) (k : string) (v : V).




End DictKeys.

(** ** What a run returns *)

Section Returns.
Context {A : Type} (P : A -> Prop).

Lemma returns_ret (a : A) : P a -> returns P (ret a).
Proof. intros H w. exact H. Qed.

Lemma returns_raise (e : exn) : returns P (raise e).
Proof. intros w. exact I. Qed.

Lemma returns_bind {B} (Q : B -> Prop) (m : M B) (k : B -> M A) :
  returns Q m -> (forall b, Q b -> returns P (k b)) -> returns P (bind m k).
Proof.
  intros Hm Hk w. unfold bind. specialize (Hm w).
  destruct (m w) as [[b|e] w1]; cbn [fst] in *; [|exact I].
  apply (Hk b Hm w1).
Qed.

Lemma returns_bind_any {B} (m : M B) (k : B -> M A) :
  (forall b, returns P (k b)) -> returns P (bind m k).
Proof.
  intros Hk. apply (returns_bind (fun _ => True)); auto.
  intros w. now destruct (fst (m w)).
Qed.



End Returns.

Lemma post_ret {A} (a : A) (w : World) (Q : result A -> World -> Prop) :
  Q (Ok a) w -> post (ret a) w Q.
Proof. auto. Qed.

Lemma post_bind {A B} (m : M A) (k : A -> M B) (w : World)
    (Q : result B -> World -> Prop) :
  post m w (fun r w1 =>
              match r with
              | Ok a => post (k a) w1 Q
              | Raise e => Q (Raise e) w1
              end) ->
  post (bind m k) w Q.
Proof. unfold post, bind. now destruct (m w) as [[a|e] w1]. Qed.

Lemma post_weaken {A} (m : M A) (w : World)
    (Q Q' : result A -> World -> Prop) :
  post m w Q -> (forall r w1, Q r w1 -> Q' r w1) -> post m w Q'.
Proof. unfold post. auto. Qed.

Lemma post_bind_returns {A B} (P : A -> Prop) (m : M A) (k : A -> M B)
    (w : World) (Q : result B -> World -> Prop) :
  returns P m ->
  (forall a w1, P a -> post (k a) w1 Q) ->
  (forall e w1, Q (Raise e) w1) ->
  post (bind m k) w Q.
Proof.
  intros Hm Hk He. unfold post, bind. specialize (Hm w).
  destruct (m w) as [[a|e] w1]; cbn [fst] in *; [|apply He].
  apply (Hk a w1 Hm).
Qed.

Lemma post_bind_any {A B} (m : M A) (k : A -> M B) (w : World)
    (Q : result B -> World -> Prop) :
  (forall a w1, post (k a) w1 Q) ->
  (forall e w1, Q (Raise e) w1) ->
  post (bind m k) w Q.
Proof.
  intros Hk He. apply (post_bind_returns (fun _ => True)); auto.
  intros w0. now destruct (fst (m w0)).
Qed.

(** ** The devices of a sweep have distinct hosts *)

Section SweepHosts.
Variable L : Library.


End SweepHosts.

(** ** Requests on a registered host run under its lock *)

#[export] Instance under_lock_stable (h : string) (l : lock) :
  Stable (under_lock h l) (fun e => negb (acquires_other l e)).
Proof.
  unfold under_lock. split.
  - auto.
  - intros a b c Hab Hbc Ha. destruct (Hab Ha) as [Hb Hn].
    destruct (Hbc Hb) as [Hc Hm]. split; congruence.
  - intros w e Hok Hw. split; [exact Hw|].
    rewrite count_log. destruct (acquires_other l e); [discriminate|lia].
  - intros w e Hok Hw. split; [exact Hw|].
    rewrite count_note. destruct (acquires_other l e); [discriminate|lia].
  - intros w hp Hw. now split.
  - intros w n Hw. now split.
Qed.

#[export] Instance under_lock_frame_blind (h : string) (l : lock) :
  FrameBlind (under_lock h l).
Proof. intros w f Hw. now split. Qed.

#[export] Instance under_lock_cache_blind (h : string) (l : lock) :
  CacheBlind (under_lock h l).
Proof. intros w c Hw. now split. Qed.

Section UnderLock.
Variable L : Library.
Variables (h : string) (l : lock).

(** The lookup followed by [async with]: on a registered host the lock
    taken is the registered one. *)
Lemma registered_lock_lookup (w : World) :
  dict_get (device_lock_cache w) h = Some l ->
  device_lock_cache_get h w = (Ok l, set_next_lock (S (next_lock w)) w).
Proof.
  intros Hreg. unfold device_lock_cache_get, bind, asyncio_Lock, gets, ret.
  cbn. now rewrite Hreg.
Qed.

Lemma under_lock_attempt {A} (body : lock -> M A) :
  (forall l', respects (under_lock h l) (body l')) ->
  respects (under_lock h l)
    (device_lock <- device_lock_cache_get h ;;
     async_with device_lock (body device_lock)).
Proof.
  intros Hb w Hreg.
  unfold bind. rewrite (registered_lock_lookup w Hreg).
  unfold async_with. cbn [snd].
  set (w0 := note (EAcquire l) (set_next_lock (S (next_lock w)) w)).
  assert (H0 : under_lock h l w w0).
  { eapply stable_trans; [apply stable_next_lock|].
    apply stable_note. cbn. now rewrite Nat.eqb_refl. }
  assert (H1 : under_lock h l w (snd (body l w0))).
  { eapply stable_trans; [exact H0 | apply Hb]. }
  assert (H2 : under_lock h l w (note (ERelease l) (snd (body l w0)))).
  { eapply stable_trans; [exact H1 | now apply stable_note]. }
  exact (H2 Hreg).
Qed.

Local Ltac under_lock_steps :=
  repeat first
    [ apply under_lock_attempt
    | apply respects_perform_device_action; intros
    | respects_step ];
  try reflexivity.

Lemma control_device_under_lock (feature action : string) (value : PyVal)
    (child_num : option Z) :
  respects (under_lock h l)
    (control_device L h feature action value child_num).
Proof.
  unfold control_device, control_first_attempt, control_retry,
    report_failure.
  under_lock_steps.
Qed.

Lemma get_sys_info_under_lock : respects (under_lock h l) (get_sys_info L h).
Proof.
  unfold get_sys_info, status_first_attempt, status_retry, report_failure.
  under_lock_steps.
Qed.
End UnderLock.

(** ** The retry, when disconnecting cannot fail *)

#[export] Instance stays_bound_stable : Stable stays_bound (fun _ => true).
Proof.
  unfold stays_bound. split; try (intros; split; auto; fail).
  intros a b c [H1 H2] [H3 H4]. split; auto.
Qed.

#[export] Instance stays_bound_cache_blind : CacheBlind stays_bound.
Proof. intros w c. split; auto. Qed.

Section RetryOnce.
Variable L : Library.
Hypothesis disconnect_never_raises : forall n r, lib_disconnect L n r = None.

(** A call leaves the caller's locals alone. *)
Lemma stays_bound_call {A} (body : M A) : respects stays_bound (call body).
Proof. intros w. split; auto. Qed.

Lemma stays_bound_assign_device (r : ref) :
  respects stays_bound (assign_device (Some r)).
Proof. intros w. split; [intros _; now exists r | auto]. Qed.

Local Ltac bound_steps :=
  repeat first
    [ apply stays_bound_call
    | apply stays_bound_assign_device
    | apply respects_perform_device_action; intros
    | respects_step ];
  try reflexivity.

Local Ltac quiet :=
  repeat first [ apply respects_perform_device_action; intros
               | respects_step ];
  reflexivity.

Lemma disconnect_if_device_bound (w : World) :
  device_bound w ->
  exists r, disconnect_if_device L w = (Ok tt, log (EDisconnect r) w).
Proof.
  intros [r Hr]. exists r.
  unfold disconnect_if_device, bind, read_device, disconnect.
  now rewrite Hr, disconnect_never_raises.
Qed.

(** Reporting a failure with a handle at hand always returns the error
    value. *)
Lemma report_failure_bound (h : string) (e : exn) (w : World) :
  device_bound w ->
  fst (report_failure L h e w) = Ok (error_payload e)
  /\ count is_acquire (trace (snd (report_failure L h e w))) =
     count is_acquire (trace w)
  /\ dict_get (device_cache (snd (report_failure L h e w))) h = None.
Proof.
  intros Hb. destruct (disconnect_if_device_bound w Hb) as [r Hd].
  unfold report_failure, bind. rewrite Hd.
  unfold device_cache_pop, modify, ret. cbn [fst snd].
  split; [reflexivity|]. split.
  - cbn [trace set_device_cache]. rewrite count_log. cbn. lia.
  - cbn [device_cache set_device_cache]. apply dict_get_pop_same.
Qed.

(** The retry block of a request, entered with a handle at hand: it is one
    attempt under a lock, and it leaves a handle at hand. *)
Lemma lock_lookup_run (h : string) (w : World) :
  exists l, device_lock_cache_get h w =
            (Ok l, set_next_lock (S (next_lock w)) w).
Proof.
  unfold device_lock_cache_get, bind, asyncio_Lock, gets, ret. cbn.
  eexists. reflexivity.
Qed.

(** The retry block of a request, entered with a handle at hand: it is one
    attempt under a lock, and it leaves a handle at hand. *)
Lemma retry_block_bound {A} (h : string) (body : M A) (w : World) :
  respects (same_count is_acquire) body ->
  respects stays_bound body ->
  device_bound w ->
  let block := disconnect_if_device L ;; device_cache_pop h ;;
               device_lock <- device_lock_cache_get h ;;
               async_with device_lock body in
  count is_acquire (trace (snd (block w))) = count is_acquire (trace w) + 1
  /\ device_bound (snd (block w)).
Proof.
  intros Hq Hs Hb block.
  destruct (disconnect_if_device_bound w Hb) as [r Hd].
  set (w0 := set_device_cache (dict_pop (device_cache (log (EDisconnect r) w)) h)
               (log (EDisconnect r) w)).
  destruct (lock_lookup_run h w0) as [l Hl].
  set (wa := note (EAcquire l) (set_next_lock (S (next_lock w0)) w0)).
  assert (Hblock : block w =
                   (fst (body wa), note (ERelease l) (snd (body wa)))).
  { subst block. unfold bind at 1. rewrite Hd.
    unfold bind at 1. unfold device_cache_pop, modify. fold w0.
    unfold bind. rewrite Hl. reflexivity. }
  rewrite Hblock. cbn [snd].
  assert (Hwa : count is_acquire (trace wa) = count is_acquire (trace w) + 1).
  { subst wa w0. rewrite count_note.
    cbn [trace set_next_lock set_device_cache].
    rewrite count_log. cbn. lia. }
  assert (Hba : device_bound wa).
  { destruct Hb as [r' Hr']. exists r'. exact Hr'. }
  split.
  - rewrite count_note. cbn. rewrite (Hq wa). lia.
  - destruct (Hs wa) as [Hk _]. destruct (Hk Hba) as [r' Hr'].
    exists r'. exact Hr'.
Qed.

(** The first block of a request, entered without a handle: if it leaves
    one behind, it took the lock once. *)
Lemma first_block_bound {A} (h : string) (body : DeviceConfig -> M A)
    (w : World) :
  (forall c, respects (same_count is_acquire) (body c)) ->
  ~ device_bound w ->
  let block := device_config_dict <- gets (fun w =>
                                      dict_get (device_config_cache w) h) ;;
               device_config <- lift (DeviceConfig_from_dict
                                        device_config_dict) ;;
               assign_device_config device_config ;;
               device_lock <- device_lock_cache_get h ;;
               async_with device_lock (body device_config) in
  device_bound (snd (block w)) ->
  count is_acquire (trace (snd (block w))) = count is_acquire (trace w) + 1.
Proof.
  intros Hq Hnb block. subst block. rewrite !bind_gets.
  destruct (dict_get (device_config_cache w) h) as [c|].
  - cbn [DeviceConfig_from_dict]. rewrite bind_lift_ok.
    unfold bind at 1 3. unfold assign_device_config, modify.
    match goal with
    | |- context [set_frame ?f w] => set (w0 := set_frame f w)
    end.
    destruct (lock_lookup_run h w0) as [l Hl].
    unfold bind. rewrite Hl. unfold async_with. cbn [snd].
    intros _. rewrite count_note. cbn [is_acquire].
    rewrite (Hq c (note (EAcquire l) (set_next_lock (S (next_lock w0)) w0))).
    rewrite count_note. subst w0.
    cbn [trace set_next_lock set_frame is_acquire]. lia.
  - cbn [DeviceConfig_from_dict]. rewrite bind_lift_raise. cbn.
    intros Hb. contradiction.
Qed.

Lemma fresh_frame_unbound (w : World) :
  ~ device_bound (set_frame empty_frame w).
Proof. intros [r Hr]. discriminate. Qed.

(** When the first attempt of a control request raises after a handle was
    obtained, and disconnecting does not raise, the request makes exactly
    two attempts and returns a value: the result of the retry, or the error
    value of the exception the retry raised. *)
Theorem control_device_retries_once (h feature action : string)
    (value : PyVal) (child_num : option Z) (w w1 : World) (e : exn) :
  control_first_attempt L h feature action value child_num
    (set_frame empty_frame w) = (Raise e, w1) ->
  device_bound w1 ->
  let retry := control_retry L h feature action value child_num w1 in
  let out := control_device L h feature action value child_num w in
  count is_acquire (trace (snd out)) = count is_acquire (trace w) + 2
  /\ fst out = Ok match fst retry with
                  | Ok v => v
                  | Raise e' => error_payload e'
                  end.
Proof.
  intros Hfirst Hb retry out.
  assert (Hone : count is_acquire (trace w1) = count is_acquire (trace w) + 1).
  { pose proof (first_block_bound h
                  (fun c => device <- get_or_connect_device L h c ;;
                            assign_device (Some device) ;;
                            perform_device_action L device feature action
                              value child_num)
                  (set_frame empty_frame w)) as Hblock.
    cbv beta zeta in Hblock. unfold control_first_attempt in Hfirst.
    rewrite Hfirst in Hblock. cbn [snd] in Hblock.
    apply Hblock; [intros c; quiet | apply fresh_frame_unbound | exact Hb]. }
  assert (Hretry : count is_acquire (trace (snd retry)) =
                   count is_acquire (trace w1) + 1
                   /\ device_bound (snd retry)).
  { subst retry. unfold control_retry.
    apply retry_block_bound; [quiet | bound_steps | exact Hb]. }
  destruct Hretry as [Hcount Hbound].
  subst out. unfold control_device, call, try_except.
  rewrite Hfirst. fold retry.
  destruct retry as [[v|e'] w2] eqn:Hr; cbn [fst snd set_frame trace] in *.
  - split; [lia | reflexivity].
  - destruct (report_failure_bound h e' w2 Hbound) as (Hres & Hcnt & _).
    destruct (report_failure L h e' w2) as [res w3]; cbn [fst snd] in *.
    subst res. split; [lia | reflexivity].
Qed.

(** X28. When the first attempt of a status request raises after a handle
    was obtained, and disconnecting does not raise, the request makes
    exactly two attempts and returns a value: the result of the retry, or
    the error value of the exception the retry raised. *)
Theorem get_sys_info_retries_once (h : string) (w w1 : World) (e : exn) :
  status_first_attempt L h (set_frame empty_frame w) = (Raise e, w1) ->
  device_bound w1 ->
  let retry := status_retry L h w1 in
  let out := get_sys_info L h w in
  count is_acquire (trace (snd out)) = count is_acquire (trace w) + 2
  /\ fst out = Ok match fst retry with
                  | Ok v => v
                  | Raise e' => error_payload e'
                  end.
Proof.
  intros Hfirst Hb retry out.
  assert (Hone : count is_acquire (trace w1) = count is_acquire (trace w) + 1).
  { pose proof (first_block_bound h
                  (fun c => device <- get_or_connect_device L h c ;;
                            assign_device (Some device) ;;
                            update L device ;;
                            d <- deref device ;;
                            device_info <- lift (custom_serializer d) ;;
                            lift (sys_info_of device_info))
                  (set_frame empty_frame w)) as Hblock.
    cbv beta zeta in Hblock. unfold status_first_attempt in Hfirst.
    rewrite Hfirst in Hblock. cbn [snd] in Hblock.
    apply Hblock; [intros c; quiet | apply fresh_frame_unbound | exact Hb]. }
  assert (Hretry : count is_acquire (trace (snd retry)) =
                   count is_acquire (trace w1) + 1
                   /\ device_bound (snd retry)).
  { subst retry. unfold status_retry.
    apply retry_block_bound; [quiet | bound_steps | exact Hb]. }
  destruct Hretry as [Hcount Hbound].
  subst out. unfold get_sys_info, call, try_except.
  rewrite Hfirst. fold retry.
  destruct retry as [[v|e'] w2] eqn:Hr; cbn [fst snd set_frame trace] in *.
  - split; [lia | reflexivity].
  - destruct (report_failure_bound h e' w2 Hbound) as (Hres & Hcnt & _).
    destruct (report_failure L h e' w2) as [res w3]; cbn [fst snd] in *.
    subst res. split; [lia | reflexivity].
Qed.
End RetryOnce.

(** ** What a sweep leaves in the connection cache *)

#[export] Instance cache_grows_stable : Stable cache_grows (fun _ => true).
Proof. unfold cache_grows. split; auto. Qed.

#[export] Instance cache_grows_frame_blind : FrameBlind cache_grows.
Proof. intros w f k Hk. exact Hk. Qed.

#[export] Instance cache_same_except_stable (h : string) :
  Stable (cache_same_except h) (fun _ => true).
Proof.
  unfold cache_same_except. split; auto.
  intros a b c Hab Hbc k Hk. rewrite Hbc, Hab; auto.
Qed.

#[export] Instance cache_same_except_frame_blind (h : string) :
  FrameBlind (cache_same_except h).
Proof. intros w f k Hk. reflexivity. Qed.

#[export] Instance cache_same_except_blind_at (h : string) :
  CacheBlindAt (cache_same_except h) h.
Proof.
  split; intros w; intros; intros k Hk; cbn [device_cache set_device_cache].
  - apply dict_get_put_other. congruence.
  - apply dict_get_pop_other. congruence.
Qed.

Section SweepCache.
Variable L : Library.
Variable hide : bool.








Lemma collect_failure_cache (h : string) :
  respects (cache_same_except h)
    (try (
       device_config_dict <- gets (fun w =>
                               dict_get (device_config_cache w) h) ;;
       match device_config_dict with
       | Some c =>
           device_config <- lift (DeviceConfig_from_dict (Some c)) ;;
           device <- get_or_connect_device L h device_config ;;
           disconnect L device
       | None => ret tt
       end ;;
       device_cache_pop h)
     except e => ret tt).
Proof. repeat respects_step; reflexivity. Qed.

Lemma fst_try_then_ret {A B} (m : M A) (a : A) (b : B) (w : World) :
  fst (((try m except e => ret a) ;; ret b) w) = Ok b.
Proof.
  unfold bind, try_except, ret. now destruct (m w) as [[u|e] w1].
Qed.

(** Collecting a result: a snapshot is filed under its host and the world
    stays as it is; a failure files nothing and touches the cache at its
    own host only. *)
Lemma collect_result_run (acc : dict PyVal) (h : string)
    (res : exn + PyVal) (w : World) :
  match res with
  | inr v => collect_result L acc (h, res) w = (Ok (dict_put acc h v), w)
  | inl _ =>
      fst (collect_result L acc (h, res) w) = Ok acc
      /\ cache_same_except h w (snd (collect_result L acc (h, res) w))
  end.
Proof.
  destruct res as [e|v]; [|reflexivity].
  unfold collect_result. split.
  - apply fst_try_then_ret.
  - rewrite snd_then_ret. apply collect_failure_cache.
Qed.


End SweepCache.

(** ** More on dispatching *)

Section DispatchMore.
Variable L : Library.

Lemma invoke_run (t : Target) (p : Part) (name : string) (args : list PyVal)
    (w : World) :
  invoke L t p name args w =
  (match lib_call L (clock w) (t_ref t) (t_child t) p name args with
   | Some e => Raise e
   | None => Ok tt
   end, log (ECall (t_ref t) (t_child t) p name args) w).
Proof. unfold invoke. now destruct (lib_call _ _ _ _ _ _ _). Qed.

Lemma invoke_one_call (t : Target) (p : Part) (name : string)
    (args : list PyVal) :
  quiet_or_one_call (invoke L t p name args).
Proof.
  intros w. rewrite invoke_run. cbn [fst snd].
  assert (one_call w (log (ECall (t_ref t) (t_child t) p name args) w))
    by (eexists; split; [|reflexivity]; reflexivity).
  destruct (lib_call _ _ _ _ _ _ _); auto.
Qed.

Lemma invoke_module_one_call {X} (m : option X) (t : Target) (p : Part)
    (name : string) (args : list PyVal) :
  quiet_or_one_call (invoke_module L m t p name args).
Proof.
  destruct m; cbn [invoke_module]; [apply invoke_one_call|].
  intros w. cbn. now left.
Qed.

Lemma lift_then_one_call {A B} (r : result A) (k : A -> M B) :
  (forall a, quiet_or_one_call (k a)) ->
  quiet_or_one_call (a <- lift r ;; k a).
Proof.
  intros Hk. destruct r as [a|e].
  - rewrite bind_lift_ok. apply Hk.
  - rewrite bind_lift_raise. intros w. cbn. now left.
Qed.

Lemma handle_brightness_one_call (t : Target) (action : string)
    (value : PyVal) :
  quiet_or_one_call (handle_brightness L t action value).
Proof.
  unfold handle_brightness, turn_off, turn_on.
  destruct (py_eq_zero value); [apply invoke_one_call|].
  apply lift_then_one_call. intros [|];
    [apply invoke_module_one_call | apply invoke_one_call].
Qed.

Lemma handle_fan_speed_level_one_call (t : Target) (action : string)
    (value : PyVal) :
  quiet_or_one_call (handle_fan_speed_level L t action value).
Proof.
  unfold handle_fan_speed_level, turn_off, turn_on.
  destruct (py_eq_zero value); [apply invoke_one_call|].
  apply lift_then_one_call. intros [|];
    [apply invoke_module_one_call | apply invoke_one_call].
Qed.

Lemma handle_color_temp_one_call (t : Target) (action : string)
    (value : PyVal) :
  quiet_or_one_call (handle_color_temp L t action value).
Proof.
  unfold handle_color_temp.
  apply lift_then_one_call. intros [mn mx].
  apply lift_then_one_call. intros low.
  apply lift_then_one_call. intros v.
  apply invoke_module_one_call.
Qed.

Lemma handle_hsv_one_call (t : Target) (action feature : string)
    (value : PyVal) :
  quiet_or_one_call (handle_hsv L t action feature value).
Proof.
  unfold handle_hsv.
  apply lift_then_one_call. intros triple.
  destruct (feature =? "hue"); [|destruct (feature =? "saturation")].
  - intros w. unfold bind at 1.
    destruct (py_getitem value "hue") as [x|e]; cbn [lift bind ret].
    + apply invoke_module_one_call.
    + cbn. now left.
  - intros w. unfold bind at 1.
    destruct (py_getitem value "saturation") as [x|e]; cbn [lift bind ret].
    + apply invoke_module_one_call.
    + cbn. now left.
  - rewrite bind_ret. apply invoke_module_one_call.
Qed.

Lemma then_success {A} (m : M A) (w : World) :
  quiet_or_one_call m ->
  match fst ((m ;; ret success) w) with
  | Ok v => v = success /\ one_call w (snd ((m ;; ret success) w))
  | Raise _ =>
      snd ((m ;; ret success) w) = w
      \/ one_call w (snd ((m ;; ret success) w))
  end.
Proof.
  intros Hm. specialize (Hm w). unfold bind.
  destruct (m w) as [[a|e] w1]; cbn [fst snd ret] in *; auto.
Qed.

(** X3. Whatever the request, a dispatch makes at most one library call and
    changes nothing else in the world; when it returns, it has made exactly
    one call and the value returned is [{"status": "success"}]. *)
Theorem perform_device_action_one_call (device : ref)
    (feature action : string) (value : PyVal) (child_num : option Z)
    (w : World) :
  let run := perform_device_action L device feature action value child_num
               w in
  match fst run with
  | Ok v => v = success /\ one_call w (snd run)
  | Raise _ => snd run = w \/ one_call w (snd run)
  end.
Proof.
  cbv zeta. unfold perform_device_action, deref. rewrite !bind_gets.
  destruct (select_target device (nth device (heap w) no_device) child_num)
    as [t|e]; [|rewrite bind_lift_raise; cbn; now left].
  rewrite bind_lift_ok.
  apply then_success.
  destruct (feature =? "state"); [apply invoke_one_call|].
  apply lift_then_one_call. intros [|];
    [apply handle_brightness_one_call|].
  apply lift_then_one_call. intros [|];
    [apply handle_color_temp_one_call|].
  destruct ((feature =? "fan_speed_level") && is_some (fan (t_dev t)));
    [apply handle_fan_speed_level_one_call|].
  apply lift_then_one_call. intros [|]; [apply handle_hsv_one_call|].
  intros w0. cbn. now left.
Qed.
End DispatchMore.

Section DispatchEdges.
Variable L : Library.
Variables (device : ref) (action : string) (child_num : option Z).
Variables (w : World) (t : Target).
Hypothesis selected :
  select_target device (nth device (heap w) no_device) child_num = Ok t.

Local Ltac enter :=
  erewrite perform_selected by (try exact selected; reflexivity);
  unfold py_and; simpl String.eqb; cbv iota.

(** X2. A state dispatch calls the named action on the target, without
    arguments, whatever the value and the capabilities of the target; it
    returns [{"status": "success"}] when that call returns and raises what
    the call raises. *)
Theorem state_dispatch_calls_action (value : PyVal) :
  perform_device_action L device "state" action value child_num w =
  (match lib_call L (clock w) (t_ref t) (t_child t) OnDevice action [] with
   | Some e => Raise e
   | None => Ok success
   end, log (ECall (t_ref t) (t_child t) OnDevice action []) w).
Proof.
  unfold perform_device_action, deref. rewrite bind_gets, selected.
  rewrite bind_lift_ok. cbn [String.eqb Ascii.eqb Bool.eqb]. cbv iota.
  unfold bind. rewrite invoke_run.
  now destruct (lib_call _ _ _ _ _ _ _).
Qed.

(** X1. A fan-speed dispatch on a target with a fan module makes exactly one
    call: [turn_off] for the value 0, the named action with [v] on the fan
    module when [0 < v <= 100], and [turn_on] for every other integer. *)
Theorem fan_speed_dispatch_policy (fm : FanModule) (v : Z) :
  fan (t_dev t) = Some fm ->
  let w' := snd (perform_device_action L device "fan_speed_level" action
                   (VInt v) child_num w) in
  (v = 0%Z ->
   trace w' = trace w ++ [ECall (t_ref t) (t_child t) OnDevice "turn_off" []])
  /\ ((0 < v <= 100)%Z ->
      trace w' =
      trace w ++ [ECall (t_ref t) (t_child t) OnFan action [VInt v]])
  /\ ((v < 0 \/ 100 < v)%Z ->
      trace w' =
      trace w ++ [ECall (t_ref t) (t_child t) OnDevice "turn_on" []]).
Proof.
  intros Hf w'. subst w'. enter. rewrite snd_then_ret, !bind_lift_ok, Hf.
  cbn [is_some andb]. unfold handle_fan_speed_level, py_eq_zero, py_in_0_100.
  cbn [py_num]. rewrite Hf. unfold turn_off, turn_on.
  repeat split; intros Hv.
  - subst v. apply trace_invoke.
  - replace (v =? 0)%Z with false by lia. rewrite bind_lift_ok.
    replace ((0 <? v) && (v <=? 100))%Z with true by lia.
    apply trace_invoke.
  - replace (v =? 0)%Z with false by lia. rewrite bind_lift_ok.
    replace ((0 <? v) && (v <=? 100))%Z with false by lia.
    apply trace_invoke.
Qed.

(** X5. A brightness, color-temperature or fan-speed dispatch on a capable
    target whose value is no number (a missing value, a string, a list, a
    dictionary) raises a [TypeError] and makes no library call. *)
Theorem non_numeric_value_raises (value : PyVal) :
  py_num value = None ->
  (has_feature (light (t_dev t)) "brightness" = Ok true ->
   exists msg,
     perform_device_action L device "brightness" action value child_num w =
     (Raise (TypeError msg), w))
  /\ (has_feature (light (t_dev t)) "color_temp" = Ok true ->
      exists msg,
        perform_device_action L device "color_temp" action value child_num w =
        (Raise (TypeError msg), w))
  /\ (fan (t_dev t) <> None ->
      exists msg,
        perform_device_action L device "fan_speed_level" action value
          child_num w =
        (Raise (TypeError msg), w)).
Proof.
  intros Hnum. repeat split.
  - intros Hcap. eexists. enter. rewrite Hcap, bind_lift_ok.
    unfold handle_brightness, py_eq_zero, py_in_0_100. rewrite Hnum.
    reflexivity.
  - intros Hcap. eexists. enter. rewrite bind_lift_ok, Hcap, bind_lift_ok.
    unfold handle_color_temp.
    destruct (light (t_dev t)) as [lm|]; [|discriminate].
    rewrite bind_lift_ok. destruct (valid_temperature_range lm) as [mn mx].
    unfold py_min. rewrite Hnum. reflexivity.
  - intros Hfan. eexists. enter. rewrite !bind_lift_ok.
    destruct (fan (t_dev t)) as [fm|] eqn:Hf; [|contradiction].
    cbn [is_some andb].
    unfold handle_fan_speed_level, py_eq_zero, py_in_0_100. rewrite Hnum.
    reflexivity.
Qed.

(** X6. A hue or saturation dispatch on a capable target whose value is a
    dictionary without the addressed key raises [KeyError] for that key,
    and one whose value is no dictionary raises a [TypeError]; neither
    makes a library call. *)
Theorem hsv_dispatch_bad_value (feature : string) (value : PyVal) :
  feature = "hue" \/ feature = "saturation" ->
  has_feature (light (t_dev t)) "hsv" = Ok true ->
  (forall d, value = VDict d -> dict_get d feature = None ->
             perform_device_action L device feature action value child_num w
             = (Raise (KeyError feature), w))
  /\ ((forall d, value <> VDict d) ->
      exists msg,
        perform_device_action L device feature action value child_num w =
        (Raise (TypeError msg), w)).
Proof.
  intros Hf Hcap.
  destruct (light (t_dev t)) as [lm|] eqn:Hl; [|discriminate].
  assert (Hcap' : has_hsv lm = true) by (simpl in Hcap; congruence).
  destruct (hsv lm) as [[hh ss] vv] eqn:Hh.
  assert (Hget : (forall d, value <> VDict d) ->
                 forall key, exists msg,
                   py_getitem value key = Raise (TypeError msg)).
  { intros Hnd key. destruct value; cbn; try (eexists; reflexivity).
    now contradiction (Hnd d). }
  split.
  - intros d -> Hd.
    destruct Hf as [-> | ->]; enter; rewrite !bind_lift_ok, Hl; simpl;
      rewrite Hcap', bind_lift_ok; unfold handle_hsv;
      rewrite Hl, Hh, bind_lift_ok; simpl; rewrite Hd; reflexivity.
  - intros Hnd.
    destruct Hf as [-> | ->].
    + destruct (Hget Hnd "hue") as [msg Hm]. exists msg.
      enter. rewrite !bind_lift_ok, Hl. simpl.
      rewrite Hcap', bind_lift_ok. unfold handle_hsv.
      rewrite Hl, Hh, bind_lift_ok. simpl String.eqb. cbv iota.
      now rewrite Hm.
    + destruct (Hget Hnd "saturation") as [msg Hm]. exists msg.
      enter. rewrite !bind_lift_ok, Hl. simpl.
      rewrite Hcap', bind_lift_ok. unfold handle_hsv.
      rewrite Hl, Hh, bind_lift_ok. simpl String.eqb. cbv iota.
      now rewrite Hm.
Qed.

(** X7. When the light module reports an inverted temperature range, its
    minimum above its maximum, a color-temperature dispatch sends the
    minimum whatever value was asked for. *)
Theorem color_temp_inverted_range (lm : LightModule) (mn mx v : Z) :
  light (t_dev t) = Some lm ->
  has_color_temp lm = true ->
  valid_temperature_range lm = (mn, mx) ->
  (mx < mn)%Z ->
  trace (snd (perform_device_action L device "color_temp" action (VInt v)
                child_num w)) =
  trace w ++ [ECall (t_ref t) (t_child t) OnLight action [VInt mn]].
Proof.
  intros Hl Hcap Hr Hinv. enter. rewrite snd_then_ret, bind_lift_ok, Hl.
  simpl has_feature. rewrite Hcap, bind_lift_ok.
  rewrite (handle_color_temp_int L t action lm mn mx v Hl Hr).
  rewrite trace_invoke. now replace (Z.max (Z.min v mx) mn) with mn by lia.
Qed.
End DispatchEdges.

(** ** Addressing a child *)

Lemma py_index_in_range {A} (l : list A) (i : Z) (dflt : A) :
  (- Z.of_nat (length l) <= i < Z.of_nat (length l))%Z ->
  py_position (length l) i < length l
  /\ py_index l i =
     Ok (py_position (length l) i, nth (py_position (length l) i) l dflt).
Proof.
  intros Hi. unfold py_index, py_position. cbv zeta.
  set (j := if (i <? 0)%Z then (Z.of_nat (length l) + i)%Z else i).
  assert (Hj : (0 <= j < Z.of_nat (length l))%Z).
  { subst j. destruct (Z.ltb_spec i 0); lia. }
  assert (Hlt : Z.to_nat j < length l) by lia.
  split; [exact Hlt|].
  replace (j <? 0)%Z with false by lia.
  destruct (nth_error l (Z.to_nat j)) as [a|] eqn:Hn.
  - now rewrite (nth_error_nth _ _ dflt Hn).
  - apply nth_error_None in Hn. lia.
Qed.

Lemma py_index_out_of_range {A} (l : list A) (i : Z) :
  (i < - Z.of_nat (length l) \/ Z.of_nat (length l) <= i)%Z ->
  py_index l i = Raise (IndexError "list index out of range").
Proof.
  intros Hi. unfold py_index. cbv zeta.
  destruct (Z.ltb_spec i 0).
  - replace (Z.of_nat (length l) + i <? 0)%Z with true by lia. reflexivity.
  - replace (i <? 0)%Z with false by lia.
    assert (Hn : nth_error l (Z.to_nat i) = None)
      by (apply nth_error_None; lia).
    now rewrite Hn.
Qed.

Section ChildAddressing.
Variable L : Library.

(** X4. With a child number [i] and a device of [n] children, a dispatch
    acts on the child at position [i] when [0 <= i < n] and at position
    [n + i] when [-n <= i < 0], the call being made on that child; for
    every other [i] it raises [IndexError] without calling anything,
    whatever the feature. *)
Theorem child_dispatch_addressing (device : ref) (feature action : string)
    (value : PyVal) (i : Z) (w : World) :
  let n := length (children (nth device (heap w) no_device)) in
  ((- Z.of_nat n <= i < Z.of_nat n)%Z ->
   py_position n i < n
   /\ trace (snd (perform_device_action L device "state" action value
                    (Some i) w)) =
      trace w ++ [ECall device (Some (py_position n i)) OnDevice action []])
  /\ ((i < - Z.of_nat n \/ Z.of_nat n <= i)%Z ->
      perform_device_action L device feature action value (Some i) w =
      (Raise (IndexError "list index out of range"), w)).
Proof.
  cbv zeta. split; intros Hi.
  - destruct (py_index_in_range _ i no_device Hi) as [Hlt Hidx].
    split; [exact Hlt|].
    unfold perform_device_action, deref. rewrite bind_gets.
    unfold select_target. rewrite Hidx. cbn [rbind]. rewrite bind_lift_ok.
    cbn [String.eqb Ascii.eqb Bool.eqb]. cbv iota.
    rewrite snd_then_ret. apply trace_invoke.
  - unfold perform_device_action, deref. rewrite bind_gets.
    unfold select_target. rewrite (py_index_out_of_range _ i Hi).
    reflexivity.
Qed.
End ChildAddressing.

(** ** The resolver on a cached host *)

Section ResolverMore.
Variable L : Library.

Lemma get_or_connect_device_hit (h : string) (cfg : DeviceConfig)
    (w : World) (r : ref) :
  dict_get (device_cache w) h = Some r ->
  get_or_connect_device L h cfg w = (Ok r, w).
Proof.
  intros Hhit.
  unfold get_or_connect_device, call, try_except, bind, gets.
  cbn [device_cache set_frame fst snd]. rewrite Hhit.
  cbn. now destruct w.
Qed.

Lemma get_or_connect_device_new (h : string) (cfg : DeviceConfig)
    (w : World) (d : Device) :
  dict_get (device_cache w) h = None ->
  lib_connect L (clock w) cfg = inr d ->
  get_or_connect_device L h cfg w =
  (Ok (length (heap w)),
   set_device_cache (dict_put (device_cache w) h (length (heap w)))
     (set_heap (heap w ++ [d]) (log (EConnect cfg) w))).
Proof.
  intros Hmiss Hconn.
  unfold get_or_connect_device, call, try_except, bind, gets.
  cbn [device_cache set_frame fst snd]. rewrite Hmiss.
  unfold assign_device, modify, Device_connect.
  cbn [clock set_frame]. rewrite Hconn.
  cbn. reflexivity.
Qed.

(** X8. The two ways the resolver returns a handle.  When the cache holds
    one for the host, it returns that handle and changes nothing: no
    library call, whatever the configuration passed.  When the cache holds
    none and the connect attempt answers, it returns a new handle to the
    device that answered, stores it in the cache under the host, and the
    connect attempt is its only library call; resolving the host again
    then returns the same handle and calls nothing. *)
Theorem get_or_connect_device_success (h : string) (cfg : DeviceConfig)
    (w : World) :
  let run := get_or_connect_device L h cfg w in
  (forall r, dict_get (device_cache w) h = Some r -> run = (Ok r, w))
  /\ (forall d,
        dict_get (device_cache w) h = None ->
        lib_connect L (clock w) cfg = inr d ->
        fst run = Ok (length (heap w))
        /\ heap (snd run) = heap w ++ [d]
        /\ device_cache (snd run) =
           dict_put (device_cache w) h (length (heap w))
        /\ trace (snd run) = trace w ++ [EConnect cfg]
        /\ forall cfg', get_or_connect_device L h cfg' (snd run) =
                        (Ok (length (heap w)), snd run)).
Proof.
  cbv zeta. split.
  - intros r Hhit. now apply get_or_connect_device_hit.
  - intros d Hmiss Hconn.
    rewrite (get_or_connect_device_new h cfg w d Hmiss Hconn).
    cbn [fst snd]. repeat split.
    intros cfg'. apply get_or_connect_device_hit.
    cbn [device_cache set_device_cache]. apply dict_get_put_same.
Qed.
End ResolverMore.

(** ** Closing every connection *)

Section Closing.
Variable L : Library.

Lemma close_all_connections_run (w : World) :
  close_all_connections L w =
  (Ok tt,
   set_device_cache []
     (fold_left (fun w r => log (EDisconnect r) w)
        (dict_values (device_cache w)) w)).
Proof.
  unfold close_all_connections. rewrite bind_gets.
  destruct (device_cache w) as [|item rest] eqn:Hc.
  - cbn. destruct w; cbn in *. now subst.
  - pose proof (disconnect_sweep_run L (item :: rest) w) as Hrun.
    unfold disconnect_sweep in Hrun.
    assert (Hfor : for_each (dict_values (item :: rest))
                     (fun device => try disconnect L device except e => ret tt)
                     w =
                   (Ok tt, fold_left (fun w r => log (EDisconnect r) w)
                             (dict_values (item :: rest)) w)).
    { clear. generalize (item :: rest). intros l. revert w.
      induction l as [|[k r] l IH]; intros w; [reflexivity|].
      cbn [for_each dict_values map snd fold_left].
      unfold bind, try_except.
      pose proof (disconnect_effect L r w) as He.
      destruct (disconnect L r w) as [[[]|e] w1]; cbn [snd] in He; subst w1;
        cbn [ret]; apply IH. }
    unfold bind at 1. rewrite Hfor. reflexivity.
Qed.

(** X10. Closing all connections never raises, whatever the disconnects
    answer: it calls [disconnect] once on every cached handle, in the order
    of the cache, and leaves the cache empty; the lock table, the
    configuration store and the devices themselves are as before. *)
Theorem close_all_connections_effect (w : World) :
  let run := close_all_connections L w in
  fst run = Ok tt
  /\ device_cache (snd run) = []
  /\ trace (snd run) =
     trace w ++ map EDisconnect (dict_values (device_cache w))
  /\ device_lock_cache (snd run) = device_lock_cache w
  /\ device_config_cache (snd run) = device_config_cache w
  /\ heap (snd run) = heap w.
Proof.
  cbv zeta. rewrite close_all_connections_run. cbn [fst snd].
  destruct (logged_disconnects (dict_values (device_cache w)) w)
    as (_ & Hl & Hc & Hh & _ & Ht).
  cbv zeta in Hl, Hc, Hh, Ht. cbn [set_device_cache device_cache trace
    device_lock_cache device_config_cache heap].
  repeat split; assumption.
Qed.

(** X11. The shutdown hook never raises, disconnects every cached handle
    once and leaves all three tables empty. *)
Theorem cleanup_effect (w : World) :
  let run := cleanup L w in
  fst run = Ok tt
  /\ device_cache (snd run) = []
  /\ device_lock_cache (snd run) = []
  /\ device_config_cache (snd run) = []
  /\ trace (snd run) =
     trace w ++ map EDisconnect (dict_values (device_cache w)).
Proof.
  cbv zeta. unfold cleanup, bind, call, modify.
  rewrite close_all_connections_run. cbn [fst snd].
  destruct (logged_disconnects (dict_values (device_cache w))
              (set_frame empty_frame w)) as (_ & _ & _ & _ & _ & Ht).
  cbv zeta in Ht. cbn. cbn in Ht. repeat split; assumption.
Qed.
End Closing.

(** ** The lock table and the configuration store *)

#[export] Instance tables_kept_stable : Stable tables_kept (fun _ => true).
Proof.
  unfold tables_kept. split; auto.
  intros a b c [H1 H2] [H3 H4]. split; congruence.
Qed.

#[export] Instance tables_kept_frame_blind : FrameBlind tables_kept.
Proof. intros w f. split; reflexivity. Qed.

#[export] Instance tables_kept_cache_blind : CacheBlind tables_kept.
Proof. intros w c. split; reflexivity. Qed.

#[export] Instance registrations_kept_stable :
  Stable registrations_kept (fun _ => true).
Proof.
  unfold registrations_kept. split; auto.
  intros a b c [H1 H2] [H3 H4]. split; auto.
Qed.

#[export] Instance registrations_kept_frame_blind :
  FrameBlind registrations_kept.
Proof. intros w f. split; auto. Qed.

#[export] Instance registrations_kept_cache_blind :
  CacheBlind registrations_kept.
Proof. intros w c. split; auto. Qed.

Section Registrations.
Context {R : World -> World -> Prop} {ok : Event -> bool} {HR : Stable R ok}.
Variable L : Library.
Hypothesis ok_all : forall e, ok e = true.

Lemma respects_on_discovered (device : ref) (to_remove : list string) :
  respects R (on_discovered L device to_remove).
Proof. unfold on_discovered. repeat respects_step; apply ok_all. Qed.

Lemma respects_Discover_discover (target : string)
    (credentials : option (string * string)) (to_remove : list string) :
  respects R (Discover_discover L target credentials to_remove).
Proof.
  intros w. unfold Discover_discover.
  destruct (lib_discover L (clock w) target credentials) as [e|found];
    cbn [snd]; [apply stable_log, ok_all|].
  eapply stable_trans; [apply stable_log, ok_all|].
  apply respects_fold_each. intros acc d.
  repeat first [ apply respects_on_discovered | respects_step ].
Qed.

Lemma respects_Discover_discover_single (h : string)
    (credentials : option (string * string)) :
  respects R (Discover_discover_single L h credentials).
Proof.
  intros w. unfold Discover_discover_single.
  destruct (lib_discover_single L (clock w) h credentials) as [e|d];
    cbn [snd]; [apply stable_log, ok_all|].
  eapply stable_trans; [apply stable_log, ok_all | apply stable_heap].
Qed.
End Registrations.

Section Tables.
Variable L : Library.

Local Ltac steps :=
  repeat first [ apply respects_perform_device_action; intros
               | respects_step ];
  try reflexivity.

(** X12. Control and status requests never touch the lock table nor the
    configuration store: whatever the request and whatever the library
    answers, both are afterwards what they were before. *)
Theorem requests_keep_tables (h feature action : string) (value : PyVal)
    (child_num : option Z) (w : World) :
  tables_kept w (snd (control_device L h feature action value child_num w))
  /\ tables_kept w (snd (get_sys_info L h w)).
Proof.
  split; revert w.
  - change (respects tables_kept
              (control_device L h feature action value child_num)).
    unfold control_device, control_first_attempt, control_retry,
      report_failure. steps.
  - change (respects tables_kept (get_sys_info L h)).
    unfold get_sys_info, status_first_attempt, status_retry,
      report_failure. steps.
Qed.

Lemma put_lock_keeps (w : World) (h : string) (l : lock) :
  dict_get (device_lock_cache w) h = None ->
  registrations_kept w
    (set_device_lock_cache (dict_put (device_lock_cache w) h l) w).
Proof.
  intros Hfree. split; cbn [device_lock_cache device_config_cache
                            set_device_lock_cache]; [|auto].
  intros k l' Hk. rewrite dict_get_put_other; [exact Hk|].
  intros ->. congruence.
Qed.

Lemma put_config_keeps (w : World) (h : string) (c : DeviceConfig) :
  registrations_kept w
    (set_device_config_cache (dict_put (device_config_cache w) h c) w).
Proof.
  split; cbn [device_lock_cache device_config_cache
              set_device_config_cache]; [auto|].
  intros k Hk. destruct (String.eqb_spec h k) as [->|Hne].
  - rewrite dict_get_put_same. discriminate.
  - now rewrite dict_get_put_other.
Qed.

Lemma dict_contains_false {V} (d : dict V) (k : string) :
  dict_contains d k = false -> dict_get d k = None.
Proof.
  intros Hc. destruct (dict_get d k) eqn:Hg; [|reflexivity].
  assert (Hn : dict_get d k <> None) by congruence.
  apply dict_contains_get in Hn. congruence.
Qed.

(** Registering the lock of a device of the sweep: only for a host that
    has none. *)
Lemma register_lock_keeps (h : string) (w : World) :
  registrations_kept w
    (snd ((if dict_contains (device_lock_cache w) h then ret tt
           else l <- asyncio_Lock ;;
                modify (fun w =>
                  set_device_lock_cache
                    (dict_put (device_lock_cache w) h l) w)) w)).
Proof.
  destruct (dict_contains (device_lock_cache w) h) eqn:Hc;
    [apply stable_refl|].
  unfold bind, asyncio_Lock, modify. cbn [snd].
  eapply stable_trans; [apply (stable_next_lock w (S (next_lock w)))|].
  apply put_lock_keeps. cbn [device_lock_cache set_next_lock].
  now apply dict_contains_false.
Qed.

Variable hide : bool.

Lemma classify_device_keeps (tasks : list (string * ref))
    (item : string * ref) :
  respects registrations_kept (classify_device L hide tasks item).
Proof.
  unfold classify_device. destruct item as [h device].
  repeat first
    [ lazymatch goal with
      | |- respects _ (bind (gets device_lock_cache) _) =>
          let w0 := fresh "w" in
          intros w0; rewrite bind_gets, snd_then_ret;
          apply register_lock_keeps
      end
    | respects_step ]; try reflexivity.
  match goal with
  | |- context [dict_contains ?c ?x] => destruct (dict_contains c x)
  end; [apply stable_refl | apply cache_blind].
Qed.

Lemma create_device_info_keeps (h : string) (device : ref) :
  respects registrations_kept (call (create_device_info h device)).
Proof.
  unfold create_device_info. repeat respects_step; try reflexivity.
  apply put_config_keeps.
Qed.

Lemma collect_result_keeps (acc : dict PyVal)
    (res : string * (exn + PyVal)) :
  respects registrations_kept (collect_result L acc res).
Proof.
  unfold collect_result. destruct res as [h [e|v]];
    repeat respects_step; reflexivity.
Qed.

Lemma discover_sweep_keeps (u p : option string) (bc md : list string) :
  respects registrations_kept (discover_sweep L hide u p bc md).
Proof.
  unfold discover_sweep, close_all_connections, discover_on_broadcast,
    discover_manual_device.
  repeat first
    [ apply classify_device_keeps
    | apply create_device_info_keeps
    | apply collect_result_keeps
    | apply respects_Discover_discover; [reflexivity]
    | apply respects_Discover_discover_single; [reflexivity]
    | apply respects_on_discovered; [reflexivity]
    | respects_step ]; try reflexivity.
  apply cache_blind.
Qed.

(** X13. A discovery sweep never unregisters anything: a host that has a
    lock before the sweep has that same lock afterwards, and a host with a
    stored configuration still has one, whether the sweep returns or
    raises and whatever the library answers. *)
Theorem discover_devices_keeps_registrations (u p : option string)
    (bc md : list string) (w : World) :
  registrations_kept w (snd (discover_devices L hide u p bc md w)).
Proof.
  revert w.
  change (respects registrations_kept (discover_devices L hide u p bc md)).
  unfold discover_devices, disconnect_sweep.
  repeat first [ apply discover_sweep_keeps | respects_step ];
    reflexivity.
Qed.
End Tables.

(** ** What a sweep registers *)

Lemma custom_serializer_form (d : Device) (out : PyVal) :
  custom_serializer d = Ok out ->
  exists sys_info feature_info,
    out = VDict [("sys_info", VDict sys_info);
                 ("feature_info", VDict feature_info)].
Proof.
  unfold custom_serializer. cbv zeta.
  match goal with
  | |- rbind ?m _ = _ -> _ => destruct m as [si|e]
  end; cbn [rbind]; [|discriminate].
  destruct (light d); cbn [rbind]; intros [= <-]; eauto.
Qed.

Lemma kept_known (w w1 : World) (k : string) :
  registrations_kept w w1 -> known w k -> known w1 k.
Proof. intros [_ H]. apply H. Qed.

Lemma kept_locked (w w1 : World) (k : string) :
  registrations_kept w w1 -> locked w k -> locked w1 k.
Proof.
  intros [H _]. unfold locked. intros Hk.
  destruct (dict_get (device_lock_cache w) k) as [l|] eqn:Hl;
    [|contradiction].
  rewrite (H k l Hl). discriminate.
Qed.

Lemma create_device_info_eq (h : string) (device : ref) (w : World) :
  create_device_info h device w =
  match custom_serializer (nth device (heap w) no_device) with
  | Ok out =>
      (Ok (h, inr out),
       set_device_config_cache
         (dict_put (device_config_cache w) h
            (config (nth device (heap w) no_device))) w)
  | Raise e => (Ok (h, inl e), w)
  end.
Proof.
  unfold create_device_info, try_except, deref.
  rewrite bind_gets.
  destruct (custom_serializer (nth device (heap w) no_device))
    as [out|e] eqn:Hser; [|reflexivity].
  destruct (custom_serializer_form _ _ Hser) as (si & fi & ->).
  reflexivity.
Qed.

(** X15. Creating the report of a device never raises and always names the
    host it was asked for.  When the serializer produces a snapshot, the
    device's configuration is stored under the host and the snapshot is
    returned as it is; when the serializer raises, the exception is
    returned as a value and nothing changes. *)
Theorem create_device_info_outcome (h : string) (device : ref) (w : World) :
  let d := nth device (heap w) no_device in
  let run := create_device_info h device w in
  exists res,
    fst run = Ok (h, res)
    /\ match res with
       | inr out =>
           custom_serializer d = Ok out
           /\ snd run =
              set_device_config_cache
                (dict_put (device_config_cache w) h (config d)) w
       | inl e => custom_serializer d = Raise e /\ snd run = w
       end.
Proof.
  cbv zeta. rewrite create_device_info_eq.
  destruct (custom_serializer (nth device (heap w) no_device)) as [out|e].
  - exists (inr out). auto.
  - exists (inl e). auto.
Qed.

Section SweepRegisters.
Variable L : Library.
Variable hide : bool.

(** A device either joins the update tasks, and then its host has a lock,
    or the tasks stay as they are. *)
Lemma classify_device_locks (tasks : list (string * ref)) (h : string)
    (device : ref) (w : World) :
  post (classify_device L hide tasks (h, device)) w
    (fun r w1 =>
       match r with
       | Ok tasks' =>
           tasks' = tasks
           \/ (tasks' = tasks ++ [(h, device)] /\ locked w1 h)
       | Raise _ => True
       end).
Proof.
  unfold classify_device.
  apply post_bind_any; [intros probed w1 | intros; exact I].
  destruct probed; cbn [negb]; [|apply post_ret; now left].
  apply post_bind_any; [intros skipped w2 | intros; exact I].
  destruct skipped; [apply post_ret; now left|].
  apply post_bind_any; [intros d w3 | intros; exact I].
  destruct (negb _ && negb _);
    [|apply post_bind_any; [intros; apply post_ret; now left
                           | intros; exact I]].
  apply post_bind_any; [intros _ w4 | intros; exact I].
  unfold post. rewrite bind_gets.
  destruct (dict_contains (device_lock_cache w4) h) eqn:Hc.
  - cbn. right. split; [reflexivity|]. now apply dict_contains_get.
  - cbn. right. split; [reflexivity|]. unfold locked. cbn.
    rewrite dict_get_put_same. discriminate.
Qed.

Lemma classify_loop_locks (devices : list (string * ref)) :
  forall (tasks : list (string * ref)) (w : World),
    (forall k, In k (map fst tasks) -> locked w k) ->
    post (fold_each devices tasks (classify_device L hide)) w
      (fun r w1 =>
         match r with
         | Ok tasks' => forall k, In k (map fst tasks') -> locked w1 k
         | Raise _ => True
         end).
Proof.
  induction devices as [|[h device] rest IH]; intros tasks w Hl.
  - exact Hl.
  - cbn [fold_each]. apply post_bind. unfold post at 1.
    pose proof (classify_device_locks tasks h device w) as Hres.
    pose proof (classify_device_keeps L hide tasks (h, device) w) as Hkeep.
    unfold post in Hres.
    destruct (classify_device L hide tasks (h, device) w) as [[tasks'|e] w1];
      cbn [fst snd] in *; [|exact I].
    apply IH. intros k Hk. destruct Hres as [->|[-> Hh]].
    + eapply kept_locked; [exact Hkeep | now apply Hl].
    + rewrite map_app in Hk.
      apply in_app_or in Hk as [Hk|[<-|[]]]; [|exact Hh].
      eapply kept_locked; [exact Hkeep | now apply Hl].
Qed.

(** A host is listed when it has a stored configuration and a lock. *)
Lemma create_loop_lists (tasks : list (string * ref)) :
  forall (results : list (string * (exn + PyVal))) (w : World),
    (forall k, In k (map fst tasks) -> locked w k) ->
    (forall k v, In (k, inr v) results ->
                 (known w k /\ locked w k) /\ device_report v) ->
    post (fold_each tasks results
            (fun results task =>
               res <- call (create_device_info (fst task) (snd task)) ;;
               ret (results ++ [res]))) w
      (fun r w1 =>
         match r with
         | Ok results' =>
             forall k v, In (k, inr v) results' ->
                         (known w1 k /\ locked w1 k) /\ device_report v
         | Raise _ => True
         end).
Proof.
  induction tasks as [|[h device] rest IH]; intros results w Hl Hr.
  - exact Hr.
  - cbn [fold_each fst snd]. apply post_bind. unfold post at 1. unfold bind.
    pose proof (create_device_info_keeps h device w) as Hkeep.
    unfold call in *. rewrite create_device_info_eq in *.
    cbv zeta in *. cbn [heap set_frame] in *.
    destruct (custom_serializer (nth device (heap w) no_device))
      as [out|e] eqn:Hser; cbn [fst snd ret] in *.
    + apply IH.
      * intros k Hk. eapply kept_locked; [exact Hkeep|]. apply Hl.
        cbn [map fst]. now right.
      * intros k v Hin. apply in_app_or in Hin as [Hin|[[= <- <-]|[]]].
        -- destruct (Hr k v Hin) as [[Hk Hlk] Hv].
           repeat split; eauto using kept_known, kept_locked.
        -- repeat split.
           ++ unfold known. cbn. rewrite dict_get_put_same. discriminate.
           ++ eapply kept_locked; [exact Hkeep|]. apply Hl. now left.
           ++ destruct (custom_serializer_form _ _ Hser) as (si & fi & ->).
              now exists (VDict si), (VDict fi).
    + apply IH.
      * intros k Hk. eapply kept_locked; [exact Hkeep|]. apply Hl.
        cbn [map fst]. now right.
      * intros k v Hin. apply in_app_or in Hin as [Hin|[[=]|[]]].
        destruct (Hr k v Hin) as [[Hk Hlk] Hv].
        repeat split; eauto using kept_known, kept_locked.
Qed.

Lemma collect_loop_lists (results : list (string * (exn + PyVal))) :
  forall (acc : dict PyVal) (w : World),
    (forall k v, dict_get acc k = Some v ->
                 (known w k /\ locked w k) /\ device_report v) ->
    (forall k v, In (k, inr v) results ->
                 (known w k /\ locked w k) /\ device_report v) ->
    post (fold_each results acc (collect_result L)) w
      (fun r w1 =>
         match r with
         | Ok info =>
             forall k v, dict_get info k = Some v ->
                         (known w1 k /\ locked w1 k) /\ device_report v
         | Raise _ => True
         end).
Proof.
  induction results as [|[h res] rest IH]; intros acc w Hacc Hres.
  - exact Hacc.
  - cbn [fold_each]. apply post_bind. unfold post at 1.
    pose proof (collect_result_run L acc h res w) as Hrun.
    pose proof (collect_result_keeps L acc (h, res) w) as Hkeep.
    destruct res as [e|v].
    + destruct Hrun as [Hfst _].
      destruct (collect_result L acc (h, inl e) w) as [r w1];
        cbn [fst snd] in *. subst r.
      apply IH.
      * intros k v Hk. destruct (Hacc k v Hk) as [[H1 H2] H3].
        repeat split; eauto using kept_known, kept_locked.
      * intros k v Hin. destruct (Hres k v (or_intror Hin)) as [[H1 H2] H3].
        repeat split; eauto using kept_known, kept_locked.
    + rewrite Hrun. apply IH.
      * intros k v' Hk. destruct (String.eqb_spec h k) as [->|Hne].
        -- rewrite dict_get_put_same in Hk. injection Hk as <-.
           apply Hres. now left.
        -- rewrite dict_get_put_other in Hk by exact Hne. now apply Hacc.
      * intros k v' Hin. apply Hres. now right.
Qed.

Lemma discover_sweep_lists (u p : option string) (bc md : list string)
    (w : World) :
  post (discover_sweep L hide u p bc md) w
    (fun r w1 =>
       match r with
       | Ok swept =>
           forall k v, dict_get (snd swept) k = Some v ->
                       (known w1 k /\ locked w1 k) /\ device_report v
       | Raise _ => True
       end).
Proof.
  unfold discover_sweep.
  apply post_bind_any; [intros cache w0 | intros; exact I].
  apply post_bind_any; [intros _ w1 | intros; exact I].
  apply post_bind_any; [intros found w2 | intros; exact I].
  apply post_bind_any; [intros [devices to_remove] w3 | intros; exact I].
  apply post_bind_any; [intros devices1 w4 | intros; exact I].
  apply post_bind_any; [intros configs w5 | intros; exact I].
  apply post_bind_any; [intros devices2 w6 | intros; exact I].
  apply post_bind. eapply post_weaken.
  { apply classify_loop_locks. intros k []. }
  intros [tasks|e] w7; [|auto]. intros Hlocked.
  apply post_bind. eapply post_weaken.
  { apply create_loop_lists; [exact Hlocked | intros k v []]. }
  intros [results|e] w8; [|auto]. intros Hlisted.
  apply post_bind. eapply post_weaken.
  { apply collect_loop_lists; [intros k v [=] | exact Hlisted]. }
  intros [info|e] w9; [|auto]. intros Hinfo.
  apply post_ret. exact Hinfo.
Qed.

(** X14. When a discovery sweep returns, every host it reports has a stored
    configuration and a registered lock, so that a later request for it
    finds both; and what is reported for the host is a dictionary of
    exactly the two parts [sys_info] and [feature_info]. *)
Theorem discover_devices_registers_reported (u p : option string)
    (bc md : list string) (w w' : World) (info : dict PyVal) :
  discover_devices L hide u p bc md w = (Ok info, w') ->
  forall k v, dict_get info k = Some v ->
              known w' k /\ locked w' k /\ device_report v.
Proof.
  intros Hrun k v Hk.
  destruct (discover_devices_returns L hide u p bc md w w' info Hrun)
    as (devices & w1 & Hsweep & ->).
  destruct (disconnect_sweep_effect L devices w1)
    as (_ & _ & Hl & Hg & _).
  pose proof (discover_sweep_lists u p bc md (set_frame empty_frame w))
    as Hpost.
  unfold post in Hpost. rewrite Hsweep in Hpost. cbn [fst snd] in Hpost.
  destruct (Hpost k v Hk) as [[H1 H2] H3].
  unfold known, locked in *.
  cbn [set_frame device_config_cache device_lock_cache].
  rewrite Hl, Hg. auto.
Qed.
End SweepRegisters.

(** ** What a request returns, and what it leaves in the cache *)

#[export] Instance cache_kept_stable : Stable cache_kept (fun _ => true).
Proof.
  unfold cache_kept. split; auto. intros a b c H1 H2. congruence.
Qed.

#[export] Instance cache_kept_frame_blind : FrameBlind cache_kept.
Proof. intros w f. reflexivity. Qed.

Lemma post_try {A} (m : M A) (h : exn -> M A) (w : World)
    (Q : result A -> World -> Prop) :
  post m w (fun r w1 =>
              match r with
              | Ok a => Q (Ok a) w1
              | Raise e => post (h e) w1 Q
              end) ->
  post (try_except m h) w Q.
Proof. unfold post, try_except. now destruct (m w) as [[a|e] w1]. Qed.

Lemma post_call {A} (body : M A) (w : World)
    (Q : result A -> World -> Prop) :
  post body (set_frame empty_frame w)
    (fun r w1 => Q r (set_frame (frame w) w1)) ->
  post (call body) w Q.
Proof. auto. Qed.

Lemma post_async_with {A} (l : lock) (body : M A) (w : World)
    (Q : result A -> World -> Prop) :
  post body (note (EAcquire l) w)
    (fun r w1 => Q r (note (ERelease l) w1)) ->
  post (async_with l body) w Q.
Proof. auto. Qed.

Section Outcomes.
Variable L : Library.
Variable h : string.

Lemma get_or_connect_device_caches (cfg : DeviceConfig) (w : World) :
  post (get_or_connect_device L h cfg) w
    (fun r w1 =>
       match r with
       | Ok _ => cached w1 h
       | Raise _ => ~ cached w1 h
       end).
Proof.
  unfold post, cached.
  destruct (dict_get (device_cache w) h) as [r|] eqn:Hc.
  - rewrite (get_or_connect_device_hit L h cfg w r Hc). cbn [fst snd].
    congruence.
  - destruct (lib_connect L (clock w) cfg) as [e|d] eqn:Hconn.
    + unfold get_or_connect_device, call, try_except, bind, gets.
      cbn [device_cache set_frame fst snd]. rewrite Hc.
      unfold assign_device, modify, Device_connect.
      cbn [clock set_frame]. rewrite Hconn. cbn.
      rewrite dict_get_pop_same. auto.
    + unfold get_or_connect_device, call, try_except, bind, gets.
      cbn [device_cache set_frame fst snd]. rewrite Hc.
      unfold assign_device, modify, Device_connect.
      cbn [clock set_frame]. rewrite Hconn. cbn.
      rewrite dict_get_put_same. discriminate.
Qed.

(** Resolving the handle, then doing something that leaves the cache alone
    and returns a value of the expected kind. *)
Lemma resolve_then (P : PyVal -> Prop) (k : ref -> M PyVal)
    (cfg : DeviceConfig) (w : World) :
  (forall r, respects cache_kept (k r)) ->
  (forall r, returns P (k r)) ->
  post (device <- get_or_connect_device L h cfg ;;
        assign_device (Some device) ;;
        k device) w
    (fun r w1 =>
       match r with
       | Ok v => P v /\ cached w1 h
       | Raise _ => True
       end).
Proof.
  intros Hkeep Hret.
  apply post_bind. eapply post_weaken;
    [apply get_or_connect_device_caches|].
  intros [r|e] w2 Hc; [|exact I].
  unfold post, bind, assign_device, modify.
  specialize (Hkeep r (set_frame {| loc_device := Some (Some r);
                                    loc_device_config :=
                                      loc_device_config (frame w2) |} w2)).
  specialize (Hret r (set_frame {| loc_device := Some (Some r);
                                   loc_device_config :=
                                     loc_device_config (frame w2) |} w2)).
  destruct (k r _) as [[v|e] w3]; cbn [fst snd] in *; [|exact I].
  split; [exact Hret|]. unfold cached, cache_kept in *.
  rewrite Hkeep. exact Hc.
Qed.

(** The last [except] block: it returns the error value with the host
    evicted, unless the local [device] is unbound or disconnecting
    raises. *)
Lemma report_failure_outcome (e : exn) (w : World) :
  post (report_failure L h e) w
    (fun r w1 =>
       match r with
       | Ok v => failure_report v /\ ~ cached w1 h
       | Raise e' => escapes L e'
       end).
Proof.
  unfold post, report_failure, disconnect_if_device, read_device, bind.
  destruct (loc_device (frame w)) as [[r|]|]; [| |cbn; now left].
  - unfold disconnect.
    destruct (lib_disconnect L (clock w) r) as [e'|] eqn:Hd; cbn.
    + right. eauto.
    + split; [now exists e|]. unfold cached. cbn.
      rewrite dict_get_pop_same. auto.
  - cbn. split; [now exists e|]. unfold cached. cbn.
    rewrite dict_get_pop_same. auto.
Qed.

(** A request made of two attempts of the same kind. *)
Lemma two_attempts_outcome (P : PyVal -> Prop) (first retry : M PyVal)
    (w : World) :
  (forall w0, post first w0
                (fun r w1 => match r with
                             | Ok v => P v /\ cached w1 h
                             | Raise _ => True
                             end)) ->
  (forall w0, post retry w0
                (fun r w1 => match r with
                             | Ok v => P v /\ cached w1 h
                             | Raise _ => True
                             end)) ->
  post (call (try first
              except e => try retry except e => report_failure L h e)) w
    (fun r w1 =>
       match r with
       | Ok v => (P v /\ cached w1 h) \/ (failure_report v /\ ~ cached w1 h)
       | Raise e => escapes L e
       end).
Proof.
  intros Hfirst Hretry. apply post_call, post_try.
  eapply post_weaken; [apply Hfirst|].
  intros [v|e] w1 H1; [now left|].
  apply post_try. eapply post_weaken; [apply Hretry|].
  intros [v|e'] w2 H2; [now left|].
  eapply post_weaken; [apply report_failure_outcome|].
  intros [v|e''] w3 H3; [now right | exact H3].
Qed.

Lemma returns_lift {A} (P : A -> Prop) (r : result A) :
  (forall a, r = Ok a -> P a) -> returns P (lift r).
Proof. intros H w. cbn. destruct r; auto. Qed.

Lemma perform_device_action_returns (device : ref)
    (feature action : string) (value : PyVal) (child_num : option Z) :
  returns (fun v => v = success)
    (perform_device_action L device feature action value child_num).
Proof.
  unfold perform_device_action.
  repeat (apply returns_bind_any; intros ?). now apply returns_ret.
Qed.

Lemma sys_info_of_returns (device_info : PyVal) :
  returns status_report (lift (sys_info_of device_info)).
Proof.
  apply returns_lift. unfold sys_info_of. intros v.
  destruct (py_getitem _ _) as [si|e]; cbn [rbind]; [|discriminate].
  intros [= <-]. now exists si.
Qed.

Local Ltac kept :=
  repeat first [ apply respects_perform_device_action; intros
               | respects_step ];
  reflexivity.

(** X16. A control request returns [{"status": "success"}] and then leaves
    a handle cached for the host, or returns an error value and then
    leaves none.  It raises only the [UnboundLocalError] of its [except]
    blocks or what a [disconnect] raised. *)
Theorem control_device_outcome (feature action : string) (value : PyVal)
    (child_num : option Z) (w : World) :
  let run := control_device L h feature action value child_num w in
  match fst run with
  | Ok v =>
      (v = success /\ cached (snd run) h)
      \/ (failure_report v /\ ~ cached (snd run) h)
  | Raise e => escapes L e
  end.
Proof.
  cbv zeta.
  apply (two_attempts_outcome (fun v => v = success)).
  - intros w0. unfold control_first_attempt.
    apply post_bind_any; [intros c0 w1 | intros; exact I].
    apply post_bind_any; [intros cfg w2 | intros; exact I].
    apply post_bind_any; [intros _ w3 | intros; exact I].
    apply post_bind_any; [intros l w4 | intros; exact I].
    apply post_async_with.
    apply (resolve_then (fun v => v = success)
             (fun device =>
                perform_device_action L device feature action value
                  child_num)).
    + intros r. kept.
    + intros r. apply perform_device_action_returns.
  - intros w0. unfold control_retry.
    apply post_bind_any; [intros _ w1 | intros; exact I].
    apply post_bind_any; [intros _ w2 | intros; exact I].
    apply post_bind_any; [intros l w3 | intros; exact I].
    apply post_async_with.
    apply post_bind_any; [intros cfg w4 | intros; exact I].
    apply (resolve_then (fun v => v = success)
             (fun device =>
                perform_device_action L device feature action value
                  child_num)).
    + intros r. kept.
    + intros r. apply perform_device_action_returns.
Qed.

(** X17. A status request returns [{"sys_info": ...}] and then leaves a
    handle cached for the host, or returns an error value and then leaves
    none.  It raises only the [UnboundLocalError] of its [except] blocks or
    what a [disconnect] raised. *)
Theorem get_sys_info_outcome (w : World) :
  let run := get_sys_info L h w in
  match fst run with
  | Ok v =>
      (status_report v /\ cached (snd run) h)
      \/ (failure_report v /\ ~ cached (snd run) h)
  | Raise e => escapes L e
  end.
Proof.
  cbv zeta.
  apply (two_attempts_outcome status_report).
  - intros w0. unfold status_first_attempt.
    apply post_bind_any; [intros c0 w1 | intros; exact I].
    apply post_bind_any; [intros cfg w2 | intros; exact I].
    apply post_bind_any; [intros _ w3 | intros; exact I].
    apply post_bind_any; [intros l w4 | intros; exact I].
    apply post_async_with.
    apply (resolve_then status_report
             (fun device =>
                update L device ;;
                d <- deref device ;;
                device_info <- lift (custom_serializer d) ;;
                lift (sys_info_of device_info))).
    + intros r. kept.
    + intros r. repeat (apply returns_bind_any; intros ?).
      apply sys_info_of_returns.
  - intros w0. unfold status_retry.
    apply post_bind_any; [intros _ w1 | intros; exact I].
    apply post_bind_any; [intros _ w2 | intros; exact I].
    apply post_bind_any; [intros l w3 | intros; exact I].
    apply post_async_with.
    apply post_bind_any; [intros cfg w4 | intros; exact I].
    apply (resolve_then status_report
             (fun device =>
                d <- deref device ;;
                device_info <- lift (custom_serializer d) ;;
                lift (sys_info_of device_info))).
    + intros r. kept.
    + intros r. repeat (apply returns_bind_any; intros ?).
      apply sys_info_of_returns.
Qed.

(** X18. A request for a host without a stored configuration raises
    [UnboundLocalError] for the local [device]: the configuration is
    rejected before [device] is bound, and both [except] blocks read it.
    Nothing is called and nothing changes. *)
Theorem unknown_host_raises (feature action : string) (value : PyVal)
    (child_num : option Z) (w : World) :
  dict_get (device_config_cache w) h = None ->
  control_device L h feature action value child_num w =
  (Raise (UnboundLocalError "device"), w)
  /\ get_sys_info L h w = (Raise (UnboundLocalError "device"), w).
Proof.
  intros Hnone. split.
  - unfold control_device, call, try_except, control_first_attempt,
      control_retry, report_failure, disconnect_if_device, read_device.
    rewrite bind_gets. cbn [device_config_cache set_frame]. rewrite Hnone.
    cbn. now destruct w.
  - unfold get_sys_info, call, try_except, status_first_attempt,
      status_retry, report_failure, disconnect_if_device, read_device.
    rewrite bind_gets. cbn [device_config_cache set_frame]. rewrite Hnone.
    cbn. now destruct w.
Qed.
End Outcomes.

(** ** A request on a cached handle *)

Lemma nth_list_set {A} (l : list A) (i : nat) (a dflt : A) :
  i < length l -> nth i (list_set l i a) dflt = a.
Proof.
  revert i. induction l as [|x l IH]; intros [|i] Hi; cbn in *;
    try lia; auto. apply IH. lia.
Qed.

Lemma async_with_run {A} (l : lock) (body : M A) (w w1 : World)
    (r : result A) :
  body (note (EAcquire l) w) = (r, w1) ->
  async_with l body w = (r, note (ERelease l) w1).
Proof. intros H. unfold async_with. now rewrite H. Qed.

Section CachedHandle.
Variable L : Library.
Variable h : string.

Lemma lock_lookup_is_lock_for (w : World) :
  device_lock_cache_get h w =
  (Ok (lock_for w h), set_next_lock (S (next_lock w)) w).
Proof.
  unfold device_lock_cache_get, lock_for, bind, asyncio_Lock, gets, ret.
  cbn. now destruct (dict_get (device_lock_cache w) h).
Qed.

Lemma status_body_run (c : DeviceConfig) (r : ref) (d' : Device)
    (out : PyVal) (w : World) :
  dict_get (device_cache w) h = Some r ->
  r < length (heap w) ->
  lib_update L (clock w) r (nth r (heap w) no_device) = inr d' ->
  custom_serializer d' = Ok out ->
  (device <- get_or_connect_device L h c ;;
   assign_device (Some device) ;;
   update L device ;;
   d <- deref device ;;
   device_info <- lift (custom_serializer d) ;;
   lift (sys_info_of device_info)) w =
  (sys_info_of out,
   set_heap (list_set (heap w) r d')
     (log (EUpdate r)
        (set_frame {| loc_device := Some (Some r);
                      loc_device_config := loc_device_config (frame w) |}
           w))).
Proof.
  intros Hhit Hr Hup Hser.
  unfold bind at 1. rewrite (get_or_connect_device_hit L h c w r Hhit).
  unfold bind at 1. unfold assign_device, modify.
  unfold bind at 1. unfold update. cbn [clock heap set_frame]. rewrite Hup.
  unfold deref. rewrite bind_gets. cbn [heap set_heap].
  rewrite (nth_list_set _ _ _ _ Hr), Hser, bind_lift_ok.
  reflexivity.
Qed.

(** X19. A status request for a known host with a cached handle, when the
    probe answers and the refreshed device serializes: it takes the host's
    lock (the registered one, or a new one when none is registered), calls
    [update] on the cached handle and nothing else, and returns the status
    part of the snapshot of the refreshed device.  The cache is as it
    was. *)
Theorem get_sys_info_on_cached_handle (c : DeviceConfig) (r : ref)
    (d' : Device) (out : PyVal) (w : World) :
  dict_get (device_config_cache w) h = Some c ->
  dict_get (device_cache w) h = Some r ->
  r < length (heap w) ->
  lib_update L (clock w) r (nth r (heap w) no_device) = inr d' ->
  custom_serializer d' = Ok out ->
  let run := get_sys_info L h w in
  fst run = sys_info_of out
  /\ trace (snd run) =
     trace w ++ [EAcquire (lock_for w h); EUpdate r; ERelease (lock_for w h)]
  /\ heap (snd run) = list_set (heap w) r d'
  /\ device_cache (snd run) = device_cache w.
Proof.
  intros Hcfg Hhit Hr Hup Hser run.
  destruct (custom_serializer_form d' out Hser) as (si & fi & Hout).
  assert (Hsi : sys_info_of out = Ok (VDict [("sys_info", VDict si)]))
    by (now subst out).
  subst run.
  set (l := lock_for w h).
  set (w0 := set_frame empty_frame w).
  set (w1 := set_next_lock (S (next_lock w))
               (set_frame {| loc_device := None;
                             loc_device_config := Some c |} w0)).
  assert (Hbody :
            (device <- get_or_connect_device L h c ;;
             assign_device (Some device) ;;
             update L device ;;
             d <- deref device ;;
             device_info <- lift (custom_serializer d) ;;
             lift (sys_info_of device_info)) (note (EAcquire l) w1) =
            (sys_info_of out,
             set_heap (list_set (heap w) r d')
               (log (EUpdate r)
                  (set_frame {| loc_device := Some (Some r);
                                loc_device_config := Some c |}
                     (note (EAcquire l) w1))))).
  { exact (status_body_run c r d' out (note (EAcquire l) w1)
             Hhit Hr Hup Hser). }
  assert (Hfirst :
            status_first_attempt L h w0 =
            (sys_info_of out,
             note (ERelease l)
               (set_heap (list_set (heap w) r d')
                  (log (EUpdate r)
                     (set_frame {| loc_device := Some (Some r);
                                   loc_device_config := Some c |}
                        (note (EAcquire l) w1)))))).
  { unfold status_first_attempt. rewrite bind_gets.
    cbn [device_config_cache set_frame w0]. rewrite Hcfg.
    cbn [DeviceConfig_from_dict]. rewrite bind_lift_ok.
    unfold bind at 1. unfold assign_device_config at 1, modify at 1.
    unfold bind at 1. rewrite lock_lookup_is_lock_for.
    apply async_with_run. exact Hbody. }
  unfold get_sys_info, call, try_except. fold w0. rewrite Hfirst, Hsi.
  cbn. rewrite <- !app_assoc. cbn. auto.
Qed.
End CachedHandle.

(** ** A request whose first connect attempt fails *)

Lemma dict_pop_absent {V} (d : dict V) (k : string) :
  dict_get d k = None -> dict_pop d k = d.
Proof.
  induction d as [|[k' v] d IH]; cbn; [reflexivity|].
  destruct (String.eqb k k'); [discriminate|].
  intros H. now rewrite IH.
Qed.

Lemma call_run {A} (body : M A) (w w1 : World) (r : result A) :
  body (set_frame empty_frame w) = (r, w1) ->
  call body w = (r, set_frame (frame w) w1).
Proof. intros H. unfold call. now rewrite H. Qed.

Lemma try_raise_run {A} (m : M A) (h : exn -> M A) (w w1 : World)
    (e : exn) (out : result A * World) :
  m w = (Raise e, w1) -> h e w1 = out -> try_except m h w = out.
Proof. intros Hm Hh. unfold try_except. now rewrite Hm. Qed.

Section ConnectFails.
Variable L : Library.
Variable h : string.

Lemma get_or_connect_device_refused (cfg : DeviceConfig) (w : World)
    (e : exn) :
  dict_get (device_cache w) h = None ->
  lib_connect L (clock w) cfg = inl e ->
  get_or_connect_device L h cfg w = (Raise e, log (EConnect cfg) w).
Proof.
  intros Hmiss Hconn.
  unfold get_or_connect_device, call, try_except, bind, gets.
  cbn [device_cache set_frame fst snd]. rewrite Hmiss.
  unfold assign_device, modify, Device_connect.
  cbn [clock set_frame]. rewrite Hconn.
  cbn. rewrite (dict_pop_absent _ _ Hmiss). now destruct w.
Qed.

(** What is left of a request once its first attempt has raised with the
    local [device] unbound. *)
Lemma unbound_device_escapes (retry : M PyVal) (w : World) :
  loc_device (frame w) = None ->
  (try (disconnect_if_device L ;; retry)
   except e => report_failure L h e) w =
  (Raise (UnboundLocalError "device"), w).
Proof.
  intros Hunbound.
  unfold try_except, report_failure, disconnect_if_device, read_device, bind.
  rewrite Hunbound. cbn. now rewrite Hunbound.
Qed.

(** The first attempt up to the point where the resolver is refused. *)
Lemma refused_attempt {A} (k : ref -> M A) (c : DeviceConfig) (e : exn)
    (w : World) :
  dict_get (device_config_cache w) h = Some c ->
  dict_get (device_cache w) h = None ->
  lib_connect L (clock w) c = inl e ->
  (device_config_dict <- gets (fun w => dict_get (device_config_cache w) h) ;;
   device_config <- lift (DeviceConfig_from_dict device_config_dict) ;;
   assign_device_config device_config ;;
   device_lock <- device_lock_cache_get h ;;
   async_with device_lock (
     device <- get_or_connect_device L h device_config ;;
     assign_device (Some device) ;;
     k device)) w =
  (Raise e,
   note (ERelease (lock_for w h))
     (log (EConnect c)
        (note (EAcquire (lock_for w h))
           (set_next_lock (S (next_lock w))
              (set_frame {| loc_device := loc_device (frame w);
                            loc_device_config := Some c |} w))))).
Proof.
  intros Hcfg Hmiss Hconn.
  rewrite bind_gets, Hcfg. cbn [DeviceConfig_from_dict].
  rewrite bind_lift_ok.
  unfold bind at 1. unfold assign_device_config at 1, modify at 1.
  unfold bind at 1. rewrite lock_lookup_is_lock_for.
  apply async_with_run. unfold bind at 1.
  rewrite (get_or_connect_device_refused c _ e); [reflexivity | exact Hmiss |
    exact Hconn].
Qed.

(** X20. A request for a known host with no cached handle, when the connect
    attempt fails: there is no retry and no error value.  The failure
    leaves the local [device] unbound, both [except] blocks read it, and
    the request raises [UnboundLocalError]; the connect attempt, made under
    the host's lock, is all it did, and the cache is as it was. *)
Theorem connect_failure_raises (feature action : string) (value : PyVal)
    (child_num : option Z) (c : DeviceConfig) (e : exn) (w : World) :
  dict_get (device_config_cache w) h = Some c ->
  dict_get (device_cache w) h = None ->
  lib_connect L (clock w) c = inl e ->
  let l := lock_for w h in
  let control := control_device L h feature action value child_num w in
  let status := get_sys_info L h w in
  (fst control = Raise (UnboundLocalError "device")
   /\ trace (snd control) = trace w ++ [EAcquire l; EConnect c; ERelease l]
   /\ device_cache (snd control) = device_cache w)
  /\ (fst status = Raise (UnboundLocalError "device")
      /\ trace (snd status) = trace w ++ [EAcquire l; EConnect c; ERelease l]
      /\ device_cache (snd status) = device_cache w).
Proof.
  intros Hcfg Hmiss Hconn. cbv zeta.
  set (w0 := set_frame empty_frame w).
  set (w1 := note (ERelease (lock_for w h))
               (log (EConnect c)
                  (note (EAcquire (lock_for w h))
                     (set_next_lock (S (next_lock w))
                        (set_frame {| loc_device := None;
                                      loc_device_config := Some c |}
                           w0))))).
  assert (Hcontrol :
            control_device L h feature action value child_num w =
            (Raise (UnboundLocalError "device"), set_frame (frame w) w1)).
  { apply call_run. apply try_raise_run with (e := e) (w1 := w1).
    - unfold control_first_attempt.
      exact (refused_attempt _ c e w0 Hcfg Hmiss Hconn).
    - unfold control_retry. now apply unbound_device_escapes. }
  assert (Hstatus :
            get_sys_info L h w =
            (Raise (UnboundLocalError "device"), set_frame (frame w) w1)).
  { apply call_run. apply try_raise_run with (e := e) (w1 := w1).
    - unfold status_first_attempt.
      exact (refused_attempt _ c e w0 Hcfg Hmiss Hconn).
    - unfold status_retry. now apply unbound_device_escapes. }
  rewrite Hcontrol, Hstatus. cbn. rewrite <- !app_assoc. cbn. auto.
Qed.
End ConnectFails.

(** ** More on the serializer *)

Lemma serialize_child_cases (c : Device) :
  match serialize_child c with
  | Ok _ => state c <> None
  | Raise e => e = KeyError "state" /\ state c = None
  end.
Proof.
  destruct (state c) as [st|] eqn:Hst.
  - assert (Hs : state c <> None) by congruence.
    destruct (serialize_child_total c Hs) as [out ->]. discriminate.
  - unfold serialize_child, state_value. rewrite Hst. cbn. auto.
Qed.

Lemma serialize_children_cases (cs : list Device) :
  match map_result serialize_child cs with
  | Ok out =>
      Forall (fun c => state c <> None) cs /\ length out = length cs
  | Raise e => e = KeyError "state" /\ Exists (fun c => state c = None) cs
  end.
Proof.
  induction cs as [|c cs IH]; cbn [map_result].
  - split; constructor.
  - pose proof (serialize_child_cases c) as Hc.
    destruct (serialize_child c) as [o|e]; cbn [rbind].
    + destruct (map_result serialize_child cs) as [out|e]; cbn [rbind].
      * destruct IH as [IH1 IH2]. split; [now constructor|].
        cbn. now rewrite IH2.
      * destruct IH as [-> IH]. split; [reflexivity|]. now apply Exists_cons_tl.
    + destruct Hc as [-> Hc]. split; [reflexivity|]. now apply Exists_cons_hd.
Qed.

(** X21. The serializer fails in one way only: with [KeyError] for
    ["state"], and exactly when a state is missing, that of the device
    itself when it has no children, that of one of its children
    otherwise.  In particular the state of a device with children is never
    read. *)
Theorem custom_serializer_failure (d : Device) :
  match custom_serializer d with
  | Ok _ => ~ state_missing d
  | Raise e => e = KeyError "state" /\ state_missing d
  end.
Proof.
  unfold custom_serializer, state_missing.
  destruct (children d) as [|c cs] eqn:Hcs.
  - cbn [length Nat.ltb Nat.leb]. unfold state_value.
    destruct (state d) as [st|]; cbn [rbind]; [|auto].
    destruct (light d) as [lm|] eqn:Hl; cbn [is_some].
    + destruct (get_light_info_total d lm Hl) as [li ->]. cbn [rbind].
      discriminate.
    + cbn [rbind]. discriminate.
  - cbn [length Nat.ltb Nat.leb].
    pose proof (serialize_children_cases (c :: cs)) as Hch.
    destruct (map_result serialize_child (c :: cs)) as [out|e];
      cbn [rbind].
    + destruct Hch as [Hall _].
      assert (Hno : ~ Exists (fun c0 => state c0 = None) (c :: cs)).
      { intros Hex. apply Exists_exists in Hex as (x & Hin & Hx).
        rewrite Forall_forall in Hall. now apply (Hall x Hin). }
      destruct (light d); cbn [rbind]; exact Hno.
    + exact Hch.
Qed.

(** X22. The capability part of a snapshot says, for each of brightness,
    color temperature and hue/saturation, whether the device has a light
    module that supports it, and whether the device has a fan module; the
    four flags come in that order and are there for every device. *)
Theorem custom_serializer_feature_info (d : Device) (out : PyVal) :
  custom_serializer d = Ok out ->
  py_getitem out "feature_info" = Ok (VDict (feature_flags d)).
Proof.
  unfold custom_serializer. cbv zeta.
  match goal with
  | |- rbind ?m _ = _ -> _ => destruct m as [si|e]
  end; cbn [rbind]; [|discriminate].
  unfold feature_flags, capable.
  destruct (light d) as [lm|], (fan d) as [fm|]; cbn; intros [= <-];
    reflexivity.
Qed.

Lemma after_underscore_append (pre suf : string) :
  no_underscore pre = true ->
  after_underscore (String.append pre (String "_"%char suf)) = Some suf.
Proof.
  induction pre as [|a pre IH]; cbn; [reflexivity|].
  destruct (Ascii.eqb a "_"); cbn; [discriminate | exact IH].
Qed.

Lemma after_underscore_none (s : string) :
  no_underscore s = true -> after_underscore s = None.
Proof.
  induction s as [|a s IH]; cbn; [reflexivity|].
  destruct (Ascii.eqb a "_"); cbn; [discriminate | exact IH].
Qed.

Lemma serialize_child_id (c : Device) (out : PyVal) :
  serialize_child c = Ok out ->
  py_getitem out "id" =
  Ok (VStr match after_underscore (device_id c) with
           | Some rest => rest
           | None => device_id c
           end).
Proof.
  unfold serialize_child, state_value.
  destruct (state c) as [st|]; cbn [rbind]; [|discriminate].
  destruct (light c) as [lm|] eqn:Hl; cbn [is_some].
  - unfold get_light_info. rewrite Hl. cbn [has_feature String.eqb].
    destruct (hsv lm) as [[hh ss] vv].
    destruct (has_brightness lm), (has_color_temp lm), (has_hsv lm),
      (fan c), (after_underscore (device_id c));
      cbn; intros [= <-]; reflexivity.
  - destruct (fan c), (after_underscore (device_id c));
      cbn; intros [= <-]; reflexivity.
Qed.

(** X23. The id reported for a child is what follows the first underscore
    of its device id, and the whole device id when it holds no
    underscore. *)
Theorem serialize_child_id_suffix (c : Device) (out : PyVal) :
  serialize_child c = Ok out ->
  (forall pre suf,
     device_id c = String.append pre (String "_"%char suf) ->
     no_underscore pre = true ->
     py_getitem out "id" = Ok (VStr suf))
  /\ (no_underscore (device_id c) = true ->
      py_getitem out "id" = Ok (VStr (device_id c))).
Proof.
  intros Hser. pose proof (serialize_child_id c out Hser) as Hid. split.
  - intros pre suf Hdev Hpre.
    now rewrite Hid, Hdev, after_underscore_append.
  - intros Hno. now rewrite Hid, after_underscore_none.
Qed.

(** X24. The [child_num] of a snapshot is the number of children of the
    device, and when there are any, the snapshot lists one serialized child
    for each, under [children]. *)
Theorem custom_serializer_child_num (d : Device) (out : PyVal) :
  custom_serializer d = Ok out ->
  exists sys_info,
    py_getitem out "sys_info" = Ok (VDict sys_info)
    /\ dict_get sys_info "child_num" =
       Some (VInt (Z.of_nat (length (children d))))
    /\ match children d with
       | [] => dict_get sys_info "children" = None
       | _ :: _ =>
           exists cs, dict_get sys_info "children" = Some (VList cs)
                      /\ length cs = length (children d)
       end.
Proof.
  unfold custom_serializer.
  destruct (children d) as [|c cs] eqn:Hcs.
  - cbn [length Nat.ltb Nat.leb]. unfold state_value.
    destruct (state d) as [st|]; cbn [rbind]; [|discriminate].
    destruct (light d) as [lm|] eqn:Hl; cbn [is_some].
    + unfold get_light_info. rewrite Hl. cbn [has_feature String.eqb].
      destruct (hsv lm) as [[hh ss] vv].
      destruct (has_brightness lm), (has_color_temp lm), (has_hsv lm),
        (fan d); cbn; intros [= <-]; eexists; repeat split.
    + destruct (fan d); cbn; intros [= <-]; eexists; repeat split.
  - cbn [length Nat.ltb Nat.leb].
    pose proof (serialize_children_cases (c :: cs)) as Hch.
    destruct (map_result serialize_child (c :: cs)) as [ser|e];
      cbn [rbind]; [|discriminate].
    destruct Hch as [_ Hlen].
    destruct (light d); cbn [rbind]; intros [= <-]; eexists;
      (split; [reflexivity|]); (split; [reflexivity|]);
      exists ser; split; [reflexivity | exact Hlen | reflexivity | exact Hlen].
Qed.




(** ** The retry of a request, step by step *)

#[export] Instance frame_kept_stable : Stable frame_kept (fun _ => true).
Proof.
  unfold frame_kept. split; auto. intros a b c H1 H2. congruence.
Qed.

#[export] Instance frame_kept_cache_blind : CacheBlind frame_kept.
Proof. intros w c. reflexivity. Qed.

Section RetrySteps.
Variable L : Library.
Variable h : string.

Lemma control_first_attempt_of (feature action : string) (value : PyVal)
    (child_num : option Z) :
  control_first_attempt L h feature action value child_num =
  first_attempt_of L h
    (fun device =>
       perform_device_action L device feature action value child_num).
Proof. reflexivity. Qed.

Lemma control_retry_of (feature action : string) (value : PyVal)
    (child_num : option Z) :
  control_retry L h feature action value child_num =
  retry_of L h
    (fun device =>
       perform_device_action L device feature action value child_num).
Proof. reflexivity. Qed.

Lemma status_first_attempt_of :
  status_first_attempt L h = first_attempt_of L h (read_status L true).
Proof. reflexivity. Qed.

Lemma read_status_dry (device : ref) :
  read_status L false device =
  (d <- deref device ;;
   device_info <- lift (custom_serializer d) ;;
   lift (sys_info_of device_info)).
Proof. reflexivity. Qed.

Lemma status_retry_of :
  status_retry L h = retry_of L h (read_status L false).
Proof. reflexivity. Qed.

Lemma perform_device_action_frame (device : ref) (feature action : string)
    (value : PyVal) (child_num : option Z) :
  respects frame_kept
    (perform_device_action L device feature action value child_num).
Proof. now apply respects_perform_device_action. Qed.

Lemma read_status_frame (probe : bool) (device : ref) :
  respects frame_kept (read_status L probe device).
Proof.
  unfold read_status. destruct probe; repeat respects_step; reflexivity.
Qed.

Lemma disconnect_if_device_run (w : World) (r : ref) :
  loc_device (frame w) = Some (Some r) ->
  lib_disconnect L (clock w) r = None ->
  disconnect_if_device L w = (Ok tt, log (EDisconnect r) w).
Proof.
  intros Hb Hd. unfold disconnect_if_device, read_device, bind.
  rewrite Hb. unfold disconnect. now rewrite Hd.
Qed.

Lemma report_failure_run (e : exn) (w : World) (r : ref) :
  loc_device (frame w) = Some (Some r) ->
  lib_disconnect L (clock w) r = None ->
  report_failure L h e w = (Ok (error_payload e), given_up h r w).
Proof.
  intros Hb Hd. unfold report_failure. unfold bind at 1.
  now rewrite (disconnect_if_device_run w r Hb Hd).
Qed.

(** Resolving when the cache holds no handle for the host: a connect
    attempt from the configuration in the local [device_config]. *)
Lemma resolve_afresh (k : ref -> M PyVal) (w : World) (c : DeviceConfig) :
  loc_device_config (frame w) = Some c ->
  dict_get (device_cache w) h = None ->
  (device_config <- read_device_config ;;
   device <- get_or_connect_device L h device_config ;;
   assign_device (Some device) ;;
   k device) w =
  match lib_connect L (clock w) c with
  | inl e => (Raise e, log (EConnect c) w)
  | inr d => k (length (heap w)) (reconnected h c d w)
  end.
Proof.
  intros Hc Hmiss. unfold bind at 1. unfold read_device_config.
  rewrite Hc. unfold bind at 1.
  destruct (lib_connect L (clock w) c) as [e|d] eqn:Hconn.
  - now rewrite (get_or_connect_device_refused L h c w e Hmiss Hconn).
  - now rewrite (get_or_connect_device_new L h c w d Hmiss Hconn).
Qed.

(** The retry block: invalidate, look the lock up again, and resolve under
    it; the cache holds no handle for the host by then, so the resolve is a
    connect attempt from the configuration the first attempt read. *)
Lemma retry_of_run (k : ref -> M PyVal) (w : World) (r : ref)
    (c : DeviceConfig) :
  loc_device (frame w) = Some (Some r) ->
  loc_device_config (frame w) = Some c ->
  lib_disconnect L (clock w) r = None ->
  retry_of L h k w =
  match lib_connect L (S (clock w)) c with
  | inl e =>
      (Raise e,
       note (ERelease (lock_for w h)) (log (EConnect c) (invalidated h r w)))
  | inr d =>
      (fst (k (length (heap w)) (reconnected h c d (invalidated h r w))),
       note (ERelease (lock_for w h))
         (snd (k (length (heap w)) (reconnected h c d (invalidated h r w)))))
  end.
Proof.
  intros Hb Hc Hd. unfold retry_of. unfold bind at 1.
  rewrite (disconnect_if_device_run w r Hb Hd).
  unfold bind at 1. unfold device_cache_pop at 1, modify at 1.
  unfold bind at 1. rewrite lock_lookup_is_lock_for.
  assert (Hmiss : dict_get (device_cache (invalidated h r w)) h = None)
    by apply dict_get_pop_same.
  pose proof (resolve_afresh k (invalidated h r w) c Hc Hmiss) as Hbody.
  change (clock (invalidated h r w)) with (S (clock w)) in Hbody.
  change (length (heap (invalidated h r w))) with (length (heap w)) in Hbody.
  destruct (lib_connect L (S (clock w)) c) as [e|d].
  - exact (async_with_run _ _ _ _ _ Hbody).
  - apply async_with_run.
    etransitivity; [exact Hbody|]. now destruct (k _ _).
Qed.

Lemma frame_kept_run (k : M PyVal) (w : World) :
  respects frame_kept k -> frame (snd (k w)) = frame w.
Proof. intros H. apply H. Qed.

(** A first attempt that raises with the local [device] bound has read the
    stored configuration into the local [device_config]. *)
Lemma first_attempt_locals (k : ref -> M PyVal) (w w1 : World) (e : exn)
    (r : ref) :
  (forall r, respects frame_kept (k r)) ->
  first_attempt_of L h k (set_frame empty_frame w) = (Raise e, w1) ->
  loc_device (frame w1) = Some (Some r) ->
  exists c, dict_get (device_config_cache w) h = Some c
            /\ loc_device_config (frame w1) = Some c.
Proof.
  intros Hk Hfirst Hb. unfold first_attempt_of in Hfirst.
  rewrite bind_gets in Hfirst. cbn [device_config_cache set_frame] in Hfirst.
  destruct (dict_get (device_config_cache w) h) as [c|];
    [|cbn in Hfirst; injection Hfirst as _ <-; discriminate].
  exists c. split; [reflexivity|].
  cbn [DeviceConfig_from_dict] in Hfirst. rewrite bind_lift_ok in Hfirst.
  unfold bind at 1 in Hfirst.
  unfold assign_device_config at 1, modify at 1 in Hfirst.
  unfold bind at 1 in Hfirst. rewrite lock_lookup_is_lock_for in Hfirst.
  unfold async_with in Hfirst.
  match type of Hfirst with
  | (fst (?body ?w0), _) = _ => set (w2 := w0) in *; set (B := body w2) in *
  end.
  injection Hfirst as _ <-. cbn [frame note] in Hb |- *.
  assert (HB : B = (device <- get_or_connect_device L h c ;;
                    assign_device (Some device) ;; k device) w2)
    by reflexivity.
  clearbody B. subst B. revert Hb. unfold bind at 1 3.
  destruct (dict_get (device_cache w2) h) as [r0|] eqn:Hc.
  - rewrite (get_or_connect_device_hit L h c w2 r0 Hc).
    unfold bind at 1 2. unfold assign_device at 1 2, modify at 1 2.
    rewrite !(frame_kept_run _ _ (Hk r0)). reflexivity.
  - destruct (lib_connect L (clock w2) c) as [e0|d] eqn:Hconn.
    + rewrite (get_or_connect_device_refused L h c w2 e0 Hc Hconn).
      discriminate.
    + rewrite (get_or_connect_device_new L h c w2 d Hc Hconn).
      unfold bind at 1 2. unfold assign_device at 1 2, modify at 1 2.
      rewrite !(frame_kept_run _ _ (Hk _)). reflexivity.
Qed.

(** A request whose first attempt raised with the local [device] bound and
    whose disconnects do not raise, from the invalidation to the end. *)
Lemma request_run_after_failure (k1 k2 : ref -> M PyVal) (w w1 : World)
    (e : exn) (r : ref) (c : DeviceConfig) :
  (forall r, respects frame_kept (k2 r)) ->
  (forall n r, lib_disconnect L n r = None) ->
  first_attempt_of L h k1 (set_frame empty_frame w) = (Raise e, w1) ->
  loc_device (frame w1) = Some (Some r) ->
  loc_device_config (frame w1) = Some c ->
  call (try first_attempt_of L h k1
        except e0 => try retry_of L h k2 except e1 => report_failure L h e1)
    w =
  match lib_connect L (S (clock w1)) c with
  | inl e' =>
      (Ok (error_payload e'),
       set_frame (frame w)
         (given_up h r
            (note (ERelease (lock_for w1 h))
               (log (EConnect c) (invalidated h r w1)))))
  | inr d =>
      let second := k2 (length (heap w1))
                      (reconnected h c d (invalidated h r w1)) in
      match fst second with
       | Ok v =>
           (Ok v,
            set_frame (frame w)
              (note (ERelease (lock_for w1 h)) (snd second)))
       | Raise e' =>
           (Ok (error_payload e'),
            set_frame (frame w)
              (given_up h (length (heap w1))
                 (note (ERelease (lock_for w1 h)) (snd second))))
       end
  end.
Proof.
  intros Hk Hd Hfirst Hb Hc.
  assert (Hretry := retry_of_run k2 w1 r c Hb Hc (Hd _ _)).
  destruct (lib_connect L (S (clock w1)) c) as [e'|d].
  - apply call_run. apply try_raise_run with (e := e) (w1 := w1);
      [exact Hfirst|].
    apply try_raise_run with (e := e')
      (w1 := note (ERelease (lock_for w1 h))
               (log (EConnect c) (invalidated h r w1)));
      [exact Hretry|].
    apply report_failure_run; [exact Hb | apply Hd].
  - cbv zeta.
    pose proof (frame_kept_run _ (reconnected h c d (invalidated h r w1))
                  (Hk (length (heap w1)))) as Hframe.
    destruct (k2 (length (heap w1)) (reconnected h c d (invalidated h r w1)))
      as [[v|e'] w3]; cbn [fst snd] in *.
    + apply call_run. apply try_raise_run with (e := e) (w1 := w1);
        [exact Hfirst|].
      unfold try_except. now rewrite Hretry.
    + apply call_run. apply try_raise_run with (e := e) (w1 := w1);
        [exact Hfirst|].
      apply try_raise_run with (e := e')
        (w1 := note (ERelease (lock_for w1 h)) w3); [exact Hretry|].
      apply report_failure_run; [|apply Hd].
      cbn [frame note]. now rewrite Hframe.
Qed.

Lemma read_status_dry_run (device : ref) (w : World) :
  read_status L false device w =
  (rbind (custom_serializer (nth device (heap w) no_device)) sys_info_of, w).
Proof.
  rewrite read_status_dry. unfold deref. rewrite bind_gets.
  destruct (custom_serializer _) as [out|e]; [|reflexivity].
  now rewrite bind_lift_ok.
Qed.

Lemma perform_device_action_cache (device : ref) (feature action : string)
    (value : PyVal) (child_num : option Z) (w : World) :
  device_cache
    (snd (perform_device_action L device feature action value child_num w))
  = device_cache w.
Proof.
  revert w.
  change (respects cache_kept
            (perform_device_action L device feature action value child_num)).
  now apply respects_perform_device_action.
Qed.
End RetrySteps.

(** C8, as amended.  When the first attempt of a request raises with a
    handle bound to the local [device], and disconnecting does not raise,
    the retry is a fresh resolve followed by the operation on the new
    handle.  The failed handle is disconnected and evicted, so the resolve
    under the lock is a connect attempt from the stored configuration.
    When it fails, the old handle is disconnected again and the error
    value returned.  When it answers, the new handle is cached; a control
    request makes the same dispatch on it; a status request serializes the
    state the connect has just read, without another [update].  If that
    operation raises, the new handle is disconnected and evicted and the
    error value returned. *)
Theorem retry_resolves_afresh (L : Library) (h : string) (w w1 : World)
    (e : exn) (r : ref) :
  (forall n r, lib_disconnect L n r = None) ->
  loc_device (frame w1) = Some (Some r) ->
  let l := lock_for w1 h in
  let r' := length (heap w1) in
  (status_first_attempt L h (set_frame empty_frame w) = (Raise e, w1) ->
   let run := get_sys_info L h w in
   exists c,
     dict_get (device_config_cache w) h = Some c
     /\ match lib_connect L (S (clock w1)) c with
        | inl e' =>
            fst run = Ok (error_payload e')
            /\ trace (snd run) =
               trace w1 ++ [EDisconnect r; EAcquire l; EConnect c;
                            ERelease l; EDisconnect r]
            /\ dict_get (device_cache (snd run)) h = None
        | inr d =>
            heap (snd run) = heap w1 ++ [d]
            /\ match custom_serializer d with
               | Ok out =>
                   fst run = sys_info_of out
                   /\ trace (snd run) =
                      trace w1 ++ [EDisconnect r; EAcquire l; EConnect c;
                                   ERelease l]
                   /\ dict_get (device_cache (snd run)) h = Some r'
               | Raise e' =>
                   fst run = Ok (error_payload e')
                   /\ trace (snd run) =
                      trace w1 ++ [EDisconnect r; EAcquire l; EConnect c;
                                   ERelease l; EDisconnect r']
                   /\ dict_get (device_cache (snd run)) h = None
               end
        end)
  /\ (forall feature action value child_num,
        control_first_attempt L h feature action value child_num
          (set_frame empty_frame w) = (Raise e, w1) ->
        let run := control_device L h feature action value child_num w in
        exists c,
          dict_get (device_config_cache w) h = Some c
          /\ match lib_connect L (S (clock w1)) c with
             | inl e' =>
                 fst run = Ok (error_payload e')
                 /\ trace (snd run) =
                    trace w1 ++ [EDisconnect r; EAcquire l; EConnect c;
                                 ERelease l; EDisconnect r]
                 /\ dict_get (device_cache (snd run)) h = None
             | inr d =>
                 exists w2,
                   heap w2 = heap w1 ++ [d]
                   /\ clock w2 = S (S (clock w1))
                   /\ trace w2 =
                      trace w1 ++ [EDisconnect r; EAcquire l; EConnect c]
                   /\ dict_get (device_cache w2) h = Some r'
                   /\ let second :=
                        perform_device_action L r' feature action value
                          child_num w2 in
                      match fst second with
                      | Ok v =>
                          fst run = Ok v
                          /\ trace (snd run) =
                             trace (snd second) ++ [ERelease l]
                          /\ dict_get (device_cache (snd run)) h = Some r'
                      | Raise e' =>
                          fst run = Ok (error_payload e')
                          /\ trace (snd run) =
                             trace (snd second)
                             ++ [ERelease l; EDisconnect r']
                          /\ dict_get (device_cache (snd run)) h = None
                      end
             end).
Proof.
  intros Hd Hb l r'. split.
  - intros Hfirst run. rewrite status_first_attempt_of in Hfirst.
    destruct (first_attempt_locals L h _ w w1 e r
                (read_status_frame L true) Hfirst Hb) as (c & Hstored & Hc).
    exists c. split; [exact Hstored|].
    pose proof (request_run_after_failure L h (read_status L true)
                  (read_status L false) w w1 e r c
                  (read_status_frame L false) Hd Hfirst Hb Hc) as Hrun.
    match type of Hrun with
    | _ = ?rhs => change (get_sys_info L h w = rhs) in Hrun
    end.
    subst run.
    destruct (lib_connect L (S (clock w1)) c) as [e'|d].
    + rewrite Hrun. cbn. rewrite <- !app_assoc, dict_get_pop_same. auto.
    + cbv zeta in Hrun. rewrite read_status_dry_run in Hrun.
      cbn [fst snd] in Hrun.
      replace (nth (length (heap w1))
                 (heap (reconnected h c d (invalidated h r w1))) no_device)
        with d in Hrun by (cbn; now rewrite nth_middle).
      destruct (custom_serializer d) as [out|e'] eqn:Hser.
      * destruct (custom_serializer_form d out Hser) as (si & fi & ->).
        cbn [rbind sys_info_of py_getitem dict_get String.eqb Ascii.eqb
               Bool.eqb] in Hrun |- *.
        rewrite Hrun. cbn. rewrite <- !app_assoc, dict_get_put_same. auto.
      * cbn [rbind] in Hrun. rewrite Hrun. cbn.
        rewrite <- !app_assoc, dict_get_pop_same. auto.
  - intros feature action value child_num Hfirst run.
    rewrite control_first_attempt_of in Hfirst.
    destruct (first_attempt_locals L h _ w w1 e r
                (fun r0 => perform_device_action_frame L r0 feature action
                             value child_num) Hfirst Hb)
      as (c & Hstored & Hc).
    exists c. split; [exact Hstored|].
    pose proof (request_run_after_failure L h _ _ w w1 e r c
                  (fun r0 => perform_device_action_frame L r0 feature action
                               value child_num) Hd Hfirst Hb Hc) as Hrun.
    match type of Hrun with
    | _ = ?rhs =>
        change (control_device L h feature action value child_num w = rhs)
          in Hrun
    end.
    subst run.
    destruct (lib_connect L (S (clock w1)) c) as [e'|d].
    + rewrite Hrun. cbn. rewrite <- !app_assoc, dict_get_pop_same. auto.
    + exists (reconnected h c d (invalidated h r w1)).
      split; [reflexivity|]. split; [reflexivity|].
      split; [cbn; now rewrite <- !app_assoc|].
      split; [cbn; apply dict_get_put_same|].
      cbv zeta in Hrun |- *.
      pose proof (perform_device_action_cache L r' feature action value
                    child_num (reconnected h c d (invalidated h r w1)))
        as Hcache.
      fold r' in Hrun.
      destruct (perform_device_action L r' feature action value child_num
                  (reconnected h c d (invalidated h r w1)))
        as [[v|e'] w3]; cbn [fst snd] in *; rewrite Hrun; cbn.
      * rewrite Hcache. cbn. rewrite dict_get_put_same. auto.
      * rewrite <- !app_assoc, dict_get_pop_same. auto.
Qed.

Section FirstAttempt.
Variable L : Library.
Variable h : string.

(** The first attempt of a request for a known host with a cached handle:
    the operation runs on that handle, under the lock, and nothing is
    called before it. *)
Lemma first_attempt_of_cached (k : ref -> M PyVal) (w : World)
    (c : DeviceConfig) (r : ref) :
  dict_get (device_config_cache w) h = Some c ->
  dict_get (device_cache w) h = Some r ->
  first_attempt_of L h k w =
  (fst (k r (resolved h c r w)),
   note (ERelease (lock_for w h)) (snd (k r (resolved h c r w)))).
Proof.
  intros Hcfg Hhit. unfold first_attempt_of.
  rewrite bind_gets, Hcfg. cbn [DeviceConfig_from_dict].
  rewrite bind_lift_ok.
  unfold bind at 1. unfold assign_device_config at 1, modify at 1.
  unfold bind at 1. rewrite lock_lookup_is_lock_for.
  apply async_with_run. unfold bind at 1.
  erewrite get_or_connect_device_hit by exact Hhit.
  unfold bind at 1. unfold assign_device at 1, modify at 1.
  now destruct (k r _).
Qed.
End FirstAttempt.

(** C4, as amended.  A dispatch whose (feature, capability) combination is
    not supported, on a target that has a light module whenever the feature
    is one of the light features, raises
    [ValueError("Invalid feature or action")] without any library call.  A
    control request does not treat that failure apart.  For a known host
    with a cached handle and a registered lock, and provided disconnecting
    does not raise: the first attempt takes and releases the lock without
    calling the device; the handle is disconnected and evicted; a connect
    attempt is made under the lock; when it fails, the old handle is
    disconnected again and the connect's error value is returned; when it
    answers, the dispatch is made a second time, on the new handle, and
    its result or the error value of what it raised is returned, the new
    handle being disconnected and evicted in the latter case. *)
Theorem unsupported_dispatch_policy (L : Library) :
  (forall device feature action value child_num t w,
     select_target device (nth device (heap w) no_device) child_num = Ok t ->
     supported feature (t_dev t) = false ->
     (light_feature feature = true -> light (t_dev t) <> None) ->
     perform_device_action L device feature action value child_num w =
     (Raise (ValueError "Invalid feature or action"), w))
  /\ (forall h feature action value child_num w c r l t,
        dict_get (device_config_cache w) h = Some c ->
        dict_get (device_cache w) h = Some r ->
        dict_get (device_lock_cache w) h = Some l ->
        select_target r (nth r (heap w) no_device) child_num = Ok t ->
        supported feature (t_dev t) = false ->
        (light_feature feature = true -> light (t_dev t) <> None) ->
        (forall n r, lib_disconnect L n r = None) ->
        let run := control_device L h feature action value child_num w in
        let r' := length (heap w) in
        match lib_connect L (S (clock w)) c with
        | inl e' =>
            fst run = Ok (error_payload e')
            /\ trace (snd run) =
               trace w ++ [EAcquire l; ERelease l; EDisconnect r;
                           EAcquire l; EConnect c; ERelease l; EDisconnect r]
            /\ dict_get (device_cache (snd run)) h = None
        | inr d =>
            exists w2,
              heap w2 = heap w ++ [d]
              /\ clock w2 = S (S (clock w))
              /\ trace w2 =
                 trace w ++ [EAcquire l; ERelease l; EDisconnect r;
                             EAcquire l; EConnect c]
              /\ dict_get (device_cache w2) h = Some r'
              /\ let second :=
                   perform_device_action L r' feature action value child_num
                     w2 in
                 match fst second with
                 | Ok v =>
                     fst run = Ok v
                     /\ trace (snd run) = trace (snd second) ++ [ERelease l]
                     /\ dict_get (device_cache (snd run)) h = Some r'
                 | Raise e' =>
                     fst run = Ok (error_payload e')
                     /\ trace (snd run) =
                        trace (snd second) ++ [ERelease l; EDisconnect r']
                     /\ dict_get (device_cache (snd run)) h = None
                 end
        end).
Proof.
  split.
  - intros device feature action value child_num t w Hsel Hsup Hlight.
    exact (unsupported_dispatch_raises L device feature action value
             child_num t w Hsel Hsup Hlight).
  - intros h feature action value child_num w c r l t Hcfg Hhit Hlock Hsel
      Hsup Hlight Hd run r'.
    set (w0 := set_frame empty_frame w).
    set (w1 := note (ERelease l) (resolved h c r w0)).
    assert (Hl : forall w', device_lock_cache w' = device_lock_cache w ->
                            lock_for w' h = l).
    { intros w' Hw'. unfold lock_for. now rewrite Hw', Hlock. }
    assert (Hfirst :
              first_attempt_of L h
                (fun device =>
                   perform_device_action L device feature action value
                     child_num) w0 = (Raise (ValueError
                                               "Invalid feature or action"),
                                      w1)).
    { rewrite (first_attempt_of_cached L h _ w0 c r Hcfg Hhit).
      rewrite (unsupported_dispatch_raises L r feature action value
                 child_num t (resolved h c r w0) Hsel Hsup Hlight).
      cbn [fst snd]. unfold w1. now rewrite (Hl w0 eq_refl). }
    pose proof (request_run_after_failure L h _ _ w w1 _ r c
                  (fun r0 => perform_device_action_frame L r0 feature action
                               value child_num) Hd Hfirst eq_refl eq_refl)
      as Hrun.
    match type of Hrun with
    | _ = ?rhs =>
        change (control_device L h feature action value child_num w = rhs)
          in Hrun
    end.
    rewrite (Hl w1 eq_refl) in Hrun.
    change (clock w1) with (clock w) in Hrun.
    change (length (heap w1)) with r' in Hrun.
    assert (Hinv : trace (invalidated h r w1) =
                   trace w ++ [EAcquire l; ERelease l; EDisconnect r;
                               EAcquire l]).
    { cbn. rewrite (Hl w1 eq_refl), (Hl w0 eq_refl).
      now rewrite <- !app_assoc. }
    subst run.
    destruct (lib_connect L (S (clock w)) c) as [e'|d].
    + rewrite Hrun. cbn [fst snd set_frame given_up note log trace
                           device_cache set_device_cache].
      rewrite Hinv, <- !app_assoc, dict_get_pop_same. auto.
    + exists (reconnected h c d (invalidated h r w1)).
      split; [reflexivity|]. split; [reflexivity|].
      split.
      { cbn [reconnected set_frame set_device_cache set_heap log trace].
        rewrite Hinv. now rewrite <- !app_assoc. }
      split; [cbn; apply dict_get_put_same|].
      cbv zeta in Hrun |- *.
      pose proof (perform_device_action_cache L r' feature action value
                    child_num (reconnected h c d (invalidated h r w1)))
        as Hcache.
      destruct (perform_device_action L r' feature action value child_num
                  (reconnected h c d (invalidated h r w1)))
        as [[v|e'] w3]; cbn [fst snd] in *; rewrite Hrun; cbn.
      * rewrite Hcache. cbn. rewrite dict_get_put_same. auto.
      * rewrite <- !app_assoc, dict_get_pop_same. auto.
Qed.

(** ** Requests keep to the host's lock *)

Lemma run_phase_app (l : lock) (p : Phase) (a b : list Event) :
  run_phase l p (a ++ b) =
  match run_phase l p a with
  | Some q => run_phase l q b
  | None => None
  end.
Proof.
  revert p. induction a as [|e a IH]; intros p; cbn; [reflexivity|].
  destruct (step_phase l p e); auto.
Qed.

Lemma moves_trans (l : lock) (p q s : Phase) (a b c : World) :
  moves l p q a b -> moves l q s b c -> moves l p s a c.
Proof.
  intros (H1 & H2 & t1 & Ht1 & Hp1) (H3 & H4 & t2 & Ht2 & Hp2).
  split; [congruence|]. split; [congruence|].
  exists (t1 ++ t2). split.
  - now rewrite Ht2, Ht1, app_assoc.
  - now rewrite run_phase_app, Hp1.
Qed.

Lemma moves_refl (l : lock) (p : Phase) (w : World) : moves l p p w w.
Proof.
  split; [reflexivity|]. split; [reflexivity|].
  exists []. now rewrite app_nil_r.
Qed.

Lemma moves_same (l : lock) (p : Phase) (w w1 : World) :
  device_lock_cache w1 = device_lock_cache w ->
  device_config_cache w1 = device_config_cache w ->
  trace w1 = trace w ->
  moves l p p w w1.
Proof.
  intros H1 H2 H3. split; [exact H1|]. split; [exact H2|].
  exists []. now rewrite app_nil_r.
Qed.

Lemma step_allowed (l : lock) (p : Phase) (e : Event) :
  allowed_in p e = true -> step_phase l p e = Some p.
Proof. destruct p, e; cbn; congruence. Qed.

#[export] Instance stays_stable (l : lock) (p : Phase) :
  Stable (moves l p p) (allowed_in p).
Proof.
  split.
  - apply moves_refl.
  - intros a b c. apply moves_trans.
  - intros w e He. split; [reflexivity|]. split; [reflexivity|].
    exists [e]. split; [reflexivity|]. cbn. now rewrite (step_allowed l p e He).
  - intros w e He. split; [reflexivity|]. split; [reflexivity|].
    exists [e]. split; [reflexivity|]. cbn. now rewrite (step_allowed l p e He).
  - intros w h. now apply moves_same.
  - intros w n. now apply moves_same.
Qed.

#[export] Instance stays_frame_blind (l : lock) (p : Phase) :
  FrameBlind (moves l p p).
Proof. intros w f. now apply moves_same. Qed.

#[export] Instance stays_cache_blind (l : lock) (p : Phase) :
  CacheBlind (moves l p p).
Proof. intros w c. now apply moves_same. Qed.

Section LockDiscipline.
Variable L : Library.
Variable h : string.
Variable l : lock.

Lemma registered_lock_for (w : World) :
  dict_get (device_lock_cache w) h = Some l -> lock_for w h = l.
Proof. intros H. unfold lock_for. now rewrite H. Qed.

(** Resolving a handle calls the library for a connect attempt at most,
    never for a disconnect: when the connect fails, the local [device] of
    the resolver is [None]. *)
Lemma resolve_stays (p : Phase) (c : DeviceConfig) :
  allowed_in p (EConnect c) = true ->
  respects (moves l p p) (get_or_connect_device L h c).
Proof.
  intros Hok w.
  destruct (dict_get (device_cache w) h) as [r|] eqn:Hc.
  - rewrite (get_or_connect_device_hit L h c w r Hc). apply moves_refl.
  - destruct (lib_connect L (clock w) c) as [e|d] eqn:Hconn.
    + rewrite (get_or_connect_device_refused L h c w e Hc Hconn).
      now apply stable_log.
    + rewrite (get_or_connect_device_new L h c w d Hc Hconn). cbn [snd].
      eapply moves_trans; [apply (stable_log w (EConnect c) Hok)|].
      now apply moves_same.
Qed.

Lemma attempt_moves {A} (body : M A) (p p' q : Phase) (w : World) :
  step_phase l p (EAcquire l) = Some p' ->
  step_phase l p' (ERelease l) = Some q ->
  respects (moves l p' p') body ->
  moves l p q w (snd (async_with l body w)).
Proof.
  intros Ha Hr Hb. unfold async_with. cbn [snd].
  assert (H1 : moves l p p' w (note (EAcquire l) w)).
  { split; [reflexivity|]. split; [reflexivity|].
    exists [EAcquire l]. split; [reflexivity|]. cbn. now rewrite Ha. }
  assert (H3 : forall w', moves l p' q w' (note (ERelease l) w')).
  { intros w'. split; [reflexivity|]. split; [reflexivity|].
    exists [ERelease l]. split; [reflexivity|]. cbn. now rewrite Hr. }
  eapply moves_trans; [exact H1|].
  eapply moves_trans; [apply Hb | apply H3].
Qed.

Section Request.
Variables k1 k2 : ref -> M PyVal.
Hypothesis k1_ops : forall r, respects (moves l First First) (k1 r).
Hypothesis k2_ops : forall r, respects (moves l Second Second) (k2 r).

Lemma first_attempt_moves (w : World) (c : DeviceConfig) :
  dict_get (device_lock_cache w) h = Some l ->
  dict_get (device_config_cache w) h = Some c ->
  moves l Idle Between w (snd (first_attempt_of L h k1 w)).
Proof.
  intros Hl Hc. unfold first_attempt_of.
  rewrite bind_gets, Hc. cbn [DeviceConfig_from_dict].
  rewrite bind_lift_ok.
  unfold bind at 1. unfold assign_device_config at 1, modify at 1.
  unfold bind at 1. rewrite lock_lookup_is_lock_for.
  erewrite registered_lock_for by exact Hl.
  eapply moves_trans; [|apply (attempt_moves _ Idle First Between)].
  - now apply moves_same.
  - cbn. now rewrite Nat.eqb_refl.
  - cbn. now rewrite Nat.eqb_refl.
  - repeat first [ apply resolve_stays | apply k1_ops | respects_step ];
      reflexivity.
Qed.

Lemma retry_moves (w : World) :
  dict_get (device_lock_cache w) h = Some l ->
  exists q, (q = Between \/ q = Done)
            /\ moves l Between q w (snd (retry_of L h k2 w)).
Proof.
  intros Hl. unfold retry_of. unfold bind at 1.
  assert (Hd : respects (moves l Between Between) (disconnect_if_device L))
    by (repeat respects_step; reflexivity).
  specialize (Hd w).
  destruct (disconnect_if_device L w) as [[[]|e] w1]; cbn [snd] in *;
    [|exists Between; auto].
  unfold bind at 1. unfold device_cache_pop at 1, modify at 1.
  unfold bind at 1. rewrite lock_lookup_is_lock_for.
  assert (Hl1 : dict_get (device_lock_cache w1) h = Some l).
  { destruct Hd as (Hlk & _). now rewrite Hlk. }
  erewrite registered_lock_for by exact Hl1.
  exists Done. split; [now right|].
  eapply moves_trans; [exact Hd|].
  eapply moves_trans; [|apply (attempt_moves _ Between Second Done)].
  - now apply moves_same.
  - cbn. now rewrite Nat.eqb_refl.
  - cbn. now rewrite Nat.eqb_refl.
  - repeat first [ apply resolve_stays | apply k2_ops | respects_step ];
      reflexivity.
Qed.

Lemma report_failure_stays (p : Phase) (e : exn) :
  (forall r, allowed_in p (EDisconnect r) = true) ->
  respects (moves l p p) (report_failure L h e).
Proof.
  intros Hok. unfold report_failure. repeat respects_step. apply Hok.
Qed.

(** A request for a host with a stored configuration and the registered
    lock [l]: a first attempt under [l], then possibly a second. *)
Lemma request_moves (w : World) (c : DeviceConfig) :
  dict_get (device_lock_cache w) h = Some l ->
  dict_get (device_config_cache w) h = Some c ->
  exists q,
    (q = Between \/ q = Done)
    /\ moves l Idle q w
         (snd (call (try first_attempt_of L h k1
                     except e0 =>
                       try retry_of L h k2
                       except e1 => report_failure L h e1) w)).
Proof.
  intros Hl Hc. unfold call. cbn [snd].
  pose proof (first_attempt_moves (set_frame empty_frame w) c Hl Hc)
    as Hfirst.
  assert (Hback : forall p w', moves l p p w' (set_frame (frame w) w'))
    by (intros; now apply moves_same).
  assert (Hin : moves l Idle Idle w (set_frame empty_frame w))
    by now apply moves_same.
  unfold try_except at 1.
  destruct (first_attempt_of L h k1 (set_frame empty_frame w))
    as [[v|e] w1]; cbn [snd] in *.
  - exists Between. split; [now left|].
    eapply moves_trans; [exact Hin|].
    eapply moves_trans; [exact Hfirst | apply Hback].
  - assert (Hl1 : dict_get (device_lock_cache w1) h = Some l).
    { destruct Hfirst as (Hlk & _). now rewrite Hlk. }
    destruct (retry_moves w1 Hl1) as (q & Hq & Hretry).
    unfold try_except.
    destruct (retry_of L h k2 w1) as [[v|e'] w2]; cbn [snd] in *.
    + exists q. split; [exact Hq|].
      eapply moves_trans; [exact Hin|].
      eapply moves_trans; [exact Hfirst|].
      eapply moves_trans; [exact Hretry | apply Hback].
    + exists q. split; [exact Hq|].
      eapply moves_trans; [exact Hin|].
      eapply moves_trans; [exact Hfirst|].
      eapply moves_trans; [exact Hretry|].
      eapply moves_trans; [|apply Hback].
      apply report_failure_stays. destruct Hq as [-> | ->]; reflexivity.
Qed.

(** A request for a host without a stored configuration looks no lock up
    and changes nothing. *)
Lemma request_unknown (w : World) :
  dict_get (device_config_cache w) h = None ->
  call (try first_attempt_of L h k1
        except e0 =>
          try retry_of L h k2 except e1 => report_failure L h e1) w =
  (Raise (UnboundLocalError "device"), w).
Proof.
  intros Hnone.
  unfold call, try_except, first_attempt_of, retry_of, report_failure,
    disconnect_if_device, read_device.
  rewrite bind_gets. cbn [device_config_cache set_frame]. rewrite Hnone.
  cbn. now destruct w.
Qed.
End Request.
End LockDiscipline.

(** ** Every known host has a lock *)

#[export] Instance covered_stable : Stable covered (fun _ => true).
Proof.
  unfold covered. split; auto.
  intros a b c [H1 H2] [H3 H4]. split; [auto|].
  intros k Hk. destruct (H4 k Hk) as [Hb|Hb]; [|now right].
  destruct (H2 k Hb) as [Ha|Ha]; auto.
Qed.

#[export] Instance covered_frame_blind : FrameBlind covered.
Proof. intros w f. split; auto. Qed.

#[export] Instance covered_cache_blind : CacheBlind covered.
Proof. intros w c. split; auto. Qed.

Lemma covered_consistent (w w1 : World) :
  covered w w1 -> consistent w -> consistent w1.
Proof.
  intros [H1 H2] Hc k Hk. destruct (H2 k Hk) as [Hk0|Hl]; auto.
Qed.

Lemma tables_kept_covered (w w1 : World) : tables_kept w w1 -> covered w w1.
Proof.
  intros [Hl Hc]. unfold covered, locked, known. rewrite Hl, Hc. auto.
Qed.

Lemma put_lock_covered (w : World) (h : string) (l : lock) :
  dict_get (device_lock_cache w) h = None ->
  covered w (set_device_lock_cache (dict_put (device_lock_cache w) h l) w).
Proof.
  intros Hfree. split; [|auto]. unfold locked.
  cbn [device_lock_cache set_device_lock_cache]. intros k Hk.
  destruct (String.eqb_spec h k) as [->|Hne]; [contradiction|].
  now rewrite dict_get_put_other.
Qed.

Section Covered.
Variable L : Library.
Variable hide : bool.

Lemma register_lock_covered (h : string) (w : World) :
  covered w
    (snd ((if dict_contains (device_lock_cache w) h then ret tt
           else l <- asyncio_Lock ;;
                modify (fun w =>
                  set_device_lock_cache
                    (dict_put (device_lock_cache w) h l) w)) w)).
Proof.
  destruct (dict_contains (device_lock_cache w) h) eqn:Hc;
    [apply stable_refl|].
  unfold bind, asyncio_Lock, modify. cbn [snd].
  eapply stable_trans; [apply (stable_next_lock w (S (next_lock w)))|].
  apply put_lock_covered. cbn [device_lock_cache set_next_lock].
  now apply dict_contains_false.
Qed.

Lemma classify_device_covered (tasks : list (string * ref))
    (item : string * ref) :
  respects covered (classify_device L hide tasks item).
Proof.
  unfold classify_device. destruct item as [h device].
  repeat first
    [ lazymatch goal with
      | |- respects _ (bind (gets device_lock_cache) _) =>
          let w0 := fresh "w" in
          intros w0; rewrite bind_gets, snd_then_ret;
          apply register_lock_covered
      end
    | respects_step ]; try reflexivity.
  match goal with
  | |- context [dict_contains ?c ?x] => destruct (dict_contains c x)
  end; [apply stable_refl | apply cache_blind].
Qed.

Lemma collect_result_covered (acc : dict PyVal)
    (res : string * (exn + PyVal)) :
  respects covered (collect_result L acc res).
Proof.
  unfold collect_result. destruct res as [h [e|v]];
    repeat respects_step; reflexivity.
Qed.

(** Gathering the reports stores configurations for hosts of the update
    tasks only, which have a lock by then. *)
Lemma create_loop_covered (tasks : list (string * ref)) :
  forall (results : list (string * (exn + PyVal))) (w : World),
    (forall k, In k (map fst tasks) -> locked w k) ->
    covered w
      (snd (fold_each tasks results
              (fun results task =>
                 res <- call (create_device_info (fst task) (snd task)) ;;
                 ret (results ++ [res])) w)).
Proof.
  induction tasks as [|[h device] rest IH]; intros results w Hl.
  - apply stable_refl.
  - cbn [fold_each fst snd]. unfold bind at 1. unfold bind at 1.
    unfold call. rewrite create_device_info_eq.
    cbn [heap set_frame device_config_cache].
    assert (Hh : locked w h) by (apply Hl; now left).
    destruct (custom_serializer (nth device (heap w) no_device))
      as [out|e]; cbn [fst snd ret].
    + match goal with
      | |- covered _ (snd (fold_each _ _ _ ?w1)) =>
          assert (Hstep : covered w w1)
      end.
      { split; unfold locked, known; cbn; [auto|]. intros k Hk.
        destruct (String.eqb_spec h k) as [<-|Hne]; [now right|].
        left. now rewrite dict_get_put_other in Hk. }
      eapply stable_trans; [exact Hstep|]. apply IH.
      intros k Hk. apply Hstep. apply Hl. now right.
    + match goal with
      | |- covered _ (snd (fold_each _ _ _ ?w1)) =>
          assert (Hstep : covered w w1) by (split; auto)
      end.
      eapply stable_trans; [exact Hstep|]. apply IH.
      intros k Hk. apply Hstep. apply Hl. now right.
Qed.

Lemma sweep_tail_covered (devices : dict ref) :
  respects covered
    (update_tasks <- fold_each devices [] (classify_device L hide) ;;
     results <- fold_each update_tasks [] (fun results task =>
                  res <- call (create_device_info (fst task) (snd task)) ;;
                  ret (results ++ [res])) ;;
     all_device_info <- fold_each results [] (collect_result L) ;;
     ret (devices, all_device_info)).
Proof.
  intros w. unfold bind at 1.
  assert (Hc : respects covered
                 (fold_each devices [] (classify_device L hide))).
  { apply respects_fold_each. intros. apply classify_device_covered. }
  specialize (Hc w).
  pose proof (classify_loop_locks L hide devices [] w
                (fun k (H : In k []) => match H with end)) as Hlocks.
  unfold post in Hlocks.
  destruct (fold_each devices [] (classify_device L hide) w)
    as [[tasks|e] w1]; cbn [fst snd] in *; [|exact Hc].
  eapply stable_trans; [exact Hc|].
  unfold bind at 1.
  pose proof (create_loop_covered tasks [] w1 Hlocks) as Hcreate.
  destruct (fold_each tasks [] _ w1) as [[results|e] w2];
    cbn [fst snd] in *; [|exact Hcreate].
  eapply stable_trans; [exact Hcreate|].
  assert (Hrest : respects covered
                    (all_device_info <- fold_each results []
                                          (collect_result L) ;;
                     ret (devices, all_device_info))).
  { repeat first [ apply collect_result_covered | respects_step ]. }
  apply Hrest.
Qed.

Lemma discover_sweep_covered (u p : option string) (bc md : list string) :
  respects covered (discover_sweep L hide u p bc md).
Proof.
  unfold discover_sweep, close_all_connections, discover_on_broadcast,
    discover_manual_device.
  repeat first
    [ apply sweep_tail_covered
    | apply respects_Discover_discover; [reflexivity]
    | apply respects_Discover_discover_single; [reflexivity]
    | apply respects_on_discovered; [reflexivity]
    | lazymatch goal with
      | |- respects _ (bind (fold_each _ _ (classify_device _ _)) _) => fail
      | |- _ => respects_step
      end ]; try reflexivity.
  apply cache_blind.
Qed.

Lemma discover_devices_covered (u p : option string) (bc md : list string) :
  respects covered (discover_devices L hide u p bc md).
Proof.
  unfold discover_devices, disconnect_sweep.
  repeat first [ apply discover_sweep_covered | respects_step ];
    reflexivity.
Qed.
End Covered.

Section Reachable.
Variable L : Library.

Lemma control_device_tables (h feature action : string) (value : PyVal)
    (child_num : option Z) :
  respects tables_kept (control_device L h feature action value child_num).
Proof.
  unfold control_device, control_first_attempt, control_retry,
    report_failure.
  repeat first [ apply respects_perform_device_action; intros
               | respects_step ]; reflexivity.
Qed.

Lemma get_sys_info_tables (h : string) :
  respects tables_kept (get_sys_info L h).
Proof.
  unfold get_sys_info, status_first_attempt, status_retry, report_failure.
  repeat respects_step; reflexivity.
Qed.

Lemma cleanup_tables (w : World) :
  device_lock_cache (snd (cleanup L w)) = []
  /\ device_config_cache (snd (cleanup L w)) = [].
Proof.
  unfold cleanup, bind, call, modify.
  rewrite close_all_connections_run. cbn. auto.
Qed.

(** In every state the service reaches, a host with a stored configuration
    has a registered lock: a sweep stores the configuration of a host only
    after it has registered the host's lock, requests change neither
    table, and a shutdown empties both. *)
Lemma reachable_consistent (w : World) : reachable L w -> consistent w.
Proof.
  induction 1 as [|hide u p bc md w _ IH|h w _ IH|h f a v cn w _ IH|w _ IH].
  - intros h Hk. now contradiction Hk.
  - eapply covered_consistent; [apply discover_devices_covered | exact IH].
  - eapply covered_consistent; [|exact IH].
    apply tables_kept_covered, get_sys_info_tables.
  - eapply covered_consistent; [|exact IH].
    apply tables_kept_covered, control_device_tables.
  - intros h Hk. unfold known in Hk.
    destruct (cleanup_tables w) as [_ Hc]. rewrite Hc in Hk.
    now contradiction Hk.
Qed.
End Reachable.

Lemma run_phase_outside (l : lock) (tr : list Event) (p q : Phase) :
  run_phase l p tr = Some q ->
  forallb is_disconnect
    (outside_lock match p with First | Second => true | _ => false end tr)
  = true.
Proof.
  revert p. induction tr as [|e tr IH]; intros p; cbn; [reflexivity|].
  destruct (step_phase l p e) as [p1|] eqn:Hs; [|discriminate].
  intros Hrun. specialize (IH p1 Hrun).
  destruct p, e; cbn in Hs; try discriminate;
    try (destruct (Nat.eqb l l0); [|discriminate]);
    injection Hs as <-; cbn; exact IH.
Qed.

Lemma run_phase_starts (l : lock) (tr : list Event) (q : Phase) :
  run_phase l Idle tr = Some q -> q <> Idle ->
  exists rest, tr = EAcquire l :: rest.
Proof.
  destruct tr as [|e rest]; cbn; [intros [= <-] Hq; now contradiction Hq|].
  destruct e; try discriminate.
  destruct (Nat.eqb_spec l l0) as [<-|]; [|discriminate].
  intros _ _. now exists rest.
Qed.

Lemma read_status_ops (L : Library) (l : lock) (p : Phase) (probe : bool)
    (device : ref) :
  (forall e, is_device_op e = true -> allowed_in p e = true) ->
  respects (moves l p p) (read_status L probe device).
Proof.
  intros Hok. unfold read_status.
  destruct probe; repeat respects_step; now apply Hok.
Qed.

Lemma perform_device_action_ops (L : Library) (l : lock) (p : Phase)
    (device : ref) (feature action : string) (value : PyVal)
    (child_num : option Z) :
  (forall e, is_device_op e = true -> allowed_in p e = true) ->
  respects (moves l p p)
    (perform_device_action L device feature action value child_num).
Proof.
  intros Hok. apply respects_perform_device_action. intros. now apply Hok.
Qed.

(** The two kinds of request, over the operation each makes in its first
    attempt and in its retry. *)
Lemma request_shape (L : Library) (h : string) (request : M PyVal) :
  request = get_sys_info L h
  \/ (exists feature action value child_num,
        request = control_device L h feature action value child_num) ->
  exists k1 k2,
    request =
    call (try first_attempt_of L h k1
          except e0 => try retry_of L h k2 except e1 => report_failure L h e1)
    /\ (forall l p r,
          (forall e, is_device_op e = true -> allowed_in p e = true) ->
          respects (moves l p p) (k1 r) /\ respects (moves l p p) (k2 r)).
Proof.
  intros [-> | (feature & action & value & child_num & ->)].
  - exists (read_status L true), (read_status L false).
    split; [reflexivity|]. intros l p r Hok.
    split; now apply read_status_ops.
  - exists (fun device =>
              perform_device_action L device feature action value child_num),
      (fun device =>
         perform_device_action L device feature action value child_num).
    split; [reflexivity|]. intros l p r Hok.
    split; now apply perform_device_action_ops.
Qed.

(** C1, as amended.  In every state the service reaches and for every host,
    the lock a status or control request looks up is the lock registered
    for the host: a host with a stored configuration has one, repeated
    lookups return it, and the request leaves the lock table as it is, so
    that the next request finds the same lock.  The request keeps to that
    lock: each of its attempts takes it, resolves and operates on the
    device while holding it, and releases it; no other lock is taken; the
    only calls made outside the lock are the disconnects of the
    invalidation after an attempt.  A request for a host without a stored
    configuration looks no lock up and changes nothing. *)
Theorem lock_table_policy (L : Library) (h : string) (w : World)
    (request : M PyVal) :
  reachable L w ->
  request = get_sys_info L h
  \/ (exists feature action value child_num,
        request = control_device L h feature action value child_num) ->
  let l := lock_for w h in
  let w' := snd (request w) in
  (known w h ->
   dict_get (device_lock_cache w) h = Some l
   /\ fst (device_lock_cache_get h w) = Ok l
   /\ fst (device_lock_cache_get h (snd (device_lock_cache_get h w))) = Ok l
   /\ dict_get (device_lock_cache w') h = Some l)
  /\ (~ known w h -> w' = w)
  /\ device_lock_cache w' = device_lock_cache w
  /\ exists tr,
       trace w' = trace w ++ tr
       /\ keeps_to_lock l tr = true
       /\ forallb is_disconnect (outside_lock false tr) = true
       /\ (known w h -> exists rest, tr = EAcquire l :: rest).
Proof.
  intros Hreach Hreq l w'.
  destruct (request_shape L h request Hreq) as (k1 & k2 & -> & Hk).
  pose proof (reachable_consistent L w Hreach h) as Hcons.
  unfold known, locked in *.
  destruct (dict_get (device_config_cache w) h) as [c|] eqn:Hcfg.
  - assert (Hknown : Some c <> None) by discriminate.
    specialize (Hcons Hknown).
    destruct (dict_get (device_lock_cache w) h) as [l0|] eqn:Hl0;
      [|now contradiction Hcons].
    assert (Hl : l = l0) by (subst l; unfold lock_for; now rewrite Hl0).
    rewrite Hl in *. clear Hl l.
    destruct (request_moves L h l0 k1 k2
                (fun r => proj1 (Hk l0 First r (fun e H => H)))
                (fun r => proj2 (Hk l0 Second r (fun e H => H)))
                w c Hl0 Hcfg) as (q & Hq & Hlk & _ & tr & Htr & Hrun).
    fold w' in Hlk, Htr. split; [|split; [|split]].
    + intros _. split; [reflexivity|].
      destruct (registered_lock_lookup_stable h l0 w Hl0)
        as (H1 & H2 & _).
      split; [exact H1|]. split; [exact H2|]. now rewrite Hlk.
    + intros Hn. now contradiction Hn.
    + exact Hlk.
    + exists tr. split; [exact Htr|]. split; [|split].
      * unfold keeps_to_lock. rewrite Hrun. now destruct Hq as [-> | ->].
      * now apply (run_phase_outside l0 tr Idle q).
      * intros _. apply (run_phase_starts l0 tr q Hrun).
        destruct Hq as [-> | ->]; discriminate.
  - subst w'. rewrite (request_unknown L h k1 k2 w Hcfg). cbn [snd].
    split; [intros Hn; now contradiction Hn|].
    split; [reflexivity|]. split; [reflexivity|].
    exists []. rewrite app_nil_r. repeat split.
    intros Hn. now contradiction Hn.
Qed.

(** ** What a sweep disconnects *)

Lemma extends_same (w w1 : World) : trace w1 = trace w -> extends w w1.
Proof. intros H. exists []. now rewrite app_nil_r. Qed.

Lemma extends_refl (w : World) : extends w w.
Proof. now apply extends_same. Qed.

Lemma extends_trans (a b c : World) :
  extends a b -> extends b c -> extends a c.
Proof.
  intros [t1 H1] [t2 H2]. exists (t1 ++ t2).
  now rewrite H2, H1, app_assoc.
Qed.



#[export] Instance quiet_cache_stable : Stable quiet_cache (fun _ => true).
Proof.
  unfold quiet_cache. split.
  - intros w. split; [reflexivity | apply extends_refl].
  - intros a b c [H1 H2] [H3 H4]. split; [congruence|].
    eapply extends_trans; eauto.
  - intros w e _. split; [reflexivity|]. now exists [e].
  - intros w e _. split; [reflexivity|]. now exists [e].
  - intros w h. split; [reflexivity | now apply extends_same].
  - intros w n. split; [reflexivity | now apply extends_same].
Qed.

#[export] Instance quiet_cache_frame_blind : FrameBlind quiet_cache.
Proof. intros w f. split; [reflexivity | now apply extends_same]. Qed.

Lemma cache_from_same (vals : list ref) (w w1 : World) :
  device_cache w1 = device_cache w -> trace w1 = trace w ->
  cache_from vals w w1.
Proof.
  intros Hc Ht. exists []. rewrite app_nil_r. split; [exact Ht|].
  intros k r Hk. left. now rewrite <- Hc.
Qed.

Lemma cache_from_event (vals : list ref) (w w1 : World) (e : Event) :
  device_cache w1 = device_cache w -> trace w1 = trace w ++ [e] ->
  cache_from vals w w1.
Proof.
  intros Hc Ht. exists [e]. split; [exact Ht|].
  intros k r Hk. left. now rewrite <- Hc.
Qed.

Lemma cache_from_trans (vals : list ref) (a b c : World) :
  cache_from vals a b -> cache_from vals b c -> cache_from vals a c.
Proof.
  intros (t1 & H1 & Ha) (t2 & H2 & Hb). exists (t1 ++ t2). split.
  - now rewrite H2, H1, app_assoc.
  - intros k r Hk. destruct (Hb k r Hk) as [Hk1|[Hv|Hd]].
    + destruct (Ha k r Hk1) as [Hk0|[Hv|Hd]]; auto.
      right. right. apply in_or_app. now left.
    + auto.
    + right. right. apply in_or_app. now right.
Qed.


#[export] Instance cache_from_stable (vals : list ref) :
  Stable (cache_from vals) (fun _ => true).
Proof.
  split.
  - intros w. now apply cache_from_same.
  - apply cache_from_trans.
  - intros w e _. now apply (cache_from_event vals w (log e w) e).
  - intros w e _. now apply (cache_from_event vals w (note e w) e).
  - intros w h. now apply cache_from_same.
  - intros w n. now apply cache_from_same.
Qed.

#[export] Instance cache_from_frame_blind (vals : list ref) :
  FrameBlind (cache_from vals).
Proof. intros w f. now apply cache_from_same. Qed.




Section SweepCacheHandles.
Variable L : Library.
Variable hide : bool.













End SweepCacheHandles.

(** ** Combinators for relations that watch the object store *)

Section Keeps.
Variable R : World -> World -> Prop.
Hypothesis R_refl : forall w, R w w.
Hypothesis R_trans : forall a b c, R a b -> R b c -> R a c.

Lemma keeps_ret {A} (a : A) : respects R (ret a).
Proof. intros w. apply R_refl. Qed.



Lemma keeps_gets {A} (f : World -> A) : respects R (gets f).
Proof. intros w. apply R_refl. Qed.

Lemma keeps_bind {A B} (m : M A) (k : A -> M B) :
  respects R m -> (forall a, respects R (k a)) -> respects R (bind m k).
Proof.
  intros Hm Hk w. unfold bind. specialize (Hm w).
  destruct (m w) as [[a|e] w1]; cbn [snd] in *; auto.
  eapply R_trans; [exact Hm | apply Hk].
Qed.

Lemma keeps_try {A} (m : M A) (h : exn -> M A) :
  respects R m -> (forall e, respects R (h e)) -> respects R (try_except m h).
Proof.
  intros Hm Hh w. unfold try_except. specialize (Hm w).
  destruct (m w) as [[a|e] w1]; cbn [snd] in *; auto.
  eapply R_trans; [exact Hm | apply Hh].
Qed.



End Keeps.

Lemma sealed_same_heap (w w1 : World) (tr : list Event) :
  trace w1 = trace w ++ tr -> length (heap w1) = length (heap w) ->
  sealed w w1.
Proof.
  intros Ht Hh. exists tr. split; [exact Ht|]. split; [lia|].
  intros r [H1 H2]. lia.
Qed.

Lemma sealed_refl (w : World) : sealed w w.
Proof. apply (sealed_same_heap w w []); [now rewrite app_nil_r | reflexivity]. Qed.

Lemma sealed_trans (a b c : World) : sealed a b -> sealed b c -> sealed a c.
Proof.
  intros (t1 & H1 & L1 & S1) (t2 & H2 & L2 & S2). exists (t1 ++ t2).
  split; [now rewrite H2, H1, app_assoc|]. split; [lia|].
  intros r [Ha Hc]. apply in_or_app.
  destruct (Nat.lt_ge_cases r (length (heap b))) as [Hlt|Hge].
  - left. apply S1. split; assumption.
  - right. apply S2. split; assumption.
Qed.

Lemma length_list_set {A} (l : list A) (i : nat) (a : A) :
  length (list_set l i a) = length l.
Proof.
  revert i. induction l as [|x l IH]; intros [|i]; cbn; auto.
Qed.

Section SealedSteps.
Variable L : Library.

Lemma sealed_update (r : ref) : respects sealed (update L r).
Proof.
  intros w. unfold update.
  destruct (lib_update L (clock w) r _); cbn [snd].
  - now apply (sealed_same_heap w _ [EUpdate r]).
  - apply (sealed_same_heap w _ [EUpdate r]); [reflexivity|].
    cbn. apply length_list_set.
Qed.


Lemma sealed_quiet (f : World -> World) :
  (forall w, trace (f w) = trace w /\ heap (f w) = heap w) ->
  forall w, sealed w (f w).
Proof.
  intros H w. destruct (H w) as [Ht Hh].
  apply (sealed_same_heap w _ []); [now rewrite app_nil_r | now rewrite Hh].
Qed.

Lemma sealed_on_discovered (device : ref) (to_remove : list string) :
  respects sealed (on_discovered L device to_remove).
Proof.
  unfold on_discovered.
  apply (keeps_try sealed sealed_trans).
  - apply (keeps_bind sealed sealed_trans); [apply sealed_update|].
    intros _. apply (keeps_ret sealed sealed_refl).
  - intros e. apply (keeps_bind sealed sealed_trans).
    + apply (keeps_gets sealed sealed_refl).
    + intros d. apply (keeps_ret sealed sealed_refl).
Qed.

End SealedSteps.

(** ** The sessions a sweep opens *)
















Section SweepSessions.
Variable L : Library.
Variable hide : bool.




End SweepSessions.




Section SweepLoops.
Variable L : Library.
Variable hide : bool.
Variable network : string -> string.
Variable targets : list string.
Variable known : dict DeviceConfig.
Hypothesis answers :
  forall n t cr found,
    In t targets -> lib_discover L n t cr = inr found ->
    NoDup (map host found)
    /\ forall d, In d found ->
         network (host d) = t /\ dict_get known (host d) = None.

End SweepLoops.

Section SweepSteps.
Variable L : Library.
Variable hide : bool.








End SweepSteps.

Section SweepSessionsAll.
Variable L : Library.
Variable hide : bool.
Variable network : string -> string.

End SweepSessionsAll.


(** ** The operations on concrete networks *)

Module Runs.
Import Scenario.


(** C1 fails as stated, in a state the service reaches.  After a sweep the
    lock of the plug's host is in the table before any lookup is made; a
    lookup returns it, and the lock the lookup builds (lock 1) is stored
    nowhere.  A status request whose probe fails disconnects the handle
    between its two attempts while holding no lock, so requests on one
    host are not serialized by the lock from end to end. *)
Lemma invalidation_outside_lock :
  let w := after_sweep stale_after_sweep in
  let m := get_sys_info stale_after_sweep the_host in
  let lookup := device_lock_cache_get the_host w in
  reachable stale_after_sweep w
  /\ device_lock_cache w = [(the_host, 0)]
  /\ next_lock w = 1
  /\ fst lookup = Ok 0
  /\ next_lock (snd lookup) = 2
  /\ device_lock_cache (snd lookup) = [(the_host, 0)]
  /\ emitted m w =
     [ EAcquire 0; EUpdate 0; ERelease 0; EDisconnect 0;
       EAcquire 0; EConnect (config_of the_host); ERelease 0 ]
  /\ outside_lock false (emitted m w) = [EDisconnect 0].
Proof.
  split; [apply reach_discover, reach_start|].
  vm_compute. repeat split.
Qed.

(** A second sweep over the same network: the broadcast answer for the
    known host is probed (as object 1) and then dropped in favour of a
    reconnect (object 2); nothing ever disconnects object 1. *)
Lemma second_sweep_drops_probed_device :
  let w := after_sweep healthy in
  let m := discover_devices healthy false None None [] [] in
  emitted m w =
    [ EDisconnect 0; EDiscover "255.255.255.255"; EUpdate 1;
      EConnect (config_of the_host); EUpdate 2; EDisconnect 2 ]
  /\ count (is_disconnect_of 1) (emitted m w) = 0
  /\ device_cache (snd (m w)) = [(the_host, 2)].
Proof. vm_compute. repeat split. Qed.

(** C4 fails as stated: a request with a feature the dispatcher does not
    know goes through the whole retry path.  The handle is disconnected
    and evicted, the host is reconnected, the dispatch is attempted a
    second time, and only then is the error returned. *)
Lemma invalid_feature_is_retried :
  let w := after_sweep healthy in
  let m := control_device healthy the_host "bogus" "set" VNone None in
  fst (m w) = Ok (VDict [("error", VStr "Invalid feature or action")])
  /\ emitted m w =
     [ EAcquire 0; ERelease 0; EDisconnect 0;
       EAcquire 0; EConnect (config_of the_host); ERelease 0;
       EDisconnect 1 ]
  /\ count is_acquire (emitted m w) = 2
  /\ count is_connect (emitted m w) = 1.
Proof. vm_compute. repeat split. Qed.

(** C2 at a failing input: the plug's cached session has gone bad, so the
    action raises and disconnecting raises as well.  The request makes a
    single attempt, there is no retry, the stale handle stays cached, and
    [control_device] raises instead of returning an error value. *)
Theorem control_device_no_retry_when_disconnect_raises :
  let w := after_sweep broken_session in
  let m := control_device broken_session the_host "state" "turn_on"
             VNone None in
  fst (m w) = Raise (KasaException "connection lost")
  /\ emitted m w =
     [ EAcquire 0; ECall 0 None OnDevice "turn_on" []; ERelease 0;
       EDisconnect 0; EDisconnect 0 ]
  /\ count is_acquire (emitted m w) = 1
  /\ device_cache (snd (m w)) = [(the_host, 0)].
Proof. vm_compute. repeat split. Qed.

(** C8 fails as stated: probing the cached handle fails, and the retry
    reconnects (object 1) and serializes the new object at once; the only
    [update] of the request is the one that failed, on the old handle. *)
Theorem get_sys_info_retry_skips_update :
  let w := after_sweep stale_after_sweep in
  let m := get_sys_info stale_after_sweep the_host in
  (exists sys_info, fst (m w) = Ok (VDict [("sys_info", sys_info)]))
  /\ emitted m w =
     [ EAcquire 0; EUpdate 0; ERelease 0; EDisconnect 0;
       EAcquire 0; EConnect (config_of the_host); ERelease 0 ]
  /\ count is_update (emitted m w) = 1
  /\ device_cache (snd (m w)) = [(the_host, 1)].
Proof. vm_compute. repeat split. eexists. reflexivity. Qed.

(** A first attempt that fails before a handle is bound: the host is known,
    nothing is cached and the device does not answer.  The [except] block
    reads the unbound local [device], so there is no retry, and the request
    raises [UnboundLocalError] instead of returning an error value. *)
Lemma get_sys_info_no_retry_without_handle :
  let m := get_sys_info unreachable the_host in
  fst (m evicted_world) = Raise (UnboundLocalError "device")
  /\ emitted m evicted_world =
     [EAcquire 0; EConnect (config_of the_host); ERelease 0]
  /\ count is_acquire (emitted m evicted_world) = 1.
Proof. vm_compute. repeat split. Qed.

(** The same status request against the healthy network, for comparison:
    one attempt, with its [update]. *)
Lemma get_sys_info_healthy :
  emitted (get_sys_info healthy the_host) (after_sweep healthy) =
  [EAcquire 0; EUpdate 0; ERelease 0].
Proof. reflexivity. Qed.

End Runs.

(** ** The theorems at work *)

Module Witnesses.
Import Scenario.

Lemma brightness_dispatch_policy_witness :
  select_target 0 (nth 0 (heap bulb_world) no_device) None = Ok bulb_target
  /\ has_feature (light (t_dev bulb_target)) "brightness" = Ok true
  /\ trace (snd (perform_device_action healthy 0 "brightness"
                   "set_brightness" (VInt 40) None bulb_world)) =
     [ECall 0 None OnLight "set_brightness" [VInt 40]].
Proof.
  split; [reflexivity|]. split; [reflexivity|].
  destruct (brightness_dispatch_policy healthy 0 "set_brightness" None
              bulb_world bulb_target eq_refl 40 eq_refl) as (_ & Hin & _).
  apply Hin. lia.
Defined.

Lemma color_temp_dispatch_clamps_witness :
  select_target 0 (nth 0 (heap bulb_world) no_device) None = Ok bulb_target
  /\ valid_temperature_range color_light = (2500, 6500)%Z
  /\ trace (snd (perform_device_action healthy 0 "color_temp"
                   "set_color_temp" (VInt 1000) None bulb_world)) =
     [ECall 0 None OnLight "set_color_temp" [VInt 2500]].
Proof.
  split; [reflexivity|]. split; [reflexivity|].
  apply (color_temp_dispatch_clamps healthy 0 "set_color_temp" None
           bulb_world bulb_target eq_refl color_light 2500 6500 1000
           eq_refl eq_refl eq_refl).
  lia.
Defined.

Lemma hsv_dispatch_partial_update_witness :
  select_target 0 (nth 0 (heap bulb_world) no_device) None = Ok bulb_target
  /\ hsv color_light = (120, 50, 80)%Z
  /\ trace (snd (perform_device_action healthy 0 "hue" "set_hsv"
                   (VDict [("hue", VInt 10)]) None bulb_world)) =
     [ECall 0 None OnLight "set_hsv" [VTuple [VInt 10; VInt 50; VInt 80]]].
Proof.
  split; [reflexivity|]. split; [reflexivity|].
  apply (hsv_dispatch_partial_update healthy 0 "set_hsv" None bulb_world
           bulb_target eq_refl color_light 120 50 80
           [("hue", VInt 10)] (VInt 10) eq_refl eq_refl eq_refl).
  reflexivity.
Defined.

Lemma get_or_connect_device_failure_witness :
  dict_get (device_cache empty_world) the_host = None
  /\ lib_connect unreachable 0 (config_of the_host) =
     inl (KasaException "unable to connect")
  /\ fst (get_or_connect_device unreachable the_host (config_of the_host)
            empty_world) = Raise (KasaException "unable to connect")
  /\ dict_get (device_cache
                 (snd (get_or_connect_device unreachable the_host
                         (config_of the_host) empty_world))) the_host
     = None.
Proof.
  split; [reflexivity|]. split; [reflexivity|].
  destruct (get_or_connect_device_failure unreachable the_host
              (config_of the_host) empty_world
              (KasaException "unable to connect") eq_refl eq_refl)
    as (Hr & Hc & _).
  split; [exact Hr | exact Hc].
Defined.

Lemma control_device_retries_once_witness :
  let first := control_first_attempt healthy the_host "bogus" "set" VNone
                 None (set_frame empty_frame (after_sweep healthy)) in
  fst first = Raise (ValueError "Invalid feature or action")
  /\ device_bound (snd first)
  /\ count is_acquire
       (trace (snd (control_device healthy the_host "bogus" "set" VNone
                      None (after_sweep healthy)))) =
     count is_acquire (trace (after_sweep healthy)) + 2.
Proof.
  intros first.
  assert (Hfirst : first =
                   (Raise (ValueError "Invalid feature or action"),
                    snd first)) by (vm_compute; reflexivity).
  assert (Hbound : device_bound (snd first))
    by (exists 0; vm_compute; reflexivity).
  split; [vm_compute; reflexivity|]. split; [exact Hbound|].
  destruct (control_device_retries_once healthy (fun _ _ => eq_refl)
              the_host "bogus" "set" VNone None (after_sweep healthy)
              (snd first) (ValueError "Invalid feature or action")
              Hfirst Hbound) as (H1 & _).
  exact H1.
Defined.


Lemma retry_resolves_afresh_witness :
  let w := after_sweep stale_after_sweep in
  let first := status_first_attempt stale_after_sweep the_host
                 (set_frame empty_frame w) in
  let run := get_sys_info stale_after_sweep the_host w in
  fst first = Raise (KasaException "timed out")
  /\ loc_device (frame (snd first)) = Some (Some 0)
  /\ heap (snd run) = heap (snd first) ++ [plug the_host]
  /\ (exists out, custom_serializer (plug the_host) = Ok out
                  /\ fst run = sys_info_of out)
  /\ trace (snd run) =
     trace (snd first) ++
     [ EDisconnect 0; EAcquire 0; EConnect (config_of the_host); ERelease 0 ]
  /\ dict_get (device_cache (snd run)) the_host = Some 1.
Proof.
  intros w first run.
  assert (Hfirst : first = (Raise (KasaException "timed out"), snd first))
    by (vm_compute; reflexivity).
  assert (Hloc : loc_device (frame (snd first)) = Some (Some 0))
    by (vm_compute; reflexivity).
  assert (Hcfg : dict_get (device_config_cache w) the_host =
                 Some (config_of the_host)) by (vm_compute; reflexivity).
  assert (Hl : lock_for (snd first) the_host = 0)
    by (vm_compute; reflexivity).
  assert (Hheap : length (heap (snd first)) = 1)
    by (vm_compute; reflexivity).
  split; [vm_compute; reflexivity|]. split; [exact Hloc|].
  destruct (retry_resolves_afresh stale_after_sweep the_host w (snd first)
              (KasaException "timed out") 0 (fun _ _ => eq_refl) Hloc)
    as [Hstatus _].
  destruct (Hstatus Hfirst) as (c & Hc & Hretry).
  rewrite Hcfg in Hc. injection Hc as <-.
  change (lib_connect stale_after_sweep (S (clock (snd first)))
            (config_of the_host))
    with (@inr exn Device (plug the_host)) in Hretry.
  cbv beta iota in Hretry. destruct Hretry as [Hh Hser].
  split; [exact Hh|].
  destruct (custom_serializer (plug the_host)) as [out|e'] eqn:Hout;
    [|discriminate Hout].
  destruct Hser as (Hres & Ht & Hcache). rewrite Hl in Ht.
  rewrite Hheap in Hcache.
  split; [exists out; split; [reflexivity | exact Hres]|].
  split; [exact Ht | exact Hcache].
Defined.

Lemma unsupported_dispatch_policy_witness :
  let w := after_sweep healthy in
  let run := control_device healthy the_host "bogus" "set" VNone None w in
  select_target 0 (nth 0 (heap bulb_world) no_device) None = Ok bulb_target
  /\ supported "fan_speed_level" (t_dev bulb_target) = false
  /\ perform_device_action healthy 0 "fan_speed_level" "set_fan_speed_level"
       (VInt 3) None bulb_world =
     (Raise (ValueError "Invalid feature or action"), bulb_world)
  /\ exists w2,
       trace w2 =
         trace w ++ [ EAcquire 0; ERelease 0; EDisconnect 0; EAcquire 0;
                      EConnect (config_of the_host) ]
       /\ dict_get (device_cache w2) the_host = Some 1
       /\ perform_device_action healthy 1 "bogus" "set" VNone None w2 =
          (Raise (ValueError "Invalid feature or action"), w2)
       /\ fst run = Ok (error_payload (ValueError "Invalid feature or action"))
       /\ trace (snd run) = trace w2 ++ [ERelease 0; EDisconnect 1]
       /\ dict_get (device_cache (snd run)) the_host = None.
Proof.
  intros w run.
  destruct (unsupported_dispatch_policy healthy) as [Hraise Hretry].
  split; [reflexivity|]. split; [reflexivity|].
  split.
  { apply (Hraise 0 "fan_speed_level" "set_fan_speed_level" (VInt 3) None
             bulb_target bulb_world eq_refl eq_refl).
    discriminate. }
  assert (Hcfg : dict_get (device_config_cache w) the_host =
                 Some (config_of the_host)) by (vm_compute; reflexivity).
  assert (Hhit : dict_get (device_cache w) the_host = Some 0)
    by (vm_compute; reflexivity).
  assert (Hlock : dict_get (device_lock_cache w) the_host = Some 0)
    by (vm_compute; reflexivity).
  assert (Hsel : select_target 0 (nth 0 (heap w) no_device) None =
                 Ok {| t_ref := 0; t_child := None;
                       t_dev := plug the_host |})
    by (vm_compute; reflexivity).
  assert (Hheap : length (heap w) = 1) by (vm_compute; reflexivity).
  pose proof (Hretry the_host "bogus" "set" VNone None w
                (config_of the_host) 0 0 _ Hcfg Hhit Hlock Hsel eq_refl
                (fun H => False_ind _ (Bool.diff_false_true H))
                (fun _ _ => eq_refl)) as Hrun.
  cbv zeta in Hrun. rewrite Hheap in Hrun.
  change (lib_connect healthy (S (clock w)) (config_of the_host))
    with (@inr exn Device (plug the_host)) in Hrun.
  cbv beta iota in Hrun.
  destruct Hrun as (w2 & Hh & _ & Ht & Hc & Hsecond).
  assert (Hsel2 : select_target 1 (nth 1 (heap w2) no_device) None =
                  Ok {| t_ref := 1; t_child := None;
                        t_dev := plug the_host |}).
  { rewrite Hh. rewrite app_nth2 by (rewrite Hheap; lia).
    rewrite Hheap. reflexivity. }
  pose proof (Hraise 1 "bogus" "set" VNone None _ w2 Hsel2 eq_refl
                (fun H => False_ind _ (Bool.diff_false_true H))) as Hsec.
  rewrite Hsec in Hsecond. cbn [fst snd] in Hsecond.
  exists w2. split; [exact Ht|]. split; [exact Hc|]. split; [exact Hsec|].
  exact Hsecond.
Defined.

Lemma lock_table_policy_witness :
  let w := after_sweep stale_after_sweep in
  let w' := snd (get_sys_info stale_after_sweep the_host w) in
  known w the_host
  /\ lock_for w the_host = 0
  /\ dict_get (device_lock_cache w) the_host = Some 0
  /\ fst (device_lock_cache_get the_host
            (snd (device_lock_cache_get the_host w))) = Ok 0
  /\ dict_get (device_lock_cache w') the_host = Some 0
  /\ exists tr rest,
       trace w' = trace w ++ tr
       /\ keeps_to_lock 0 tr = true
       /\ forallb is_disconnect (outside_lock false tr) = true
       /\ tr = EAcquire 0 :: rest.
Proof.
  intros w w'.
  assert (Hk : known w the_host) by (vm_compute; discriminate).
  assert (Hl : lock_for w the_host = 0) by (vm_compute; reflexivity).
  split; [exact Hk|]. split; [exact Hl|].
  destruct (lock_table_policy stale_after_sweep the_host w
              (get_sys_info stale_after_sweep the_host)
              (reach_discover _ false None None [] [] _ (reach_start _))
              (or_introl eq_refl))
    as (Hknown & _ & _ & tr & Ht & Hkeep & Hout & Hstart).
  destruct (Hknown Hk) as (H1 & _ & H3 & H4).
  destruct (Hstart Hk) as [rest Hrest].
  rewrite Hl in *.
  split; [exact H1|]. split; [exact H3|]. split; [exact H4|].
  exists tr, rest. auto.
Defined.


End Witnesses.

(** ** More theorems at work *)

Module Applied.
Import Scenario Appliances.

Lemma fan_speed_dispatch_policy_witness :
  select_target 0 (nth 0 (heap (world_of (ceiling_fan the_host))) no_device)
    None = Ok (target_of (ceiling_fan the_host))
  /\ fan (t_dev (target_of (ceiling_fan the_host))) = Some three_speeds
  /\ trace (snd (perform_device_action healthy 0 "fan_speed_level"
                   "set_fan_speed_level" (VInt 3) None
                   (world_of (ceiling_fan the_host)))) =
     [ECall 0 None OnFan "set_fan_speed_level" [VInt 3]].
Proof.
  split; [reflexivity|]. split; [reflexivity|].
  destruct (fan_speed_dispatch_policy healthy 0 "set_fan_speed_level" None
              (world_of (ceiling_fan the_host))
              (target_of (ceiling_fan the_host)) eq_refl three_speeds 3
              eq_refl) as (_ & Hin & _).
  apply Hin. lia.
Defined.

Lemma state_dispatch_calls_action_witness :
  select_target 0 (nth 0 (heap bulb_world) no_device) None = Ok bulb_target
  /\ perform_device_action healthy 0 "state" "turn_on" (VInt 7) None
       bulb_world =
     (Ok success, log (ECall 0 None OnDevice "turn_on" []) bulb_world).
Proof.
  split; [reflexivity|].
  exact (state_dispatch_calls_action healthy 0 "turn_on" None bulb_world
           bulb_target eq_refl (VInt 7)).
Defined.

Lemma child_dispatch_addressing_witness :
  trace (snd (perform_device_action healthy 0 "state" "turn_off" VNone
                (Some (-1)%Z) (world_of (strip the_host)))) =
  [ECall 0 (Some 1) OnDevice "turn_off" []]
  /\ perform_device_action healthy 0 "state" "turn_off" VNone (Some 2%Z)
       (world_of (strip the_host)) =
     (Raise (IndexError "list index out of range"),
      world_of (strip the_host)).
Proof.
  split.
  - destruct (child_dispatch_addressing healthy 0 "state" "turn_off" VNone
                (-1) (world_of (strip the_host))) as [Hin _].
    apply Hin. cbn. lia.
  - destruct (child_dispatch_addressing healthy 0 "state" "turn_off" VNone
                2 (world_of (strip the_host))) as [_ Hout].
    apply Hout. cbn. lia.
Defined.

Lemma non_numeric_value_raises_witness :
  select_target 0 (nth 0 (heap bulb_world) no_device) None = Ok bulb_target
  /\ py_num (VStr "high") = None
  /\ exists msg,
       perform_device_action healthy 0 "brightness" "set_brightness"
         (VStr "high") None bulb_world =
       (Raise (TypeError msg), bulb_world).
Proof.
  split; [reflexivity|]. split; [reflexivity|].
  destruct (non_numeric_value_raises healthy 0 "set_brightness" None
              bulb_world bulb_target eq_refl (VStr "high") eq_refl)
    as (Hb & _).
  exact (Hb eq_refl).
Defined.

Lemma hsv_dispatch_bad_value_witness :
  select_target 0 (nth 0 (heap bulb_world) no_device) None = Ok bulb_target
  /\ has_feature (light (t_dev bulb_target)) "hsv" = Ok true
  /\ perform_device_action healthy 0 "hue" "set_hsv"
       (VDict [("saturation", VInt 10)]) None bulb_world =
     (Raise (KeyError "hue"), bulb_world).
Proof.
  split; [reflexivity|]. split; [reflexivity|].
  destruct (hsv_dispatch_bad_value healthy 0 "set_hsv" None bulb_world
              bulb_target eq_refl "hue" (VDict [("saturation", VInt 10)])
              (or_introl eq_refl) eq_refl) as [Hkey _].
  exact (Hkey [("saturation", VInt 10)] eq_refl eq_refl).
Defined.

Lemma color_temp_inverted_range_witness :
  select_target 0 (nth 0 (heap (world_of (odd_bulb the_host))) no_device)
    None = Ok (target_of (odd_bulb the_host))
  /\ valid_temperature_range inverted_light = (6500, 2500)%Z
  /\ trace (snd (perform_device_action healthy 0 "color_temp"
                   "set_color_temp" (VInt 3000) None
                   (world_of (odd_bulb the_host)))) =
     [ECall 0 None OnLight "set_color_temp" [VInt 6500]].
Proof.
  split; [reflexivity|]. split; [reflexivity|].
  apply (color_temp_inverted_range healthy 0 "set_color_temp" None
           (world_of (odd_bulb the_host)) (target_of (odd_bulb the_host))
           eq_refl inverted_light 6500 2500 3000 eq_refl eq_refl eq_refl).
  lia.
Defined.

Lemma get_or_connect_device_success_witness :
  dict_get (device_cache bulb_world) the_host = Some 0
  /\ get_or_connect_device unreachable the_host (config_of the_host)
       bulb_world = (Ok 0, bulb_world)
  /\ dict_get (device_cache evicted_world) the_host = None
  /\ fst (get_or_connect_device healthy the_host (config_of the_host)
            evicted_world) = Ok 1.
Proof.
  split; [reflexivity|]. split.
  - destruct (get_or_connect_device_success unreachable the_host
                (config_of the_host) bulb_world) as [Hhit _].
    exact (Hhit 0 eq_refl).
  - split; [reflexivity|].
    destruct (get_or_connect_device_success healthy the_host
                (config_of the_host) evicted_world) as [_ Hnew].
    destruct (Hnew (plug the_host) eq_refl eq_refl) as (Hr & _).
    exact Hr.
Defined.

Lemma get_or_connect_device_raises_witness :
  fst (get_or_connect_device unreachable the_host (config_of the_host)
         empty_world) = Raise (KasaException "unable to connect")
  /\ dict_get (device_cache empty_world) the_host = None
  /\ lib_connect unreachable 0 (config_of the_host) =
     inl (KasaException "unable to connect").
Proof.
  split; [reflexivity|].
  exact (get_or_connect_device_raises unreachable the_host
           (config_of the_host) empty_world
           (KasaException "unable to connect") eq_refl).
Defined.

Lemma discover_devices_registers_reported_witness :
  let run := discover_devices healthy false None None [] [] empty_world in
  let info := match fst run with Ok info => info | Raise _ => [] end in
  let v := match dict_get info the_host with Some v => v | None => VNone end in
  run = (Ok info, snd run)
  /\ dict_get info the_host = Some v
  /\ known (snd run) the_host
  /\ locked (snd run) the_host
  /\ device_report v.
Proof.
  intros run info v.
  assert (Hrun : run = (Ok info, snd run)) by (vm_compute; reflexivity).
  assert (Hin : dict_get info the_host = Some v) by (vm_compute; reflexivity).
  split; [exact Hrun|]. split; [exact Hin|].
  exact (discover_devices_registers_reported healthy false None None [] []
           empty_world (snd run) info Hrun the_host v Hin).
Defined.

Lemma unknown_host_raises_witness :
  dict_get (device_config_cache empty_world) the_host = None
  /\ control_device healthy the_host "state" "turn_on" VNone None
       empty_world =
     (Raise (UnboundLocalError "device"), empty_world)
  /\ get_sys_info healthy the_host empty_world =
     (Raise (UnboundLocalError "device"), empty_world).
Proof.
  split; [reflexivity|].
  exact (unknown_host_raises healthy the_host "state" "turn_on" VNone None
           empty_world eq_refl).
Defined.

Lemma get_sys_info_on_cached_handle_witness :
  dict_get (device_config_cache bulb_world) the_host =
    Some (config_of the_host)
  /\ dict_get (device_cache bulb_world) the_host = Some 0
  /\ custom_serializer (bulb the_host) = Ok (snapshot (bulb the_host))
  /\ fst (get_sys_info healthy the_host bulb_world) =
     sys_info_of (snapshot (bulb the_host))
  /\ trace (snd (get_sys_info healthy the_host bulb_world)) =
     [EAcquire 0; EUpdate 0; ERelease 0].
Proof.
  split; [reflexivity|]. split; [reflexivity|]. split; [reflexivity|].
  assert (Hr : 0 < length (heap bulb_world)) by (cbn; lia).
  destruct (get_sys_info_on_cached_handle healthy the_host
              (config_of the_host) 0 (bulb the_host)
              (snapshot (bulb the_host)) bulb_world
              eq_refl eq_refl Hr eq_refl eq_refl) as (Hres & Htrace & _).
  split; [exact Hres | exact Htrace].
Defined.

Lemma connect_failure_raises_witness :
  dict_get (device_config_cache evicted_world) the_host =
    Some (config_of the_host)
  /\ dict_get (device_cache evicted_world) the_host = None
  /\ lib_connect unreachable 0 (config_of the_host) =
     inl (KasaException "unable to connect")
  /\ fst (control_device unreachable the_host "state" "turn_on" VNone None
            evicted_world) = Raise (UnboundLocalError "device")
  /\ trace (snd (get_sys_info unreachable the_host evicted_world)) =
     [EAcquire 0; EConnect (config_of the_host); ERelease 0].
Proof.
  split; [reflexivity|]. split; [reflexivity|]. split; [reflexivity|].
  destruct (connect_failure_raises unreachable the_host "state" "turn_on"
              VNone None (config_of the_host)
              (KasaException "unable to connect") evicted_world
              eq_refl eq_refl eq_refl) as ((Hc & _) & (_ & Ht & _)).
  split; [exact Hc | exact Ht].
Defined.

Lemma custom_serializer_feature_info_witness :
  custom_serializer (ceiling_fan the_host) =
    Ok (snapshot (ceiling_fan the_host))
  /\ py_getitem (snapshot (ceiling_fan the_host)) "feature_info" =
     Ok (VDict [ ("brightness", VBool true); ("color_temp", VBool false);
                 ("hsv", VBool false); ("fan", VBool true) ]).
Proof.
  split; [reflexivity|].
  exact (custom_serializer_feature_info (ceiling_fan the_host)
           (snapshot (ceiling_fan the_host)) eq_refl).
Defined.

Lemma serialize_child_id_suffix_witness :
  device_id socket = "8006AB_00"
  /\ exists out,
       serialize_child socket = Ok out
       /\ py_getitem out "id" = Ok (VStr "00").
Proof.
  split; [reflexivity|]. eexists. split; [reflexivity|].
  destruct (serialize_child_id_suffix socket _ eq_refl) as [Hsuf _].
  exact (Hsuf "8006AB" "00" eq_refl eq_refl).
Defined.

Lemma custom_serializer_child_num_witness :
  custom_serializer (strip the_host) = Ok (snapshot (strip the_host))
  /\ exists sys_info,
       py_getitem (snapshot (strip the_host)) "sys_info" =
       Ok (VDict sys_info)
       /\ dict_get sys_info "child_num" = Some (VInt 2).
Proof.
  split; [reflexivity|].
  destruct (custom_serializer_child_num (strip the_host)
              (snapshot (strip the_host)) eq_refl)
    as (si & Hsi & Hnum & _).
  exists si. split; [exact Hsi | exact Hnum].
Defined.

Lemma get_sys_info_retries_once_witness :
  let first := status_first_attempt stale_after_sweep the_host
                 (set_frame empty_frame (after_sweep stale_after_sweep)) in
  fst first = Raise (KasaException "timed out")
  /\ device_bound (snd first)
  /\ count is_acquire
       (trace (snd (get_sys_info stale_after_sweep the_host
                      (after_sweep stale_after_sweep)))) =
     count is_acquire (trace (after_sweep stale_after_sweep)) + 2.
Proof.
  intros first.
  assert (Hfirst : first = (Raise (KasaException "timed out"), snd first))
    by (vm_compute; reflexivity).
  assert (Hbound : device_bound (snd first))
    by (exists 0; vm_compute; reflexivity).
  split; [vm_compute; reflexivity|]. split; [exact Hbound|].
  destruct (get_sys_info_retries_once stale_after_sweep (fun _ _ => eq_refl)
              the_host (after_sweep stale_after_sweep) (snd first)
              (KasaException "timed out") Hfirst Hbound) as (H1 & _).
  exact H1.
Defined.

Lemma light_feature_without_light_module_witness :
  select_target 0 (nth 0 (heap evicted_world) no_device) None =
    Ok (target_of (plug the_host))
  /\ light (t_dev (target_of (plug the_host))) = None
  /\ perform_device_action healthy 0 "brightness" "set_brightness"
       (VInt 10) None evicted_world =
     (Raise (AttributeError
               "'NoneType' object has no attribute 'has_feature'"),
      evicted_world).
Proof.
  split; [reflexivity|]. split; [reflexivity|].
  exact (light_feature_without_light_module healthy 0 "brightness"
           "set_brightness" (VInt 10) None (target_of (plug the_host))
           evicted_world eq_refl eq_refl eq_refl).
Defined.

End Applied.
